(** * wiilwaal: the route handlers of the social-network server, over a
    relational model of its SQLite database

    The repository ships its Express server in several revisions.  The first
    document of [src/server.js] is an early cut (register, login, feed and
    create-post, answering through script alerts); the two later ones carry
    the handlers studied here:

    - [Server]: the full revision of [src/server.js] (the second document of
      that file: users, posts, comments, likes, chats, messages, admin and
      password-reset routes, no input validation);
    - [Latest]: the deployment revision [src/unnamed/part_000] (register,
      login, feed, create-post and like only; input validation, and the feed
      is cut with [LIMIT 50]).

    A handler is a function from the request's session and the database to a
    response, a new database and a new session.  Every SQL statement is
    written out as the list operation it denotes: [FROM]/[JOIN] as nested
    iteration over the rows in rowid order, [WHERE] as a filter under SQL's
    three-valued logic, [ORDER BY] as a sort, [LIMIT] as a prefix.

    Outside the model: failures of the database engine itself (the [err]
    argument of a callback is only ever a constraint violation here), the
    wall clock and bcrypt's salt (both are inputs of the handlers), REAL
    values, and the multipart parser (a request arrives already parsed: a
    body field is a string or undefined, a URL parameter is the value SQLite
    compares it as). *)

From stdpp Require Import base option list sorting gmap strings.
From Stdlib Require Import ZArith Ascii.

Local Open Scope Z_scope.

(** ** SQLite values and three-valued logic *)

(** A non-NULL value as stored in a column or bound to a [?]: the columns
    compared in this program have INTEGER or TEXT affinity, and a bound
    parameter is compared after the column's affinity has been applied to
    it, so a [datum] stands for the value after that conversion. *)
Inductive datum :=
  | Int (z : Z)
  | Text (s : string).

#[global] Instance datum_eq_dec : EqDecision datum.
Proof. solve_decision. Defined.

(** [None] is NULL (a JavaScript [undefined] or [null] binds as NULL). *)
Definition value := option datum.

Definition sql_eq (a b : value) : option bool :=
  match a, b with
  | Some x, Some y => Some (bool_decide (x = y))
  | _, _ => None
  end.

Definition sql_and (a b : option bool) : option bool :=
  match a, b with
  | Some false, _ | _, Some false => Some false
  | Some true, Some true => Some true
  | _, _ => None
  end.

Definition sql_or (a b : option bool) : option bool :=
  match a, b with
  | Some true, _ | _, Some true => Some true
  | Some false, Some false => Some false
  | _, _ => None
  end.

(** A [WHERE] or [ON] clause keeps a row only when its condition is true:
    false and NULL both drop it. *)
Definition holds (c : option bool) : Prop := c = Some true.

Definition int (z : Z) : value := Some (Int z).
Definition text (s : string) : value := Some (Text s).

(** ** JavaScript helpers *)

(** [!x] on a string-or-undefined: undefined and the empty string are
    falsy. *)
Definition truthy_str (x : option string) : bool :=
  match x with
  | Some (String _ _) => true
  | _ => false
  end.

(** [!x] on a number-or-undefined. *)
Definition truthy_num (x : option Z) : bool :=
  match x with
  | Some z => negb (z =? 0)
  | None => false
  end.

Definition lower_ascii (c : ascii) : ascii :=
  let n := nat_of_ascii c in
  if ((65 <=? n) && (n <=? 90))%nat then ascii_of_nat (n + 32) else c.

(** The case folding of SQLite's [LIKE] and of Express's path matching:
    the letters A to Z only, every other byte as it is. *)
Fixpoint fold_ascii (s : string) : string :=
  match s with
  | EmptyString => EmptyString
  | String c s' => String (lower_ascii c) (fold_ascii s')
  end.

(** [String.prototype.toLowerCase] and [String.prototype.trim].  A
    JavaScript string is held as its UTF-8 bytes, the form in which SQLite
    stores and compares a TEXT value.  The two methods follow the Unicode
    tables of the engine (every cased letter is folded, every Unicode white
    space is trimmed); they are an interface here, as bcrypt is, and what is
    proved below holds for whatever functions implement it. *)
Class JsString := {
  toLowerCase : string → string;
  trim : string → string }.

(** [s.indexOf(needle) > -1] *)
Definition includes (needle s : string) : bool :=
  match String.index 0 needle s with
  | Some _ => true
  | None => false
  end.

(** ** Tables *)

(** Every table has an [INTEGER PRIMARY KEY AUTOINCREMENT] column [id]. *)
Class Row (R : Type) := rowid : R → Z.

(** The rows in rowid order, and the table's entry in [sqlite_sequence]. *)
Record table (R : Type) := Table { rows : list R; seq : Z }.
Arguments Table {R} _ _.
Arguments rows {R} _.
Arguments seq {R} _.

Definition max_rowid `{Row R} (l : list R) : Z :=
  foldr (λ r acc, Z.max (rowid r) acc) 0 l.

(** AUTOINCREMENT: one more than the largest rowid that ever existed. *)
Definition next_rowid `{Row R} (t : table R) : Z :=
  Z.max (seq t) (max_rowid (rows t)) + 1.

Definition insert_row `{Row R} (mk : Z → R) (t : table R) : table R :=
  let i := next_rowid t in Table (rows t ++ [mk i]) i.

Definition delete_where {R} (P : R → Prop) `{∀ r, Decision (P r)}
    (t : table R) : table R :=
  Table (filter (λ r, ¬ P r) (rows t)) (seq t).

Definition update_where {R} (P : R → Prop) `{∀ r, Decision (P r)}
    (f : R → R) (t : table R) : table R :=
  Table ((λ r, if decide (P r) then f r else r) <$> rows t) (seq t).

(** [db.get]: the first row of the result, or undefined. *)
Definition db_get {R} (l : list R) : option R := head l.

Module Users.
Record t := mk {
  id : Z;
  username : string;
  password : string;
  name : option string;
  profile_image : string;
  bio : option string;
  is_admin : Z;
  is_blocked : Z;
  created_at : string }.

Definition set_password (h : string) (u : t) : t :=
  mk (id u) (username u) h (name u) (profile_image u) (bio u)
     (is_admin u) (is_blocked u) (created_at u).

Definition set_is_blocked (b : Z) (u : t) : t :=
  mk (id u) (username u) (password u) (name u) (profile_image u) (bio u)
     (is_admin u) b (created_at u).
End Users.

Module Posts.
Record t := mk {
  id : Z;
  user_id : value;
  content : option string;
  image : option string;
  video : option string;
  audio : option string;
  privacy : option string;
  created_at : string }.
End Posts.

Module Comments.
Record t := mk {
  id : Z;
  post_id : value;
  user_id : value;
  content : option string;
  created_at : string }.
End Comments.

Module Likes.
Record t := mk {
  id : Z;
  post_id : value;
  user_id : value;
  created_at : string }.
End Likes.

Module Chats.
Record t := mk {
  id : Z;
  user1_id : value;
  user2_id : value;
  created_at : string }.
End Chats.

Module Messages.
Record t := mk {
  id : Z;
  chat_id : value;
  sender_id : value;
  content : option string;
  message_type : string;
  file_url : option string;
  created_at : string }.
End Messages.

#[global] Instance users_row : Row Users.t := Users.id.
#[global] Instance posts_row : Row Posts.t := Posts.id.
#[global] Instance comments_row : Row Comments.t := Comments.id.
#[global] Instance likes_row : Row Likes.t := Likes.id.
#[global] Instance chats_row : Row Chats.t := Chats.id.
#[global] Instance messages_row : Row Messages.t := Messages.id.

#[global] Instance posts_eq_dec : EqDecision Posts.t.
Proof. solve_decision. Defined.

Record db := Db {
  users : table Users.t;
  posts : table Posts.t;
  comments : table Comments.t;
  likes : table Likes.t;
  chats : table Chats.t;
  messages : table Messages.t }.

Definition with_users (f : table Users.t → table Users.t) (d : db) : db :=
  Db (f (users d)) (posts d) (comments d) (likes d) (chats d) (messages d).
Definition with_posts (f : table Posts.t → table Posts.t) (d : db) : db :=
  Db (users d) (f (posts d)) (comments d) (likes d) (chats d) (messages d).
Definition with_likes (f : table Likes.t → table Likes.t) (d : db) : db :=
  Db (users d) (posts d) (comments d) (f (likes d)) (chats d) (messages d).
Definition with_messages (f : table Messages.t → table Messages.t)
    (d : db) : db :=
  Db (users d) (posts d) (comments d) (likes d) (chats d) (f (messages d)).

(** ** Sessions, requests and responses *)

(** [req.session]: the three fields the login handler writes. *)
Record session := Session {
  userId : option Z;
  username : option string;
  isAdmin : option bool }.

Definition empty_session : session := Session None None None.

Definition truthy_bool (x : option bool) : bool := default false x.

(** What the guards read of a request besides the session. *)
Record headers := Headers {
  xhr : bool;
  accept : option string }.

(** [req.file] and one entry of [req.files]: the name multer stored the
    upload under. *)
Record upload := Upload { filename : string }.

Module PostRow.
(** [p.*, u.username, u.profile_image, like_count, comment_count,
    user_liked] *)
Record t := mk {
  post : Posts.t;
  username : string;
  profile_image : string;
  like_count : Z;
  comment_count : Z;
  user_liked : Z }.
End PostRow.

Module ProfileRow.
(** [u.*, post_count, like_count] *)
Record t := mk {
  user : Users.t;
  post_count : Z;
  like_count : Z }.
End ProfileRow.

Module AdminUserRow.
(** [*, post_count] *)
Record t := mk {
  user : Users.t;
  post_count : Z }.
End AdminUserRow.

Inductive response :=
  | redirect (location : string)
  | send (status : Z) (body : string)
  | json_error (status : Z) (error : string)
  | json_posts (posts : list PostRow.t)
  | json_liked (liked : bool)
  | json_profile (row : ProfileRow.t)
  | json_admin_users (rows : list AdminUserRow.t)
  | json_success
  | json_message (messageId : Z).

(** A route handler after the framework has looked up the session. *)
Definition handler : Type := session → db → response * db * session.

(** The application's last middleware, reached when a handler throws. *)
Definition server_error : response := send 500 "Server error".

(** ** Guards (the same text in both revisions) *)

(** [None] is [next()]. *)
Definition requireLogin (h : headers) (s : session) : option response :=
  if negb (truthy_num (userId s)) then
    if xhr h then Some (json_error 401 "Authentication required")
    else match accept h with
         | None => Some server_error
         | Some a =>
             if includes "json" a
             then Some (json_error 401 "Authentication required")
             else Some (redirect "/login.html")
         end
  else None.

Definition requireAdmin (s : session) : option response :=
  if negb (truthy_num (userId s)) || negb (truthy_bool (isAdmin s))
  then Some (send 403 "Admin access required")
  else None.

(** The session's [userId] as it is bound to a [?]. *)
Definition bound_userId (s : session) : value := Int <$> userId s.

(** ** Like toggle (the same text in both revisions)

    [part_000] itself creates only [users] and [posts]; its handlers query
    [likes] and [comments] as [server.js] declares them, so they are read
    against that schema. *)

(** [WHERE post_id = ? AND user_id = ?] *)
Definition like_of (postId userId : value) (l : Likes.t) : Prop :=
  holds (sql_and (sql_eq (Likes.post_id l) postId)
                 (sql_eq (Likes.user_id l) userId)).

#[global] Instance like_of_dec postId userId l : Decision (like_of postId userId l).
Proof. unfold like_of, holds. apply _. Defined.

Definition post_like (h : headers) (id : datum) (now : string) : handler :=
  λ s d,
  match requireLogin h s with
  | Some r => (r, d, s)
  | None =>
      let postId := Some id in
      let userId := bound_userId s in
      match db_get (filter (like_of postId userId) (rows (likes d))) with
      | Some _ =>
          (json_liked false,
           with_likes (delete_where (like_of postId userId)) d, s)
      | None =>
          (json_liked true,
           with_likes (insert_row (λ i, Likes.mk i postId userId now)) d, s)
      end
  end.

(** ** Queries shared by the handlers *)

(** bcryptjs, as the handlers use it: [bcrypt_hash password salt] is the
    result of [bcrypt.hash(password, 10)] when the generated salt is [salt];
    [bcrypt_compare password hash] is [bcrypt.compare]. *)
Class Bcrypt := {
  bcrypt_hash : string → string → string;
  bcrypt_compare : string → string → bool }.

(** [ORDER BY created_at DESC]: [x] may come before [y] when [y] is not
    newer.  Timestamps are the text [CURRENT_TIMESTAMP] stores, compared
    byte-wise.  SQLite leaves the order of equal timestamps open; the sort
    used here keeps one of the admissible orders. *)
Definition newest_first {A} (created_at : A → string) : relation A :=
  λ x y, String.leb (created_at y) (created_at x) = true.

#[global] Instance newest_first_dec {A} (f : A → string) x y :
  Decision (newest_first f x y).
Proof. unfold newest_first. apply _. Defined.

Definition count {A} (P : A → Prop) `{∀ x, Decision (P x)} (l : list A) : Z :=
  Z.of_nat (length (filter P l)).

(** [FROM posts p JOIN users u ON p.user_id = u.id] *)
Definition posts_join_users (d : db) : list (Posts.t * Users.t) :=
  p ← rows (posts d);
  u ← filter (λ u, holds (sql_eq (Posts.user_id p) (int (Users.id u))))
         (rows (users d));
  [(p, u)].

(** [WHERE p.privacy = 'public' OR p.user_id = ?] *)
Definition visible_to (userId : value) (p : Posts.t) : Prop :=
  holds (sql_or (sql_eq (Text <$> Posts.privacy p) (text "public"))
                (sql_eq (Posts.user_id p) userId)).

#[global] Instance visible_to_dec userId p : Decision (visible_to userId p).
Proof. unfold visible_to, holds. apply _. Defined.

(** The select list of the feed query for one joined row. *)
Definition feed_row (d : db) (userId : value) (pu : Posts.t * Users.t)
    : PostRow.t :=
  let p := pu.1 in
  let u := pu.2 in
  PostRow.mk p (Users.username u) (Users.profile_image u)
    (count (λ l, holds (sql_eq (Likes.post_id l) (int (Posts.id p))))
           (rows (likes d)))
    (count (λ c, holds (sql_eq (Comments.post_id c) (int (Posts.id p))))
           (rows (comments d)))
    (if decide (Exists (like_of (int (Posts.id p)) userId) (rows (likes d)))
     then 1 else 0).

(** The feed query up to and including [ORDER BY p.created_at DESC]. *)
Definition feed_sorted (d : db) (userId : value) : list (Posts.t * Users.t) :=
  merge_sort (newest_first (λ pu, Posts.created_at pu.1))
    (filter (λ pu, visible_to userId pu.1) (posts_join_users d)).

(** [INSERT INTO users]: the [UNIQUE] constraint on [username] rejects the
    row ([None] is SQLITE_CONSTRAINT). *)
Definition insert_user (mk : Z → Users.t) (t : table Users.t)
    : option (table Users.t) :=
  if decide (Users.username (mk (next_rowid t)) ∈ Users.username <$> rows t)
  then None
  else Some (insert_row mk t).

Definition stored_path (f : option upload) : option string :=
  (λ u, "uploads/" +:+ filename u) <$> f.

Definition profile_image_of (file : option upload) : string :=
  default "images/default-profile.png" (stored_path file).

(** [req.files] after [upload.fields]. *)
Record files := Files {
  image : option upload;
  video : option upload;
  audio : option upload }.

(** [WHERE username = ? AND is_blocked = 0] *)
Definition login_row (name : string) (u : Users.t) : Prop :=
  Users.username u = name ∧ Users.is_blocked u = 0.

#[global] Instance login_row_dec name u : Decision (login_row name u).
Proof. unfold login_row. apply _. Defined.

Definition bad_credentials : response := send 200 "Username ama password khalad".
Definition duplicate_username : response := send 200 "Username hore u jiray".

(** The part of the login handler both revisions share: the lookup and the
    password check, once [username] is known to be a string. *)
Definition login_lookup `{Bcrypt} `{JsString} (u : string)
    (password : option string) : handler :=
  λ s d,
  match db_get (filter (login_row (toLowerCase u)) (rows (users d))) with
  | None => (bad_credentials, d, s)
  | Some user =>
      match password with
      | None => (server_error, d, s)
      | Some pw =>
          if bcrypt_compare pw (Users.password user)
          then (redirect "/", d,
                Session (Some (Users.id user)) (Some (Users.username user))
                        (Some (bool_decide (Users.is_admin user = 1))))
          else (bad_credentials, d, s)
      end
  end.

(** The [INSERT INTO users] of the register handler and its callback. *)
Definition register_insert `{JsString} (u hashedPassword : string)
    (name : option string) (file : option upload) (now : string) : handler :=
  λ s d,
  match insert_user
          (λ i, Users.mk i (toLowerCase u) hashedPassword name
                  (profile_image_of file) None 0 0 now) (users d) with
  | None => (duplicate_username, d, s)
  | Some t => (redirect "/login.html", with_users (λ _, t) d, s)
  end.

(** The [INSERT INTO posts] of the create-post handler and its callback. *)
Definition insert_post (content privacy : option string) (fs : option files)
    (now : string) : handler :=
  λ s d,
  let path (f : files → option upload) := stored_path (fs ≫= f) in
  (redirect "/",
   with_posts
     (insert_row (λ i, Posts.mk i (bound_userId s) content (path image)
                         (path video) (path audio) privacy now)) d,
   s).

(** ** Replies of the remaining routes *)

(** [a != b] *)
Definition sql_neq (a b : value) : option bool := negb <$> sql_eq a b.

(** SQLite's [LIKE] without [ESCAPE], the pattern first: [%] stands for any
    run of characters and [_] for one; every other character stands for
    itself, ASCII letters without regard to case. *)
Fixpoint like_match (pattern : string) : string → bool :=
  match pattern with
  | EmptyString =>
      λ s, match s with EmptyString => true | String _ _ => false end
  | String c pattern' =>
      if Ascii.eqb c "%" then
        fix skip (s : string) : bool :=
          like_match pattern' s ||
          match s with EmptyString => false | String _ s' => skip s' end
      else if Ascii.eqb c "_" then
        λ s, match s with
             | EmptyString => false
             | String _ s' => like_match pattern' s'
             end
      else
        λ s, match s with
             | EmptyString => false
             | String c' s' =>
                 Ascii.eqb (lower_ascii c) (lower_ascii c') &&
                 like_match pattern' s'
             end
  end.

(** [x LIKE ?]: NULL for a NULL column. *)
Definition sql_like (x : option string) (pattern : string) : option bool :=
  like_match pattern <$> x.

(** [ORDER BY created_at ASC] *)
Definition oldest_first {A} (created_at : A → string) : relation A :=
  λ x y, String.leb (created_at x) (created_at y) = true.

(** The sort of a result by ascending [created_at]. *)
Definition sort_oldest_first {A} (created_at : A → string) (l : list A)
    : list A :=
  @merge_sort A (oldest_first created_at)
    (λ x y, decide (String.leb (created_at x) (created_at y) = true)) l.

Module UserInfoRow.
(** [id, username, name, profile_image, is_admin] *)
Record t := mk {
  id : Z;
  username : string;
  name : option string;
  profile_image : string;
  is_admin : Z }.
End UserInfoRow.

Module ProfilePostRow.
(** [p.*, like_count, comment_count] *)
Record t := mk {
  post : Posts.t;
  like_count : Z;
  comment_count : Z }.
End ProfilePostRow.

Module CommentRow.
(** [c.*, u.username, u.profile_image] *)
Record t := mk {
  comment : Comments.t;
  username : string;
  profile_image : string }.
End CommentRow.

Module UserListRow.
(** [id, username, name, profile_image, created_at, post_count] *)
Record t := mk {
  id : Z;
  username : string;
  name : option string;
  profile_image : string;
  created_at : string;
  post_count : Z }.
End UserListRow.

Module UserSearchRow.
(** [id, username, name, profile_image] *)
Record t := mk {
  id : Z;
  username : string;
  name : option string;
  profile_image : string }.
End UserSearchRow.

Module MessageRow.
(** [m.*, u.username, u.profile_image] *)
Record t := mk {
  message : Messages.t;
  username : string;
  profile_image : string }.
End MessageRow.

Module ChatRow.
(** [c.*, other_username, other_profile_image, last_message,
    last_activity] *)
Record t := mk {
  chat : Chats.t;
  other_username : string;
  other_profile_image : string;
  last_message : option string;
  last_activity : option string }.
End ChatRow.

(** What the routes below answer with: a [response] of the routes above, or
    one of their own payloads. *)
Inductive reply :=
  | plain (r : response)
  | send_file (page : string)
  | json_user_info (row : UserInfoRow.t)
  | json_profile_posts (rows : list ProfilePostRow.t)
  | json_comment (commentId : Z)
  | json_comments (rows : list CommentRow.t)
  | json_users (rows : list UserListRow.t)
  | json_found_users (rows : list UserSearchRow.t)
  | json_chats (rows : list ChatRow.t)
  | json_messages (rows : list MessageRow.t)
  | json_chat (c : Chats.t)
  | json_new_chat (id : Z) (user1_id user2_id : value)
  | json_health (timestamp environment : string).

Definition endpoint : Type := session → db → reply * db * session.

(** A handler of the routes above, seen as an endpoint. *)
Definition lift (k : handler) : endpoint :=
  λ s d, let '(r, d', s') := k s d in (plain r, d', s').

Definition with_comments (f : table Comments.t → table Comments.t)
    (d : db) : db :=
  Db (users d) (posts d) (f (comments d)) (likes d) (chats d) (messages d).
Definition with_chats (f : table Chats.t → table Chats.t) (d : db) : db :=
  Db (users d) (posts d) (comments d) (likes d) (f (chats d)) (messages d).

(** [UPDATE users SET username = ?, name = ?, bio = ?] and, when a file was
    uploaded, [profile_image = ?]. *)
Definition set_profile (username : string) (name bio image : option string)
    (u : Users.t) : Users.t :=
  Users.mk (Users.id u) username (Users.password u) name
    (default (Users.profile_image u) image) bio (Users.is_admin u)
    (Users.is_blocked u) (Users.created_at u).

(** [WHERE id = ?] on [users] with the session's [userId]. *)
Definition own_row (s : session) (u : Users.t) : Prop :=
  holds (sql_eq (int (Users.id u)) (bound_userId s)).

#[global] Instance own_row_dec s u : Decision (own_row s u) | 100.
Proof. unfold own_row, holds. apply _. Defined.

(** [SELECT COUNT( * ) FROM posts WHERE user_id = users.id] *)
Definition post_count_of (d : db) (u : Users.t) : Z :=
  count (λ p, holds (sql_eq (Posts.user_id p) (int (Users.id u))))
        (rows (posts d)).

(** NULL sorts below every text. *)
Definition opt_leb (a b : option string) : bool :=
  match a, b with
  | None, _ => true
  | Some _, None => false
  | Some x, Some y => String.leb x y
  end.

(** ** The full revision ([src/server.js], second document) *)

Module Server.

(** [POST /register]: no validation; an undefined password makes
    [bcrypt.hash] reject and an undefined username makes [toLowerCase]
    throw, both inside the [try]. *)
Definition register `{Bcrypt} `{JsString}
    (username password name : option string)
    (file : option upload) (salt now : string) : handler :=
  λ s d,
  match password, username with
  | Some pw, Some u =>
      register_insert u (bcrypt_hash pw salt) name file now s d
  | _, _ => (server_error, d, s)
  end.

(** [POST /login] *)
Definition login `{Bcrypt} `{JsString} (username password : option string)
    : handler :=
  λ s d,
  match username with
  | None => (server_error, d, s)
  | Some u => login_lookup u password s d
  end.

(** [GET /api/posts] *)
Definition get_posts (h : headers) : handler :=
  λ s d,
  match requireLogin h s with
  | Some r => (r, d, s)
  | None =>
      let userId := bound_userId s in
      (json_posts (feed_row d userId <$> feed_sorted d userId), d, s)
  end.

(** [POST /create-post]: [req.files?.image], no validation, [privacy]
    stored as it arrives. *)
Definition create_post (h : headers) (content privacy : option string)
    (fs : option files) (now : string) : handler :=
  λ s d,
  match requireLogin h s with
  | Some r => (r, d, s)
  | None => insert_post content privacy fs now s d
  end.

(** [WHERE id = ? AND (user1_id = ? OR user2_id = ?)] *)
Definition chat_access (chatId userId : value) (c : Chats.t) : Prop :=
  holds (sql_and (sql_eq (int (Chats.id c)) chatId)
                 (sql_or (sql_eq (Chats.user1_id c) userId)
                         (sql_eq (Chats.user2_id c) userId))).

#[global] Instance chat_access_dec chatId userId c :
  Decision (chat_access chatId userId c).
Proof. unfold chat_access, holds. apply _. Defined.

(** [POST /api/chats/:id/messages] *)
Definition send_message (h : headers) (id : datum) (content : option string)
    (file : option upload) (now : string) : handler :=
  λ s d,
  match requireLogin h s with
  | Some r => (r, d, s)
  | None =>
      let chatId := Some id in
      let userId := bound_userId s in
      match db_get (filter (chat_access chatId userId) (rows (chats d))) with
      | None => (json_error 403 "Access denied", d, s)
      | Some _ =>
          let messageType :=
            match file with Some _ => "file" | None => "text" end in
          let fileUrl := stored_path file in
          let t := insert_row
                     (λ i, Messages.mk i chatId userId content messageType
                             fileUrl now) (messages d) in
          (json_message (seq t), with_messages (λ _, t) d, s)
      end
  end.

(** The select list of the profile query for one user row. *)
Definition profile_row (d : db) (u : Users.t) : ProfileRow.t :=
  ProfileRow.mk u
    (count (λ p, holds (sql_eq (Posts.user_id p) (int (Users.id u))))
           (rows (posts d)))
    (Z.of_nat (length (
       l ← rows (likes d);
       p ← filter (λ p, holds (sql_eq (Likes.post_id l) (int (Posts.id p))))
              (rows (posts d));
       if decide (holds (sql_eq (Posts.user_id p) (int (Users.id u))))
       then [(l, p)] else []))).

(** [GET /api/profile/:username] *)
Definition get_profile (h : headers) (username : string) : handler :=
  λ s d,
  match requireLogin h s with
  | Some r => (r, d, s)
  | None =>
      match db_get (profile_row d <$>
              filter (λ u, Users.username u = username) (rows (users d))) with
      | None => (json_error 404 "User not found", d, s)
      | Some user => (json_profile user, d, s)
      end
  end.

Definition admin_user_row (d : db) (u : Users.t) : AdminUserRow.t :=
  AdminUserRow.mk u
    (count (λ p, holds (sql_eq (Posts.user_id p) (int (Users.id u))))
           (rows (posts d))).

(** [GET /api/admin/users] *)
Definition admin_users : handler :=
  λ s d,
  match requireAdmin s with
  | Some r => (r, d, s)
  | None =>
      (json_admin_users
         (admin_user_row d <$>
            merge_sort (newest_first Users.created_at) (rows (users d))),
       d, s)
  end.

(** [WHERE id = ?] on [users], the parameter coming from the URL. *)
Definition user_with_id (id : datum) (u : Users.t) : Prop :=
  holds (sql_eq (int (Users.id u)) (Some id)).

#[global] Instance user_with_id_dec id u : Decision (user_with_id id u).
Proof. unfold user_with_id, holds. apply _. Defined.

(** [POST /api/admin/users/:id/block]; [blocked] is the truthiness of
    [req.body.blocked]. *)
Definition block_user (id : datum) (blocked : bool) : handler :=
  λ s d,
  match requireAdmin s with
  | Some r => (r, d, s)
  | None =>
      (json_success,
       with_users
         (update_where (user_with_id id)
            (Users.set_is_blocked (if blocked then 1 else 0))) d,
       s)
  end.

(** [DELETE /api/admin/users/:id]: no cascade. *)
Definition delete_user (id : datum) : handler :=
  λ s d,
  match requireAdmin s with
  | Some r => (r, d, s)
  | None => (json_success, with_users (delete_where (user_with_id id)) d, s)
  end.

Definition forget_script (username : option string) : string :=
  "<script>alert('Fariin reset password ayaa la ku diray email-kaaga');"
  +:+ "window.location.href = '/reset-password.html?username="
  +:+ default "undefined" username +:+ "';</script>".

(** [POST /forget-password] (the template's line breaks dropped): a
    placeholder that answers with a redirect script and stores nothing. *)
Definition forget_password (username rememberName : option string)
    : handler :=
  λ s d, (send 200 (forget_script username), d, s).

Definition reset_script : string :=
  "<script>alert('Password-kaaga si guul leh ayaa loo beddelay!');"
  +:+ "window.location.href = '/login.html';</script>".

(** [WHERE username = ?] with the parameter bound as it arrives. *)
Definition named (username : option string) (u : Users.t) : Prop :=
  holds (sql_eq (text (Users.username u)) (Text <$> username)).

#[global] Instance named_dec username u : Decision (named username u).
Proof. unfold named, holds. apply _. Defined.

(** [POST /reset-password]: no guard in front of it. *)
Definition reset_password `{Bcrypt} (username newPassword : option string)
    (salt : string) : handler :=
  λ s d,
  match newPassword with
  | None => (server_error, d, s)
  | Some pw =>
      (send 200 reset_script,
       with_users
         (update_where (named username)
            (Users.set_password (bcrypt_hash pw salt))) d,
       s)
  end.

(** *** The remaining routes of the full revision *)

(** [GET /] *)
Definition home : endpoint :=
  λ s d,
  if truthy_num (userId s) then (send_file "index.html", d, s)
  else (plain (redirect "/login.html"), d, s).

Definition allowedPages : list string :=
  ["register.html"; "login.html"; "forget-password.html";
   "reset-password.html"; "index.html"; "settings.html";
   "create-post.html"; "profile.html"; "user-list.html";
   "sheeko.html"; "admin.html"].

(** [GET /:page] *)
Definition page (p : string) : endpoint :=
  λ s d,
  if bool_decide (p ∈ allowedPages) then (send_file p, d, s)
  else (plain (send 404 "Page not found"), d, s).

(** [GET /api/user-info] *)
Definition user_info (h : headers) : endpoint :=
  λ s d,
  match requireLogin h s with
  | Some r => (plain r, d, s)
  | None =>
      match db_get (filter (own_row s) (rows (users d))) with
      | None => (plain (json_error 404 "User not found"), d, s)
      | Some user =>
          (json_user_info
             (UserInfoRow.mk (Users.id user) (Users.username user)
                (Users.name user) (Users.profile_image user)
                (Users.is_admin user)), d, s)
      end
  end.

(** [GET /logout]: [req.session.destroy()] drops the store entry; the next
    request under the cookie starts from an empty session, which is what the
    returned session stands for. *)
Definition logout : endpoint :=
  λ s d, (plain (redirect "/login.html"), d, empty_session).

(** The [UNIQUE] check of an [UPDATE] that sets [username] on the rows
    satisfying [target]: some updated row would share the name with a row
    of another rowid. *)
Definition rename_conflict (target : Users.t → Prop)
    `{∀ u, Decision (target u)} (name : string) (t : table Users.t) : Prop :=
  Exists (λ r, target r ∧
               Exists (λ r', Users.id r' ≠ Users.id r ∧
                             Users.username r' = name) (rows t)) (rows t).

#[global] Instance rename_conflict_dec target `{∀ u, Decision (target u)}
    name t : Decision (rename_conflict target name t) | 100.
Proof. unfold rename_conflict. apply _. Defined.

(** [POST /update-profile]: the session keeps the name as typed, the table
    its lower-case form. *)
Definition update_profile `{JsString} (h : headers)
    (username name bio : option string) (file : option upload) : endpoint :=
  λ s d,
  match requireLogin h s with
  | Some r => (plain r, d, s)
  | None =>
      match username with
      | None => (plain server_error, d, s)
      | Some u =>
          if decide (rename_conflict (own_row s) (toLowerCase u) (users d))
          then (plain duplicate_username, d, s)
          else
            (plain (redirect "/settings.html"),
             with_users
               (update_where (own_row s)
                  (set_profile (toLowerCase u) name bio (stored_path file))) d,
             Session (userId s) (Some u) (isAdmin s))
      end
  end.

(** [POST /update-password]: a missing row makes [user.password] throw and
    a missing password makes bcrypt reject, both inside the [try]. *)
Definition update_password `{Bcrypt} (h : headers)
    (currentPassword newPassword : option string) (salt : string)
    : endpoint :=
  λ s d,
  match requireLogin h s with
  | Some r => (plain r, d, s)
  | None =>
      match db_get (filter (own_row s) (rows (users d))), currentPassword with
      | Some user, Some cur =>
          if bcrypt_compare cur (Users.password user)
          then
            match newPassword with
            | None => (plain server_error, d, s)
            | Some new =>
                (plain (redirect "/settings.html?message=password_updated"),
                 with_users
                   (update_where (own_row s)
                      (Users.set_password (bcrypt_hash new salt))) d,
                 s)
            end
          else (plain (send 200 "Password-ka hadda waa khalad"), d, s)
      | _, _ => (plain server_error, d, s)
      end
  end.

(** [SELECT COUNT( * ) FROM likes WHERE post_id = p.id] and the same on
    comments. *)
Definition like_count_of (d : db) (p : Posts.t) : Z :=
  count (λ l, holds (sql_eq (Likes.post_id l) (int (Posts.id p))))
        (rows (likes d)).
Definition comment_count_of (d : db) (p : Posts.t) : Z :=
  count (λ c, holds (sql_eq (Comments.post_id c) (int (Posts.id p))))
        (rows (comments d)).

(** [GET /api/profile/:username/posts] *)
Definition profile_posts (h : headers) (username : string) : endpoint :=
  λ s d,
  match requireLogin h s with
  | Some r => (plain r, d, s)
  | None =>
      let currentUserId := bound_userId s in
      (json_profile_posts
         ((λ pu : Posts.t * Users.t,
             ProfilePostRow.mk pu.1 (like_count_of d pu.1)
               (comment_count_of d pu.1)) <$>
          merge_sort (newest_first (λ pu, Posts.created_at pu.1))
            (filter (λ pu, Users.username pu.2 = username ∧
                           visible_to currentUserId pu.1)
               (posts_join_users d))),
       d, s)
  end.

(** [POST /api/posts/:id/comment] *)
Definition add_comment (h : headers) (id : datum) (content : option string)
    (now : string) : endpoint :=
  λ s d,
  match requireLogin h s with
  | Some r => (plain r, d, s)
  | None =>
      let t := insert_row
                 (λ i, Comments.mk i (Some id) (bound_userId s) content now)
                 (comments d) in
      (json_comment (seq t), with_comments (λ _, t) d, s)
  end.

(** [FROM comments c JOIN users u ON c.user_id = u.id WHERE c.post_id = ?] *)
Definition comments_of (d : db) (postId : value)
    : list (Comments.t * Users.t) :=
  filter (λ cu, holds (sql_eq (Comments.post_id cu.1) postId))
    (c ← rows (comments d);
     u ← filter (λ u, holds (sql_eq (Comments.user_id c) (int (Users.id u))))
            (rows (users d));
     [(c, u)]).

(** [GET /api/posts/:id/comments] *)
Definition get_comments (h : headers) (id : datum) : endpoint :=
  λ s d,
  match requireLogin h s with
  | Some r => (plain r, d, s)
  | None =>
      (json_comments
         ((λ cu : Comments.t * Users.t,
             CommentRow.mk cu.1 (Users.username cu.2)
               (Users.profile_image cu.2)) <$>
          sort_oldest_first (λ cu, Comments.created_at cu.1)
            (comments_of d (Some id))),
       d, s)
  end.

(** [WHERE is_blocked = 0 AND id != ?] *)
Definition listed_for (userId : value) (u : Users.t) : Prop :=
  Users.is_blocked u = 0 ∧ holds (sql_neq (int (Users.id u)) userId).

#[global] Instance listed_for_dec userId u : Decision (listed_for userId u) | 100.
Proof. unfold listed_for, holds. apply _. Defined.

(** [GET /api/users] *)
Definition list_users (h : headers) : endpoint :=
  λ s d,
  match requireLogin h s with
  | Some r => (plain r, d, s)
  | None =>
      (json_users
         ((λ u, UserListRow.mk (Users.id u) (Users.username u) (Users.name u)
                  (Users.profile_image u) (Users.created_at u)
                  (post_count_of d u)) <$>
          merge_sort (newest_first Users.created_at)
            (filter (listed_for (bound_userId s)) (rows (users d)))),
       d, s)
  end.

(** [WHERE (username LIKE ? OR name LIKE ?) AND is_blocked = 0 AND id != ?] *)
Definition found_by (pattern : string) (userId : value) (u : Users.t) : Prop :=
  holds (sql_or (sql_like (Some (Users.username u)) pattern)
                (sql_like (Users.name u) pattern)) ∧
  Users.is_blocked u = 0 ∧ holds (sql_neq (int (Users.id u)) userId).

#[global] Instance found_by_dec pattern userId u :
  Decision (found_by pattern userId u) | 100.
Proof. unfold found_by, holds. apply _. Defined.

(** [GET /api/users/search]; [q] is [req.query.q], one string or absent,
    and goes into the template [`%${searchTerm}%`].  No [ORDER BY]: the
    rows come in rowid order, [LIMIT 10]. *)
Definition search_users (h : headers) (q : option string) : endpoint :=
  λ s d,
  match requireLogin h s with
  | Some r => (plain r, d, s)
  | None =>
      let pattern := "%" +:+ default "undefined" q +:+ "%" in
      (json_found_users
         (take 10
            ((λ u, UserSearchRow.mk (Users.id u) (Users.username u)
                     (Users.name u) (Users.profile_image u)) <$>
             filter (found_by pattern (bound_userId s)) (rows (users d)))),
       d, s)
  end.

(** [FROM chats c JOIN users u1 ON c.user1_id = u1.id
     JOIN users u2 ON c.user2_id = u2.id] *)
Definition chats_join_users (d : db) : list (Chats.t * Users.t * Users.t) :=
  c ← rows (chats d);
  u1 ← filter (λ u, holds (sql_eq (Chats.user1_id c) (int (Users.id u))))
          (rows (users d));
  u2 ← filter (λ u, holds (sql_eq (Chats.user2_id c) (int (Users.id u))))
          (rows (users d));
  [(c, u1, u2)].

(** [SELECT ... FROM messages WHERE chat_id = c.id
     ORDER BY created_at DESC LIMIT 1] *)
Definition last_message_of (d : db) (c : Chats.t) : option Messages.t :=
  head (merge_sort (newest_first Messages.created_at)
          (filter (λ m, holds (sql_eq (Messages.chat_id m) (int (Chats.id c))))
             (rows (messages d)))).

(** The select list of the chat listing; a [CASE] whose condition is not
    true takes its [ELSE]. *)
Definition chat_row (d : db) (userId : value)
    (x : Chats.t * Users.t * Users.t) : ChatRow.t :=
  let c := x.1.1 in
  let other :=
    if decide (holds (sql_eq (Chats.user1_id c) userId)) then x.2 else x.1.2 in
  let last := last_message_of d c in
  ChatRow.mk c (Users.username other) (Users.profile_image other)
    (last ≫= Messages.content) (Messages.created_at <$> last).

(** [WHERE c.user1_id = ? OR c.user2_id = ?] *)
Definition party_to (userId : value) (c : Chats.t) : Prop :=
  holds (sql_or (sql_eq (Chats.user1_id c) userId)
                (sql_eq (Chats.user2_id c) userId)).

#[global] Instance party_to_dec userId c : Decision (party_to userId c) | 100.
Proof. unfold party_to, holds. apply _. Defined.

(** [GET /api/chats], [ORDER BY last_activity DESC] *)
Definition get_chats (h : headers) : endpoint :=
  λ s d,
  match requireLogin h s with
  | Some r => (plain r, d, s)
  | None =>
      let userId := bound_userId s in
      (json_chats
         (@merge_sort ChatRow.t
            (λ x y, opt_leb (ChatRow.last_activity y)
                            (ChatRow.last_activity x) = true)
            (λ x y, decide (opt_leb (ChatRow.last_activity y)
                                    (ChatRow.last_activity x) = true))
            (chat_row d userId <$>
               filter (λ x, party_to userId x.1.1) (chats_join_users d))),
       d, s)
  end.

(** [GET /api/chats/:id/messages] *)
Definition get_messages (h : headers) (id : datum) : endpoint :=
  λ s d,
  match requireLogin h s with
  | Some r => (plain r, d, s)
  | None =>
      let chatId := Some id in
      let userId := bound_userId s in
      match db_get (filter (chat_access chatId userId) (rows (chats d))) with
      | None => (plain (json_error 403 "Access denied"), d, s)
      | Some _ =>
          (json_messages
             ((λ mu : Messages.t * Users.t,
                 MessageRow.mk mu.1 (Users.username mu.2)
                   (Users.profile_image mu.2)) <$>
              sort_oldest_first (λ mu, Messages.created_at mu.1)
                (filter (λ mu, holds (sql_eq (Messages.chat_id mu.1) chatId))
                   (m ← rows (messages d);
                    u ← filter (λ u, holds (sql_eq (Messages.sender_id m)
                                                   (int (Users.id u))))
                           (rows (users d));
                    [(m, u)]))),
           d, s)
      end
  end.

(** [WHERE (user1_id = ? AND user2_id = ?) OR (user1_id = ? AND user2_id = ?)]
    bound to [userId, otherUserId, otherUserId, userId]. *)
Definition chat_between (userId otherUserId : value) (c : Chats.t) : Prop :=
  holds (sql_or
           (sql_and (sql_eq (Chats.user1_id c) userId)
                    (sql_eq (Chats.user2_id c) otherUserId))
           (sql_and (sql_eq (Chats.user1_id c) otherUserId)
                    (sql_eq (Chats.user2_id c) userId))).

#[global] Instance chat_between_dec userId otherUserId c :
  Decision (chat_between userId otherUserId c) | 100.
Proof. unfold chat_between, holds. apply _. Defined.

(** [POST /api/chats]; [otherUserId] is the body field as SQLite compares
    it, NULL when the field is absent. *)
Definition create_chat (h : headers) (otherUserId : value) (now : string)
    : endpoint :=
  λ s d,
  match requireLogin h s with
  | Some r => (plain r, d, s)
  | None =>
      let userId := bound_userId s in
      match db_get (filter (chat_between userId otherUserId)
                      (rows (chats d))) with
      | Some existingChat => (json_chat existingChat, d, s)
      | None =>
          let t := insert_row (λ i, Chats.mk i userId otherUserId now)
                     (chats d) in
          (json_new_chat (seq t) userId otherUserId, with_chats (λ _, t) d, s)
      end
  end.

(** [GET /health]; the clock and [NODE_ENV] are inputs. *)
Definition health (timestamp : string) (node_env : option string) : endpoint :=
  λ s d, (json_health timestamp (default "development" node_env), d, s).

(** The default administrator, created at start-up when [users] is empty. *)
Definition create_default_admin `{Bcrypt} (salt now : string) (d : db) : db :=
  if bool_decide (length (rows (users d)) = 0%nat)
  then with_users
         (insert_row (λ i, Users.mk i "admin" (bcrypt_hash "admin123" salt)
                             (Some "Admin User") "images/default-profile.png"
                             None 1 0 now)) d
  else d.

End Server.

(** ** The deployment revision ([src/unnamed/part_000]) *)

Module Latest.

(** [POST /register] *)
Definition register `{Bcrypt} `{JsString}
    (username password name : option string)
    (file : option upload) (salt now : string) : handler :=
  λ s d,
  if negb (truthy_str username) || negb (truthy_str password)
     || negb (truthy_str name)
  then (send 400 "Fadlan buuxi dhammaan fields-ka", d, s)
  else
    match password, username with
    | Some pw, Some u =>
        register_insert u (bcrypt_hash pw salt) name file now s d
    | _, _ => (server_error, d, s)
    end.

(** [POST /login] *)
Definition login `{Bcrypt} `{JsString} (username password : option string)
    : handler :=
  λ s d,
  if negb (truthy_str username) || negb (truthy_str password)
  then (send 400 "Fadlan geli username iyo password", d, s)
  else
    match username with
    | None => (server_error, d, s)
    | Some u => login_lookup u password s d
    end.

(** [GET /api/posts]: the query of the full revision with [LIMIT 50];
    [posts || []] changes nothing, [db.all] yields an array. *)
Definition get_posts (h : headers) : handler :=
  λ s d,
  match requireLogin h s with
  | Some r => (r, d, s)
  | None =>
      let userId := bound_userId s in
      (json_posts (feed_row d userId <$> take 50 (feed_sorted d userId)),
       d, s)
  end.

(** [POST /create-post]: [privacy = 'public'] when the field is absent;
    [req.files.image] without [?.], so a request that is not multipart
    ([req.files] undefined) throws. *)
Definition create_post (h : headers) (content privacy : option string)
    (fs : option files) (now : string) : handler :=
  λ s d,
  match requireLogin h s with
  | Some r => (r, d, s)
  | None =>
      let privacy := Some (default "public" privacy) in
      match fs with
      | None => (server_error, d, s)
      | Some f =>
          if negb (truthy_str content) && negb (bool_decide (is_Some (image f)))
             && negb (bool_decide (is_Some (video f)))
             && negb (bool_decide (is_Some (audio f)))
          then (send 400 "Fadlan geli content ama dooro file", d, s)
          else insert_post content privacy fs now s d
      end
  end.

(** [GET /], [GET /:page], [GET /api/user-info], [GET /logout] and
    [GET /health] have the text of the full revision. *)
Definition home : endpoint := Server.home.
Definition page : string → endpoint := Server.page.
Definition user_info : headers → endpoint := Server.user_info.
Definition logout : endpoint := Server.logout.
Definition health : string → option string → endpoint := Server.health.

End Latest.

(** ** The session store *)

(** The server between two requests: the database file and the session
    store, keyed by the session cookie. *)
Record server := MkServer {
  database : db;
  sessions : gmap string session }.

Definition session_of (σ : server) (sid : string) : session :=
  default empty_session (sessions σ !! sid).

(** One request: the session is looked up, the handler runs, the session is
    written back under the same key. *)
Definition serve (sid : string) (k : handler) (σ : server)
    : response * server :=
  let '(r, d, s) := k (session_of σ sid) (database σ) in
  (r, MkServer d (<[sid := s]> (sessions σ))).

(** ** Invariants the schema maintains *)

(** [PRIMARY KEY] *)
Definition unique_ids `{Row R} (t : table R) : Prop :=
  NoDup (rowid <$> rows t).

(** [username TEXT UNIQUE] *)
Definition unique_usernames (d : db) : Prop :=
  NoDup (Users.username <$> rows (users d)).

(** What [PRIMARY KEY] and [UNIQUE] guarantee of a database file. *)
Definition schema_ok (d : db) : Prop :=
  unique_usernames d ∧ unique_ids (users d) ∧ unique_ids (posts d) ∧
  unique_ids (likes d) ∧ unique_ids (chats d) ∧ unique_ids (messages d).

(** The routes modelled above, with the parameters a request supplies. *)
Inductive route : handler → Prop :=
  | route_like h id now : route (post_like h id now)
  | route_register (B : Bcrypt) (J : JsString) u p n f salt now :
      route (@Server.register B J u p n f salt now)
  | route_login (B : Bcrypt) (J : JsString) u p : route (@Server.login B J u p)
  | route_get_posts h : route (Server.get_posts h)
  | route_create_post h c p fs now : route (Server.create_post h c p fs now)
  | route_send_message h id c f now : route (Server.send_message h id c f now)
  | route_get_profile h u : route (Server.get_profile h u)
  | route_admin_users : route Server.admin_users
  | route_block_user id b : route (Server.block_user id b)
  | route_delete_user id : route (Server.delete_user id)
  | route_forget_password u r : route (Server.forget_password u r)
  | route_reset_password (B : Bcrypt) u p salt :
      route (@Server.reset_password B u p salt)
  | route_latest_register (B : Bcrypt) (J : JsString) u p n f salt now :
      route (@Latest.register B J u p n f salt now)
  | route_latest_login (B : Bcrypt) (J : JsString) u p :
      route (@Latest.login B J u p)
  | route_latest_get_posts h : route (Latest.get_posts h)
  | route_latest_create_post h c p fs now :
      route (Latest.create_post h c p fs now).

(** ** Quantities the statements below refer to *)

(** The joined rows visible to [userId] that are at least as new as [p]
    ([p]'s own row included). *)
Definition not_older_than (d : db) (userId : value) (p : Posts.t)
    : list (Posts.t * Users.t) :=
  filter (λ pu, newest_first Posts.created_at pu.1 p ∧ visible_to userId pu.1)
    (posts_join_users d).

(** ** Sample data *)

Definition empty_table {R} : table R := Table [] 0.

Definition admin : Users.t :=
  Users.mk 1 "admin" "$2a$10$saltadmin123" (Some "Admin User")
    "images/default-profile.png" None 1 0 "2024-01-01 08:00:00".

Definition amina : Users.t :=
  Users.mk 2 "amina" "$2a$10$saltpass1234" (Some "Amina A")
    "images/default-profile.png" None 0 0 "2024-01-01 09:00:00".

Definition bashir : Users.t :=
  Users.mk 3 "bashir" "$2a$10$saltsecret" (Some "Bashir B")
    "images/default-profile.png" None 0 0 "2024-01-01 09:30:00".

(** A stand-in for bcrypt in the examples: the digest is the salt followed
    by the password, and comparing checks that the digest ends with the
    password. *)
Definition sample_bcrypt : Bcrypt :=
  {| bcrypt_hash password salt := "$2a$10$" +:+ salt +:+ password;
     bcrypt_compare password hash :=
       String.eqb
         (String.substring (String.length hash - String.length password)
                    (String.length password) hash)
         password |}.

(** Stand-ins for the two string methods in the examples: they agree with
    the engine on text of ASCII and the Latin-1 supplement, whose letters
    have the UTF-8 form 195 and one more byte, and whose no-break space is
    194 160. *)
Definition lower_latin1 (after195 : bool) (c : ascii) : ascii :=
  let n := nat_of_ascii c in
  if after195 then
    if ((128 <=? n) && (n <=? 158) && negb (n =? 151))%nat
    then ascii_of_nat (n + 32) else c
  else lower_ascii c.

Fixpoint lower_utf8 (after195 : bool) (s : string) : string :=
  match s with
  | EmptyString => EmptyString
  | String c s' =>
      String (lower_latin1 after195 c)
        (lower_utf8 (nat_of_ascii c =? 195)%nat s')
  end.

Definition is_space (c : ascii) : bool :=
  let n := nat_of_ascii c in
  ((9 <=? n) && (n <=? 13) || (n =? 32))%nat.

Definition is_nbsp (c c' : ascii) : bool :=
  ((nat_of_ascii c =? 194) && (nat_of_ascii c' =? 160))%nat.

Fixpoint trim_start (s : string) : string :=
  match s with
  | EmptyString => EmptyString
  | String c s' =>
      if is_space c then trim_start s'
      else match s' with
           | String c' s'' => if is_nbsp c c' then trim_start s'' else s
           | EmptyString => s
           end
  end.

Fixpoint trim_end (s : string) : string :=
  match s with
  | EmptyString => EmptyString
  | String c s' =>
      match trim_end s' with
      | EmptyString => if is_space c then EmptyString else String c EmptyString
      | String c' EmptyString =>
          if is_nbsp c c' then EmptyString
          else String c (String c' EmptyString)
      | rest => String c rest
      end
  end.

Definition sample_strings : JsString :=
  {| toLowerCase := lower_utf8 false;
     trim := λ s, trim_end (trim_start s) |}.

Definition admin_session : session :=
  Session (Some 1) (Some "admin") (Some true).
Definition amina_session : session :=
  Session (Some 2) (Some "amina") (Some false).
Definition bashir_session : session :=
  Session (Some 3) (Some "bashir") (Some false).

Definition browser : headers := Headers false (Some "text/html").

(** A post of bashir's that only he may see. *)
Definition private_post : Posts.t :=
  Posts.mk 1 (int 3) (Some "sir") None None None (Some "private")
    "2024-01-02 10:00:00".

(** A public post of amina's, written later. *)
Definition public_post (i : Z) : Posts.t :=
  Posts.mk i (int 2) (Some "Salaan") None None None (Some "public")
    "2024-01-03 10:00:00".

Definition small_db : db :=
  Db (Table [admin; amina; bashir] 3) (Table [private_post; public_post 2] 2)
     empty_table empty_table
     (Table [Chats.mk 1 (int 1) (int 2) "2024-01-02 12:00:00"] 1) empty_table.

(** [small_db] with fifty public posts after the private one. *)
Definition crowded_db : db :=
  with_posts (λ _, Table (private_post :: (public_post <$> seqZ 2 50)) 51)
    small_db.

(** [small_db] after the administrator has deleted bashir's account. *)
Definition orphaned_db : db :=
  (Server.delete_user (Int 3) admin_session small_db).1.2.

(** The server with the administrator and amina logged in. *)
Definition sample_server : server :=
  MkServer small_db
    {[ "sid-admin" := admin_session; "sid-amina" := amina_session ]}.

(** A multipart create-post request without any file. *)
Definition no_files : files := Files None None None.

(** ** The route tables *)

Inductive method := GET | POST | DELETE.

#[global] Instance method_eq_dec : EqDecision method.
Proof. solve_decision. Defined.

(** A segment of a route path: a literal or a [:name] parameter. *)
Inductive segment :=
  | lit (s : string)
  | par (name : string).

Inductive route_name :=
  | r_home | r_page | r_user_info | r_register | r_login | r_logout
  | r_update_profile | r_update_password | r_profile | r_profile_posts
  | r_posts | r_create_post | r_like | r_comment | r_comments
  | r_users | r_users_search | r_chats | r_messages | r_send_message
  | r_create_chat | r_admin_stats | r_admin_users | r_block | r_delete_user
  | r_health | r_forget_password | r_reset_password.

#[global] Instance route_name_eq_dec : EqDecision route_name.
Proof. solve_decision. Defined.

(** Express's path matching with its defaults, on a path given as the list
    of its segments: a literal is compared without regard to ASCII case, a
    parameter takes one non-empty segment, nothing may be left over. *)
Fixpoint match_path (pat : list segment) (path : list string)
    : option (list (string * string)) :=
  match pat, path with
  | [], [] => Some []
  | lit l :: pat', x :: path' =>
      if String.eqb (fold_ascii l) (fold_ascii x)
      then match_path pat' path' else None
  | par n :: pat', x :: path' =>
      match x with
      | EmptyString => None
      | _ => cons (n, x) <$> match_path pat' path'
      end
  | _, _ => None
  end.

(** The first route, in registration order, whose method and path match:
    its handler answers and never calls [next()]. *)
Fixpoint first_match (table : list (method * list segment * route_name))
    (m : method) (path : list string)
    : option (route_name * list (string * string)) :=
  match table with
  | [] => None
  | (m', pat, r) :: table' =>
      if decide (m' = m)
      then match match_path pat path with
           | Some ps => Some (r, ps)
           | None => first_match table' m path
           end
      else first_match table' m path
  end.

(** What answers a request. *)
Inductive target :=
  | static_file
  | routed (r : route_name) (params : list (string * string))
  | not_found.

(** [express.static] comes first and answers a GET for a file it has
    ([public] tells which paths those are); then the table; then the 404
    middleware. *)
Definition dispatch (table : list (method * list segment * route_name))
    (public : list string → bool) (m : method) (path : list string)
    : target :=
  if bool_decide (m = GET) && public path then static_file
  else match first_match table m path with
       | Some (r, ps) => routed r ps
       | None => not_found
       end.

(** [app.get], [app.post] and [app.delete] of the full revision, in the
    order of the file. *)
Definition server_table : list (method * list segment * route_name) :=
  [ (GET, [], r_home);
    (GET, [par "page"], r_page);
    (GET, [lit "api"; lit "user-info"], r_user_info);
    (POST, [lit "register"], r_register);
    (POST, [lit "login"], r_login);
    (GET, [lit "logout"], r_logout);
    (POST, [lit "update-profile"], r_update_profile);
    (POST, [lit "update-password"], r_update_password);
    (GET, [lit "api"; lit "profile"; par "username"], r_profile);
    (GET, [lit "api"; lit "profile"; par "username"; lit "posts"],
       r_profile_posts);
    (GET, [lit "api"; lit "posts"], r_posts);
    (POST, [lit "create-post"], r_create_post);
    (POST, [lit "api"; lit "posts"; par "id"; lit "like"], r_like);
    (POST, [lit "api"; lit "posts"; par "id"; lit "comment"], r_comment);
    (GET, [lit "api"; lit "posts"; par "id"; lit "comments"], r_comments);
    (GET, [lit "api"; lit "users"], r_users);
    (GET, [lit "api"; lit "users"; lit "search"], r_users_search);
    (GET, [lit "api"; lit "chats"], r_chats);
    (GET, [lit "api"; lit "chats"; par "id"; lit "messages"], r_messages);
    (POST, [lit "api"; lit "chats"; par "id"; lit "messages"],
       r_send_message);
    (POST, [lit "api"; lit "chats"], r_create_chat);
    (GET, [lit "api"; lit "admin"; lit "stats"], r_admin_stats);
    (GET, [lit "api"; lit "admin"; lit "users"], r_admin_users);
    (POST, [lit "api"; lit "admin"; lit "users"; par "id"; lit "block"],
       r_block);
    (DELETE, [lit "api"; lit "admin"; lit "users"; par "id"], r_delete_user);
    (GET, [lit "health"], r_health);
    (POST, [lit "forget-password"], r_forget_password);
    (POST, [lit "reset-password"], r_reset_password) ].

(** The same for [part_000]. *)
Definition latest_table : list (method * list segment * route_name) :=
  [ (GET, [], r_home);
    (GET, [par "page"], r_page);
    (GET, [lit "api"; lit "user-info"], r_user_info);
    (POST, [lit "register"], r_register);
    (POST, [lit "login"], r_login);
    (GET, [lit "logout"], r_logout);
    (GET, [lit "api"; lit "posts"], r_posts);
    (POST, [lit "create-post"], r_create_post);
    (POST, [lit "api"; lit "posts"; par "id"; lit "like"], r_like);
    (GET, [lit "health"], r_health) ].

(** ** All routes as endpoints *)

(** The routes of both revisions with the parameters a request supplies
    (the statistics route apart, whose [reports] table is not modelled). *)
Inductive served : endpoint → Prop :=
  | served_route k : route k → served (lift k)
  | served_home : served Server.home
  | served_page p : served (Server.page p)
  | served_user_info h : served (Server.user_info h)
  | served_logout : served Server.logout
  | served_update_profile (J : JsString) h u n b f :
      served (@Server.update_profile J h u n b f)
  | served_update_password (B : Bcrypt) h c n salt :
      served (@Server.update_password B h c n salt)
  | served_profile_posts h u : served (Server.profile_posts h u)
  | served_add_comment h id c now : served (Server.add_comment h id c now)
  | served_get_comments h id : served (Server.get_comments h id)
  | served_list_users h : served (Server.list_users h)
  | served_search_users h q : served (Server.search_users h q)
  | served_get_chats h : served (Server.get_chats h)
  | served_get_messages h id : served (Server.get_messages h id)
  | served_create_chat h o now : served (Server.create_chat h o now)
  | served_health t e : served (Server.health t e).

(** [schema_ok] with the primary key of [comments]. *)
Definition schema_ok_all (d : db) : Prop :=
  schema_ok d ∧ unique_ids (comments d).

(** At most one like row for every post and user. *)
Definition likes_unique (d : db) : Prop :=
  ∀ postId userId,
    (length (filter (like_of postId userId) (rows (likes d))) ≤ 1)%nat.

(** bcrypt accepts the password a hash was made from. *)
Definition bcrypt_sound (B : Bcrypt) : Prop :=
  ∀ password salt, bcrypt_compare password (bcrypt_hash password salt) = true.

(** A feed row after one more like by the requester. *)
Definition liked_once (r : PostRow.t) : PostRow.t :=
  PostRow.mk (PostRow.post r) (PostRow.username r) (PostRow.profile_image r)
    (PostRow.like_count r + 1) (PostRow.comment_count r) 1.

(** [small_db] with two like rows of bashir for post 2, as two racing
    requests can leave them. *)
Definition double_liked_db : db :=
  with_likes
    (λ _, Table [Likes.mk 1 (int 2) (int 3) "2024-01-07 10:00:00";
                 Likes.mk 2 (int 2) (int 3) "2024-01-07 10:00:00"] 2)
    small_db.



(** ** The search box of the feed page ([src/public/js/main.js]) *)

Module Client.





End Client.
(** * Properties *)

(** ** Lists, filters and tables *)

Lemma filter_none_neg {A} (P : A → Prop) `{∀ x, Decision (P x)} (l : list A) :
  filter P l = [] → filter (λ x, ¬ P x) l = l.
Proof.
  induction l as [|x l IH]; [done|].
  rewrite !filter_cons. destruct (decide (P x)) as [HP|HP]; [done|].
  intros Hl. rewrite decide_True by done. by rewrite IH.
Qed.

Lemma filter_none_iff {A} (P : A → Prop) `{∀ x, Decision (P x)} (l : list A) :
  filter P l = [] ↔ ∀ x, x ∈ l → ¬ P x.
Proof.
  split.
  - intros Hnil x Hx HP. by eapply filter_nil_not_elem_of.
  - induction l as [|x l IH]; [done|]. intros Hall.
    rewrite filter_cons, decide_False by (apply Hall; by left).
    apply IH. intros y Hy. apply Hall. by right.
Qed.

Lemma filter_snoc_True {A} (P : A → Prop) `{∀ x, Decision (P x)} l x :
  P x → filter P (l ++ [x]) = filter P l ++ [x].
Proof. intros HP. by rewrite filter_app, filter_cons, decide_True. Qed.

Lemma filter_snoc_neg {A} (P : A → Prop) `{∀ x, Decision (P x)} l x :
  P x → filter (λ y, ¬ P y) (l ++ [x]) = filter (λ y, ¬ P y) l.
Proof.
  intros HP. rewrite filter_app, filter_cons, decide_False by tauto.
  by rewrite filter_nil, app_nil_r.
Qed.

Lemma sql_eq_refl (x : datum) : sql_eq (Some x) (Some x) = Some true.
Proof. unfold sql_eq. by rewrite bool_decide_eq_true_2. Qed.

Lemma sql_eq_Some_true (a b : value) :
  sql_eq a b = Some true ↔ ∃ x, a = Some x ∧ b = Some x.
Proof.
  destruct a as [x|], b as [y|]; simpl; split;
    try (intros [z [? ?]]; simplify_eq); try done.
  - intros [= Hxy%bool_decide_eq_true_1]. subst. eauto.
  - by rewrite bool_decide_eq_true_2.
Qed.

(** ** Guards *)

Lemma requireLogin_pass h s :
  requireLogin h s = None ↔ truthy_num (userId s) = true.
Proof.
  unfold requireLogin. destruct (truthy_num (userId s)); simpl; [done|].
  split; [|done]. destruct (xhr h); [done|].
  destruct (accept h) as [a|]; [|done]. by destruct (includes "json" a).
Qed.

Lemma logged_in_userId h s :
  requireLogin h s = None → ∃ z, userId s = Some z ∧ z ≠ 0.
Proof.
  rewrite requireLogin_pass. unfold truthy_num.
  destruct (userId s) as [z|]; [|done].
  intros Hz%negb_true_iff%Z.eqb_neq. eauto.
Qed.

Lemma requireAdmin_pass s :
  requireAdmin s = None ↔
  truthy_num (userId s) = true ∧ truthy_bool (isAdmin s) = true.
Proof.
  unfold requireAdmin.
  destruct (truthy_num (userId s)), (truthy_bool (isAdmin s)); simpl;
    intuition congruence.
Qed.

(** ** Like toggle *)

Lemma like_of_own id (userId : value) i now :
  is_Some userId → like_of (Some id) userId (Likes.mk i (Some id) userId now).
Proof.
  intros [x ->]. unfold like_of, holds. simpl.
  by rewrite !bool_decide_eq_true_2.
Qed.

Lemma post_like_unliked h id now s d :
  requireLogin h s = None →
  filter (like_of (Some id) (bound_userId s)) (rows (likes d)) = [] →
  post_like h id now s d =
    (json_liked true,
     with_likes (insert_row (λ i, Likes.mk i (Some id) (bound_userId s) now)) d,
     s).
Proof. intros Hg Hnone. unfold post_like. by rewrite Hg, Hnone. Qed.

Lemma post_like_liked h id now s d :
  requireLogin h s = None →
  filter (like_of (Some id) (bound_userId s)) (rows (likes d)) ≠ [] →
  post_like h id now s d =
    (json_liked false,
     with_likes (delete_where (like_of (Some id) (bound_userId s))) d, s).
Proof.
  intros Hg Hsome. unfold post_like. rewrite Hg.
  by destruct (filter _ (rows (likes d))).
Qed.

(** Liking from the unliked state and liking again leaves the rows of
    [likes] as they were. *)
Lemma post_like_twice h id t1 t2 s d :
  requireLogin h s = None →
  filter (like_of (Some id) (bound_userId s)) (rows (likes d)) = [] →
  ∃ d1 d2,
    post_like h id t1 s d = (json_liked true, d1, s) ∧
    post_like h id t2 s d1 = (json_liked false, d2, s) ∧
    rows (likes d2) = rows (likes d) ∧
    users d2 = users d ∧ posts d2 = posts d ∧ comments d2 = comments d ∧
    chats d2 = chats d ∧ messages d2 = messages d.
Proof.
  intros Hg Hnone. eexists _, _. split; [by apply post_like_unliked|].
  destruct (logged_in_userId h s Hg) as (z & Hz & _).
  assert (Hown : ∀ i, like_of (Some id) (bound_userId s)
                        (Likes.mk i (Some id) (bound_userId s) t1)).
  { intros i. apply like_of_own. unfold bound_userId. rewrite Hz. by eexists. }
  split.
  - apply post_like_liked; [done|]. simpl.
    rewrite filter_snoc_True by apply Hown. by destruct (filter _ _).
  - simpl. rewrite filter_snoc_neg by apply Hown.
    by rewrite filter_none_neg.
Qed.

(** C2. A logged-in user who has not liked a post and invokes the like
    route three times in a row is answered liked=true, liked=false,
    liked=true; after the second call (and again after a fourth) the rows of
    the likes table are exactly the initial ones, and after the third there
    is one row for the pair. *)
Theorem like_toggles h id t1 t2 t3 t4 s d :
  requireLogin h s = None →
  filter (like_of (Some id) (bound_userId s)) (rows (likes d)) = [] →
  ∃ d1 d2 d3 d4,
    post_like h id t1 s d = (json_liked true, d1, s) ∧
    post_like h id t2 s d1 = (json_liked false, d2, s) ∧
    post_like h id t3 s d2 = (json_liked true, d3, s) ∧
    post_like h id t4 s d3 = (json_liked false, d4, s) ∧
    rows (likes d2) = rows (likes d) ∧
    rows (likes d4) = rows (likes d) ∧
    length (filter (like_of (Some id) (bound_userId s)) (rows (likes d1))) = 1%nat ∧
    length (filter (like_of (Some id) (bound_userId s)) (rows (likes d3))) = 1%nat.
Proof.
  intros Hg Hnone.
  destruct (post_like_twice h id t1 t2 s d Hg Hnone)
    as (d1 & d2 & H1 & H2 & Hrows2 & _).
  assert (Hnone2 : filter (like_of (Some id) (bound_userId s))
                     (rows (likes d2)) = []) by by rewrite Hrows2.
  destruct (post_like_twice h id t3 t4 s d2 Hg Hnone2)
    as (d3 & d4 & H3 & H4 & Hrows4 & _).
  exists d1, d2, d3, d4. repeat split; try done.
  - by rewrite Hrows4.
  - rewrite post_like_unliked in H1 by done. injection H1 as <-. simpl.
    destruct (logged_in_userId h s Hg) as (z & Hz & _).
    rewrite filter_snoc_True, Hnone; [done|].
    apply like_of_own. unfold bound_userId. rewrite Hz. by eexists.
  - rewrite post_like_unliked in H3 by done. injection H3 as <-. simpl.
    destruct (logged_in_userId h s Hg) as (z & Hz & _).
    rewrite filter_snoc_True, Hnone2; [done|].
    apply like_of_own. unfold bound_userId. rewrite Hz. by eexists.
Qed.

(** ** Timestamps and sorting *)

Lemma string_compare_not_Gt_trans (a b c : string) :
  String.compare a b ≠ Gt → String.compare b c ≠ Gt →
  String.compare a c ≠ Gt.
Proof.
  revert b c. induction a as [|x a IH]; intros [|y b] [|z c]; simpl; try done.
  unfold Ascii.compare.
  destruct (N.compare_spec (N_of_ascii x) (N_of_ascii y)) as [Hxy|Hxy|Hxy];
    destruct (N.compare_spec (N_of_ascii y) (N_of_ascii z)) as [Hyz|Hyz|Hyz];
    destruct (N.compare_spec (N_of_ascii x) (N_of_ascii z)) as [Hxz|Hxz|Hxz];
    try done; try lia.
  apply IH.
Qed.

Lemma string_leb_trans (a b c : string) :
  String.leb a b = true → String.leb b c = true → String.leb a c = true.
Proof.
  unfold String.leb. intros Hab Hbc.
  pose proof (string_compare_not_Gt_trans a b c) as Hac.
  destruct (String.compare a b), (String.compare b c), (String.compare a c);
    try done; exfalso; by apply Hac.
Qed.

#[global] Instance newest_first_trans {A} (f : A → string) :
  Transitive (newest_first f).
Proof. intros x y z Hxy Hyz. unfold newest_first in *. by eapply string_leb_trans. Qed.

#[global] Instance newest_first_total {A} (f : A → string) :
  Total (newest_first f).
Proof. intros x y. unfold newest_first. destruct (String.leb_total (f y) (f x)); auto. Qed.

Lemma newest_first_refl {A} (f : A → string) x : newest_first f x x.
Proof. by destruct (total (newest_first f) x x). Qed.

(** In a list sorted by [R], an element with at most [n] elements [y] such
    that [R y x] (itself included) is among the first [n]. *)
Lemma sorted_elem_of_take {A} (R : relation A) `{∀ x y, Decision (R x y)}
    (l : list A) (x : A) (n : nat) :
  StronglySorted R l → R x x → x ∈ l →
  (length (filter (λ y, R y x) l) ≤ n)%nat → x ∈ take n l.
Proof.
  intros Hs Hxx Hx Hn.
  destruct (list_elem_of_split l x Hx) as (l1 & l2 & ->).
  assert (Hall : Forall (λ y, R y x) l1).
  { apply Forall_forall. intros y Hy.
    eapply StronglySorted_app_1_elem_of; [exact Hs|exact Hy|left]. }
  rewrite filter_app, filter_cons, decide_True in Hn by done.
  rewrite length_app in Hn. simpl in Hn.
  assert (Hl1 : filter (λ y, R y x) l1 = l1).
  { clear -Hall. induction Hall as [|y l1 Hy _ IH]; [done|].
    by rewrite filter_cons, decide_True, IH. }
  rewrite Hl1 in Hn.
  apply elem_of_take. exists (length l1). split; [|lia].
  by rewrite lookup_app_r, Nat.sub_diag.
Qed.


(** ** The feed *)

Lemma elem_of_posts_join_users d p u :
  (p, u) ∈ posts_join_users d ↔
  p ∈ rows (posts d) ∧ u ∈ rows (users d) ∧
  Posts.user_id p = int (Users.id u).
Proof.
  unfold posts_join_users. rewrite list_elem_of_bind. split.
  - intros (p' & Hin & Hp'). apply list_elem_of_bind in Hin as (u' & Hin & Hu').
    apply list_elem_of_singleton in Hin as [= -> ->].
    apply list_elem_of_filter in Hu' as [Heq Hu'].
    apply sql_eq_Some_true in Heq as (x & Hx & [= <-]). done.
  - intros (Hp & Hu & Heq). exists p. split; [|done].
    apply list_elem_of_bind. exists u. split; [by apply list_elem_of_singleton|].
    apply list_elem_of_filter. split; [|done].
    unfold holds. rewrite Heq. apply sql_eq_refl.
Qed.

Lemma visible_to_iff userId p :
  visible_to userId p ↔
  Posts.privacy p = Some "public" ∨
  (∃ x, Posts.user_id p = Some x ∧ userId = Some x).
Proof.
  unfold visible_to, holds.
  destruct (Posts.privacy p) as [pr|], (Posts.user_id p) as [o|],
    userId as [r|]; simpl; repeat case_bool_decide; simplify_eq;
    split; try (intros [[=]|(x & [=] & [=])]); try done; try congruence;
    intros _; eauto.
Qed.

Lemma feed_sorted_perm d userId :
  feed_sorted d userId ≡ₚ
  filter (λ pu, visible_to userId pu.1) (posts_join_users d).
Proof. apply merge_sort_Permutation. Qed.

Lemma feed_sorted_sorted d userId :
  StronglySorted (newest_first (λ pu : Posts.t * Users.t, Posts.created_at pu.1))
    (feed_sorted d userId).
Proof. apply StronglySorted_merge_sort; apply _. Qed.

Lemma elem_of_feed_sorted d userId p u :
  (p, u) ∈ feed_sorted d userId ↔
  visible_to userId p ∧ (p, u) ∈ posts_join_users d.
Proof. by rewrite feed_sorted_perm, list_elem_of_filter. Qed.

Lemma get_posts_logged_in h s d :
  requireLogin h s = None →
  Server.get_posts h s d =
    (json_posts (feed_row d (bound_userId s) <$> feed_sorted d (bound_userId s)),
     d, s) ∧
  Latest.get_posts h s d =
    (json_posts (take 50 (feed_row d (bound_userId s) <$>
                            feed_sorted d (bound_userId s))), d, s).
Proof.
  intros Hg. unfold Server.get_posts, Latest.get_posts.
  by rewrite Hg, fmap_take.
Qed.


Lemma elem_of_feed_rows d userId (l : list (Posts.t * Users.t)) p :
  p ∈ PostRow.post <$> (feed_row d userId <$> l) ↔ ∃ u, (p, u) ∈ l.
Proof.
  rewrite <- list_fmap_compose. rewrite list_elem_of_fmap. split.
  - intros ([p' u] & -> & Hin). by exists u.
  - intros (u & Hin). by exists (p, u).
Qed.

Lemma length_not_older_than d userId p u :
  length (filter (λ pu, newest_first (λ pu : Posts.t * Users.t,
                                        Posts.created_at pu.1) pu (p, u))
            (feed_sorted d userId)) =
  length (not_older_than d userId p).
Proof.
  unfold not_older_than. rewrite <- list_filter_filter.
  by rewrite feed_sorted_perm.
Qed.

Lemma elem_of_take_elem_of {A} (x : A) n (l : list A) : x ∈ take n l → x ∈ l.
Proof.
  intros (i & Hi & _)%elem_of_take. by eapply list_elem_of_lookup_2.
Qed.

(** C1, as the code has it.  A post that is not public never appears in the
    feed of a logged-in requester other than its owner, in either revision.
    For the owner it appears in the full revision when the owner's users row
    still exists (the query joins posts with users), and in the latest
    revision when moreover at most 50 rows visible to the owner, the post's
    own included, are at least as new ([LIMIT 50]). *)
Theorem private_post_feed h s d p :
  requireLogin h s = None →
  p ∈ rows (posts d) →
  Posts.privacy p ≠ Some "public" →
  ∃ rs,
    Server.get_posts h s d = (json_posts rs, d, s) ∧
    Latest.get_posts h s d = (json_posts (take 50 rs), d, s) ∧
    (Posts.user_id p ≠ bound_userId s →
       (p ∉ PostRow.post <$> rs) ∧ (p ∉ PostRow.post <$> take 50 rs)) ∧
    (Posts.user_id p = bound_userId s →
       (∃ u, u ∈ rows (users d) ∧ int (Users.id u) = bound_userId s) →
       p ∈ PostRow.post <$> rs ∧
       ((length (not_older_than d (bound_userId s) p) ≤ 50)%nat →
        p ∈ PostRow.post <$> take 50 rs)).
Proof.
  intros Hg Hp Hpriv. destruct (get_posts_logged_in h s d Hg) as [HS HL].
  eexists. split; [exact HS|]. split; [exact HL|]. split.
  - intros Hother.
    assert (Hnot : ¬ ∃ u, (p, u) ∈ feed_sorted d (bound_userId s)).
    { intros (u & Hin).
      apply elem_of_feed_sorted in Hin as [Hvis _].
      apply visible_to_iff in Hvis as [Hpub|(x & Hx & Hs)]; [done|].
      apply Hother. by rewrite Hx, Hs. }
    rewrite <- fmap_take, !elem_of_feed_rows. split; [done|].
    intros (u & Hin). apply Hnot. exists u. by eapply elem_of_take_elem_of.
  - intros Hown (u & Hu & Hid).
    assert (Hin : (p, u) ∈ feed_sorted d (bound_userId s)).
    { apply elem_of_feed_sorted. split.
      - apply visible_to_iff. right. rewrite Hown, <- Hid. by eexists.
      - apply elem_of_posts_join_users. by rewrite Hown, Hid. }
    split; [apply elem_of_feed_rows; by exists u|].
    intros Hcount. rewrite <- !fmap_take. apply elem_of_feed_rows. exists u.
    eapply sorted_elem_of_take; [apply feed_sorted_sorted| |done|].
    + apply newest_first_refl.
    + by rewrite length_not_older_than.
Qed.

(** Bashir finds his private post among the first 50 rows of his feed;
    amina's feed does not have it. *)
Lemma private_post_feed_witness :
  private_post ∈ PostRow.post <$> take 50
    (feed_row small_db (int 3) <$> feed_sorted small_db (int 3)) ∧
  private_post ∉ PostRow.post <$>
    (feed_row small_db (int 2) <$> feed_sorted small_db (int 2)).
Proof.
  split.
  - destruct (private_post_feed browser bashir_session small_db private_post)
      as (rs & HS & HL & _ & Hown).
    + reflexivity.
    + by left.
    + discriminate.
    + destruct (get_posts_logged_in browser bashir_session small_db eq_refl)
        as [HS' _].
      rewrite HS' in HS. injection HS as <-.
      apply Hown; [reflexivity| |vm_compute; lia].
      exists bashir. split; [|reflexivity]. by do 2 right; left.
  - destruct (private_post_feed browser amina_session small_db private_post)
      as (rs & HS & HL & Hother & _).
    + reflexivity.
    + by left.
    + discriminate.
    + destruct (get_posts_logged_in browser amina_session small_db eq_refl)
        as [HS' _].
      rewrite HS' in HS. injection HS as <-.
      apply Hother. discriminate.
Defined.

(** C1, as stated, fails for the owner.  In the latest revision bashir does
    not get his private post once fifty newer posts are visible to him; in
    the full revision he does not get it once his account has been deleted
    while his session lives on. *)
Lemma private_post_hidden_from_owner :
  (requireLogin browser bashir_session = None ∧
   private_post ∈ rows (posts crowded_db) ∧
   Posts.privacy private_post ≠ Some "public" ∧
   Posts.user_id private_post = bound_userId bashir_session ∧
   ∃ rs, Latest.get_posts browser bashir_session crowded_db =
           (json_posts rs, crowded_db, bashir_session) ∧
         length rs = 50%nat ∧
         private_post ∉ PostRow.post <$> rs) ∧
  (requireLogin browser bashir_session = None ∧
   private_post ∈ rows (posts orphaned_db) ∧
   Posts.privacy private_post ≠ Some "public" ∧
   Posts.user_id private_post = bound_userId bashir_session ∧
   Server.get_posts browser bashir_session orphaned_db =
     (json_posts [PostRow.mk (public_post 2) "amina"
                    "images/default-profile.png" 0 0 0],
      orphaned_db, bashir_session)).
Proof.
  split.
  - split; [reflexivity|]. split; [by left|]. split; [discriminate|].
    split; [reflexivity|]. eexists. split; [vm_compute; reflexivity|].
    split; [reflexivity|].
    apply (bool_decide_eq_false_1 _). vm_compute. reflexivity.
  - split; [reflexivity|]. split; [by left|]. split; [discriminate|].
    split; [reflexivity|]. vm_compute. reflexivity.
Qed.

(** ** Registration *)

Lemma truthy_str_Some (x : string) : truthy_str (Some x) = true ↔ x ≠ EmptyString.
Proof. by destruct x. Qed.

(** On a request that passes its validation the latest revision does what
    the full revision does. *)
Lemma Latest_register_valid `{Bcrypt} `{JsString} u p n file salt now s d :
  u ≠ EmptyString → p ≠ EmptyString → n ≠ EmptyString →
  Latest.register (Some u) (Some p) (Some n) file salt now s d =
  Server.register (Some u) (Some p) (Some n) file salt now s d.
Proof.
  intros Hu%truthy_str_Some Hp%truthy_str_Some Hn%truthy_str_Some.
  unfold Latest.register, Server.register. by rewrite Hu, Hp, Hn.
Qed.


Lemma register_insert_cases `{JsString} u hashed name file now s d :
  ∃ r d1,
    register_insert u hashed name file now s d = (r, d1, s) ∧
    toLowerCase u ∈ Users.username <$> rows (users d1) ∧
    (unique_usernames d → unique_usernames d1).
Proof.
  unfold register_insert, insert_user. simpl.
  destruct (decide (toLowerCase u ∈ Users.username <$> rows (users d)))
    as [Hin|Hnew].
  - by eexists _, _.
  - eexists _, _. split; [done|]. unfold unique_usernames. simpl.
    rewrite fmap_app. simpl. split.
    + apply elem_of_app. right. by left.
    + intros Hnd. apply NoDup_app. split; [done|]. split.
      * intros x Hx [->|[]%elem_of_nil]%elem_of_cons. done.
      * apply NoDup_singleton.
Qed.




(** ** Keys *)

Lemma unique_key_eq {A B} (f : A → B) (l : list A) (x y : A) :
  NoDup (f <$> l) → x ∈ l → y ∈ l → f x = f y → x = y.
Proof.
  induction l as [|z l IH]; simpl; [by intros _ ?%elem_of_nil|].
  rewrite NoDup_cons. intros [Hz Hnd] Hx Hy Hf.
  apply elem_of_cons in Hx as [->|Hx]; apply elem_of_cons in Hy as [->|Hy].
  - done.
  - exfalso. apply Hz. rewrite Hf. by apply list_elem_of_fmap_2.
  - exfalso. apply Hz. rewrite <- Hf. by apply list_elem_of_fmap_2.
  - by apply IH.
Qed.

(** ** Chat messages *)

Lemma chat_access_iff chatId userId c :
  Server.chat_access chatId userId c ↔
  chatId = int (Chats.id c) ∧
  ∃ x, userId = Some x ∧
       (Chats.user1_id c = Some x ∨ Chats.user2_id c = Some x).
Proof.
  unfold Server.chat_access, holds, int.
  destruct chatId as [i|], userId as [x|], (Chats.user1_id c) as [a|],
    (Chats.user2_id c) as [b|]; simpl; repeat case_bool_decide; simplify_eq;
    split; try (intros [[=] (y & [=] & [[=]|[=]])]); try done;
    try congruence; intros _; eauto.
Qed.

(** C4. A logged-in user who is neither [user1_id] nor [user2_id] of a chat
    and posts a message to it is answered 403 and the database is returned
    as it was: no message row is inserted. *)
Theorem send_message_non_participant h s d c content file now :
  requireLogin h s = None →
  unique_ids (chats d) →
  c ∈ rows (chats d) →
  Chats.user1_id c ≠ bound_userId s →
  Chats.user2_id c ≠ bound_userId s →
  Server.send_message h (Int (Chats.id c)) content file now s d =
    (json_error 403 "Access denied", d, s).
Proof.
  intros Hg Hnd Hc H1 H2. unfold Server.send_message. rewrite Hg.
  assert (Hnone : filter (Server.chat_access (Some (Int (Chats.id c)))
                            (bound_userId s)) (rows (chats d)) = []).
  { apply filter_none_iff. intros c' Hc' Hacc.
    apply chat_access_iff in Hacc as ([= Hid] & x & Hs & Hpart).
    assert (c = c') as <- by by eapply (unique_key_eq rowid).
    rewrite Hs in H1, H2. by destruct Hpart. }
  by rewrite Hnone.
Qed.

(** Bashir is no party to the chat between the administrator and amina. *)
Lemma send_message_non_participant_witness :
  Server.send_message browser (Int 1) (Some "Salaan") None
    "2024-01-05 10:00:00" bashir_session small_db =
  (json_error 403 "Access denied", small_db, bashir_session).
Proof.
  apply (send_message_non_participant browser bashir_session small_db
           (Chats.mk 1 (int 1) (int 2) "2024-01-02 12:00:00")).
  - reflexivity.
  - apply (bool_decide_unpack _). vm_compute. exact I.
  - by left.
  - discriminate.
  - discriminate.
Defined.

(** ** Login *)

Lemma login_lookup_blocked `{Bcrypt} `{JsString} name password s d u :
  unique_usernames d →
  u ∈ rows (users d) →
  Users.is_blocked u ≠ 0 →
  toLowerCase name = Users.username u →
  login_lookup name password s d = (bad_credentials, d, s).
Proof.
  intros Hnd Hu Hblocked Hname. unfold login_lookup.
  assert (Hnone : filter (login_row (toLowerCase name)) (rows (users d)) = []).
  { apply filter_none_iff. intros u' Hu' [Hn Hb]. apply Hblocked.
    assert (u = u') as -> by (eapply (unique_key_eq Users.username); [done..|congruence]).
    done. }
  by rewrite Hnone.
Qed.

(** The block route sets the flag of the row it names and keeps usernames
    unique. *)
Lemma block_user_sets_flag s d u :
  requireAdmin s = None →
  u ∈ rows (users d) →
  ∃ d',
    Server.block_user (Int (Users.id u)) true s d = (json_success, d', s) ∧
    Users.set_is_blocked 1 u ∈ rows (users d') ∧
    (unique_usernames d → unique_usernames d').
Proof.
  intros Hg Hu. unfold Server.block_user. rewrite Hg. eexists.
  split; [done|]. simpl. split.
  - apply list_elem_of_fmap. exists u. split; [|done].
    rewrite decide_True; [done|]. apply sql_eq_refl.
  - unfold unique_usernames. simpl. rewrite <- list_fmap_compose.
    intros Hnd. erewrite list_fmap_ext; [exact Hnd|].
    intros i x _. simpl. by case_decide.
Qed.

(** C5. While a user's [is_blocked] flag is set, a login that names the user
    (in any letter case) fails whatever password is supplied, also one that
    [bcrypt.compare] would accept: the lookup finds no row and the session is
    left as it was.  In particular this is so once an administrator has run
    the block route on the user's id. *)
Theorem blocked_login_fails `{Bcrypt} `{JsString} name password s d u :
  unique_usernames d →
  u ∈ rows (users d) →
  toLowerCase name = Users.username u →
  (Users.is_blocked u ≠ 0 →
   Server.login (Some name) password s d = (bad_credentials, d, s) ∧
   Latest.login (Some name) password s d =
     (if truthy_str (Some name) && truthy_str password
      then bad_credentials
      else send 400 "Fadlan geli username iyo password", d, s)) ∧
  (∀ a, requireAdmin a = None →
     ∃ d', Server.block_user (Int (Users.id u)) true a d = (json_success, d', a) ∧
           Server.login (Some name) password s d' = (bad_credentials, d', s) ∧
           Latest.login (Some name) password s d' =
             (if truthy_str (Some name) && truthy_str password
              then bad_credentials
              else send 400 "Fadlan geli username iyo password", d', s)).
Proof.
  intros Hnd Hu Hname.
  assert (Hboth : ∀ d0 u0,
            unique_usernames d0 → u0 ∈ rows (users d0) →
            Users.is_blocked u0 ≠ 0 → toLowerCase name = Users.username u0 →
            Server.login (Some name) password s d0 = (bad_credentials, d0, s) ∧
            Latest.login (Some name) password s d0 =
              (if truthy_str (Some name) && truthy_str password
               then bad_credentials
               else send 400 "Fadlan geli username iyo password", d0, s)).
  { intros d0 u0 Hnd0 Hu0 Hb0 Hn0. unfold Server.login, Latest.login.
    rewrite (login_lookup_blocked name password s d0 u0) by done.
    split; [done|].
    by destruct (truthy_str (Some name)), (truthy_str password). }
  split; [intros Hblocked; by apply (Hboth d u)|]. intros a Ha.
  destruct (block_user_sets_flag a d u Ha Hu) as (d' & Hblock & Hu' & Hnd').
  exists d'. split; [done|].
  apply (Hboth d' (Users.set_is_blocked 1 u)); auto.
Qed.

(** Amina logs in with her password; once blocked, the same request fails. *)
Lemma blocked_login_fails_witness :
  ∃ d',
    Server.block_user (Int 2) true admin_session small_db =
      (json_success, d', admin_session) ∧
    @bcrypt_compare sample_bcrypt "pass1234" (Users.password amina) = true ∧
    @Server.login sample_bcrypt sample_strings (Some "Amina") (Some "pass1234")
      empty_session small_db = (redirect "/", small_db, amina_session) ∧
    @Server.login sample_bcrypt sample_strings (Some "Amina") (Some "pass1234")
      empty_session d' = (bad_credentials, d', empty_session) ∧
    @Latest.login sample_bcrypt sample_strings (Some "Amina") (Some "pass1234")
      empty_session d' = (bad_credentials, d', empty_session).
Proof.
  destruct (@blocked_login_fails sample_bcrypt sample_strings "Amina" (Some "pass1234")
              empty_session small_db amina) as [_ Hscenario].
  - apply (bool_decide_unpack _). vm_compute. exact I.
  - by right; left.
  - reflexivity.
  - destruct (Hscenario admin_session eq_refl) as (d' & Hblock & _ & HL).
    exists d'. split; [exact Hblock|]. split; [reflexivity|].
    split; [reflexivity|]. split; [|exact HL].
    injection Hblock as <-.
    destruct (@blocked_login_fails sample_bcrypt sample_strings "Amina" (Some "pass1234")
                empty_session
                (Server.block_user (Int 2) true admin_session small_db).1.2
                (Users.set_is_blocked 1 amina)) as [Hflag _].
    + apply (bool_decide_unpack _). vm_compute. exact I.
    + vm_compute. by right; left.
    + reflexivity.
    + apply Hflag. discriminate.
Defined.

(** ** Password reset *)

Lemma named_iff username u :
  Server.named (Some username) u ↔ Users.username u = username.
Proof.
  unfold Server.named, holds, text. simpl. case_bool_decide; simplify_eq;
    split; try done; congruence.
Qed.

(** C8. For a username that is in the users table, a reset-password request
    naming it and carrying a new password is answered with the success
    script whatever the session (none is needed), and every row with that
    username has its hash replaced by the hash of the new password; nothing
    but the two request fields is consulted, the other rows and the other
    tables are untouched, and the forget-password route stores nothing. *)
Theorem reset_password_overwrites `{Bcrypt} u newPassword salt s d :
  u ∈ rows (users d) →
  ∃ d',
    Server.reset_password (Some (Users.username u)) (Some newPassword) salt s d
      = (send 200 Server.reset_script, d', s) ∧
    Users.set_password (bcrypt_hash newPassword salt) u ∈ rows (users d') ∧
    rows (users d') =
      (λ r, if decide (Users.username r = Users.username u)
            then Users.set_password (bcrypt_hash newPassword salt) r
            else r) <$> rows (users d) ∧
    posts d' = posts d ∧ comments d' = comments d ∧ likes d' = likes d ∧
    chats d' = chats d ∧ messages d' = messages d ∧
    ∀ rememberName,
      Server.forget_password (Some (Users.username u)) rememberName s d =
        (send 200 (Server.forget_script (Some (Users.username u))), d, s).
Proof.
  intros Hu. unfold Server.reset_password. eexists. split; [done|]. simpl.
  assert (Hrows :
    (λ r, if decide (Server.named (Some (Users.username u)) r)
          then Users.set_password (bcrypt_hash newPassword salt) r else r)
      <$> rows (users d) =
    (λ r, if decide (Users.username r = Users.username u)
          then Users.set_password (bcrypt_hash newPassword salt) r else r)
      <$> rows (users d)).
  { apply list_fmap_ext. intros i r _.
    destruct (decide (Users.username r = Users.username u)) as [Heq|Hne].
    - rewrite decide_True; [done|]. by apply named_iff.
    - rewrite decide_False; [done|]. by rewrite named_iff. }
  rewrite Hrows. repeat split; try done.
  apply list_elem_of_fmap. exists u. split; [|done]. by rewrite decide_True.
Qed.

(** Without any session amina's hash is replaced, and the new password then
    logs in as her. *)
Lemma reset_password_overwrites_witness :
  ∃ d',
    @Server.reset_password sample_bcrypt (Some "amina") (Some "stolen")
      "salt" empty_session small_db =
      (send 200 Server.reset_script, d', empty_session) ∧
    Users.set_password "$2a$10$saltstolen" amina ∈ rows (users d') ∧
    @Server.login sample_bcrypt sample_strings (Some "amina") (Some "stolen")
      empty_session d' = (redirect "/", d', amina_session).
Proof.
  destruct (@reset_password_overwrites sample_bcrypt amina "stolen" "salt"
              empty_session small_db) as (d' & Hreset & Hin & Hrows & _).
  - by right; left.
  - exists d'. split; [exact Hreset|]. split; [exact Hin|].
    vm_compute in Hreset. injection Hreset as <-. reflexivity.
Defined.

(** ** Profile and user listing *)

(** C9. For an existing username the profile route answers any logged-in
    requester with that user's whole row, the stored password hash,
    [is_blocked] and [bio] included; the administrator's listing carries the
    whole row of every user. *)
Theorem profile_exposes_row h s a d u :
  requireLogin h s = None →
  unique_usernames d →
  u ∈ rows (users d) →
  (∃ row,
     Server.get_profile h (Users.username u) s d = (json_profile row, d, s) ∧
     ProfileRow.user row = u ∧
     Users.password (ProfileRow.user row) = Users.password u ∧
     Users.is_blocked (ProfileRow.user row) = Users.is_blocked u ∧
     Users.bio (ProfileRow.user row) = Users.bio u) ∧
  (requireAdmin a = None →
   ∃ rs,
     Server.admin_users a d = (json_admin_users rs, d, a) ∧
     AdminUserRow.user <$> rs ≡ₚ rows (users d) ∧
     ∃ row, row ∈ rs ∧ AdminUserRow.user row = u ∧
            Users.password (AdminUserRow.user row) = Users.password u).
Proof.
  intros Hg Hnd Hu. split.
  - unfold Server.get_profile. rewrite Hg.
    destruct (filter (λ r, Users.username r = Users.username u)
                (rows (users d))) as [|u' l] eqn:Hf.
    + exfalso. by eapply (filter_nil_not_elem_of _ _ u Hf).
    + assert (Hu' : u' ∈ filter (λ r, Users.username r = Users.username u)
                           (rows (users d))) by (rewrite Hf; by left).
      apply list_elem_of_filter in Hu' as [Hname Hu'].
      assert (u' = u) as -> by by eapply (unique_key_eq Users.username).
      simpl. by eexists.
  - intros Ha. unfold Server.admin_users. rewrite Ha. eexists.
    split; [done|].
    assert (Hperm : AdminUserRow.user <$>
              (Server.admin_user_row d <$>
                 merge_sort (newest_first Users.created_at) (rows (users d)))
              ≡ₚ rows (users d)).
    { rewrite <- list_fmap_compose.
      erewrite (list_fmap_ext _ id); [|by intros].
      rewrite list_fmap_id. apply merge_sort_Permutation. }
    split; [exact Hperm|].
    assert (Hin : u ∈ AdminUserRow.user <$>
              (Server.admin_user_row d <$>
                 merge_sort (newest_first Users.created_at) (rows (users d))))
      by by rewrite Hperm.
    apply list_elem_of_fmap in Hin as (row & -> & Hrow). by exists row.
Qed.

(** Bashir reads amina's row, hash included; the administrator's listing has
    it as well. *)
Lemma profile_exposes_row_witness :
  Server.get_profile browser "amina" bashir_session small_db =
    (json_profile (ProfileRow.mk amina 1 0), small_db, bashir_session) ∧
  Users.password amina = "$2a$10$saltpass1234" ∧
  ∃ rs,
    Server.admin_users admin_session small_db =
      (json_admin_users rs, small_db, admin_session) ∧
    AdminUserRow.mk amina 1 ∈ rs.
Proof.
  destruct (profile_exposes_row browser bashir_session admin_session small_db
              amina) as [(row & Hget & Hrow & _) Hadmin].
  - reflexivity.
  - apply (bool_decide_unpack _). vm_compute. exact I.
  - by right; left.
  - split; [|split; [reflexivity|]].
    + transitivity (json_profile row, small_db, bashir_session); [exact Hget|].
      vm_compute in Hget. injection Hget as <-. reflexivity.
    + destruct (Hadmin eq_refl) as (rs & Hlist & _).
      exists rs. split; [exact Hlist|].
      vm_compute in Hlist. injection Hlist as <-. by right; left.
Defined.

(** ** Blocking *)

Lemma user_with_id_iff id u : Server.user_with_id id u ↔ Int (Users.id u) = id.
Proof.
  unfold Server.user_with_id, holds, int. simpl.
  case_bool_decide; split; try done; congruence.
Qed.

Lemma admin_session_stored sid σ :
  requireAdmin (session_of σ sid) = None →
  sessions σ !! sid = Some (session_of σ sid).
Proof.
  unfold session_of. destruct (sessions σ !! sid) as [s|]; [done|].
  by intros [[=] _]%requireAdmin_pass.
Qed.

(** C10. The block route, run by an administrator, changes nothing but the
    [is_blocked] column of the rows whose id it names: the other rows, the
    other tables and the session store are as before.  The two guards read
    the session only, so every session answers them after the block as it
    did before; a session of the blocked user that passed keeps passing. *)
Theorem block_user_frame id blocked sid σ :
  requireAdmin (session_of σ sid) = None →
  ∃ d',
    serve sid (Server.block_user id blocked) σ =
      (json_success, MkServer d' (sessions σ)) ∧
    rows (users d') =
      (λ u, if decide (Int (Users.id u) = id)
            then Users.set_is_blocked (if blocked then 1 else 0) u
            else u) <$> rows (users (database σ)) ∧
    seq (users d') = seq (users (database σ)) ∧
    posts d' = posts (database σ) ∧
    comments d' = comments (database σ) ∧
    likes d' = likes (database σ) ∧
    chats d' = chats (database σ) ∧
    messages d' = messages (database σ) ∧
    ∀ sid' h,
      session_of (MkServer d' (sessions σ)) sid' = session_of σ sid' ∧
      (requireLogin h (session_of σ sid') = None →
       requireLogin h (session_of (MkServer d' (sessions σ)) sid') = None) ∧
      (requireAdmin (session_of σ sid') = None →
       requireAdmin (session_of (MkServer d' (sessions σ)) sid') = None).
Proof.
  intros Ha. unfold serve, Server.block_user. rewrite Ha.
  rewrite insert_id by by apply admin_session_stored.
  eexists. split; [done|]. simpl. split; [|done].
  apply list_fmap_ext. intros i u _.
  destruct (decide (Int (Users.id u) = id)) as [Heq|Hne].
  - rewrite decide_True; [done|]. by apply user_with_id_iff.
  - rewrite decide_False; [done|]. by rewrite user_with_id_iff.
Qed.

Lemma set_is_blocked_columns b u :
  let u' := Users.set_is_blocked b u in
  Users.id u' = Users.id u ∧ Users.username u' = Users.username u ∧
  Users.password u' = Users.password u ∧ Users.name u' = Users.name u ∧
  Users.profile_image u' = Users.profile_image u ∧
  Users.bio u' = Users.bio u ∧ Users.is_admin u' = Users.is_admin u ∧
  Users.created_at u' = Users.created_at u ∧ Users.is_blocked u' = b.
Proof. done. Qed.

(** After the administrator has blocked amina, her session and his still
    pass the guards. *)
Lemma block_user_frame_witness :
  ∃ d',
    serve "sid-admin" (Server.block_user (Int 2) true) sample_server =
      (json_success, MkServer d' (sessions sample_server)) ∧
    Users.set_is_blocked 1 amina ∈ rows (users d') ∧
    requireLogin browser
      (session_of (MkServer d' (sessions sample_server)) "sid-amina") = None ∧
    requireAdmin
      (session_of (MkServer d' (sessions sample_server)) "sid-admin") = None.
Proof.
  destruct (block_user_frame (Int 2) true "sid-admin" sample_server)
    as (d' & Hserve & Hrows & _ & _ & _ & _ & _ & _ & Hguards).
  - reflexivity.
  - exists d'. split; [exact Hserve|]. split.
    + rewrite Hrows. by right; left.
    + split.
      * apply (Hguards "sid-amina" browser). reflexivity.
      * apply (Hguards "sid-admin" browser). reflexivity.
Defined.

(** ** Creating a post *)

Lemma insert_post_appends content privacy fs now s d :
  ∃ d' p,
    insert_post content privacy fs now s d = (redirect "/", d', s) ∧
    rows (posts d') = rows (posts d) ++ [p] ∧
    Posts.user_id p = bound_userId s ∧
    Posts.content p = content ∧
    Posts.privacy p = privacy.
Proof. unfold insert_post. by eexists _, _. Qed.

(** C7, as the code has it.  In the latest revision a logged-in multipart
    request with neither content nor an image, video or audio file is
    answered 400 and nothing is stored, and a request that passes this check
    without a privacy field stores a post whose privacy is 'public'.  The
    full revision has no such check: every logged-in request stores a
    post. *)
Theorem create_post_validation h s d content privacy f fs now :
  requireLogin h s = None →
  (truthy_str content = false →
   image f = None → video f = None → audio f = None →
   Latest.create_post h content privacy (Some f) now s d =
     (send 400 "Fadlan geli content ama dooro file", d, s)) ∧
  (truthy_str content = true ∨ is_Some (image f) ∨ is_Some (video f)
     ∨ is_Some (audio f) →
   ∃ d' p,
     Latest.create_post h content None (Some f) now s d =
       (redirect "/", d', s) ∧
     rows (posts d') = rows (posts d) ++ [p] ∧
     Posts.user_id p = bound_userId s ∧
     Posts.content p = content ∧
     Posts.privacy p = Some "public") ∧
  (∃ d' p,
     Server.create_post h content privacy fs now s d = (redirect "/", d', s) ∧
     rows (posts d') = rows (posts d) ++ [p] ∧
     Posts.user_id p = bound_userId s ∧
     Posts.content p = content).
Proof.
  intros Hg. unfold Latest.create_post, Server.create_post. rewrite Hg.
  split; [|split].
  - intros -> -> -> ->. done.
  - intros Hsome.
    assert (Hpass : negb (truthy_str content)
              && negb (bool_decide (is_Some (image f)))
              && negb (bool_decide (is_Some (video f)))
              && negb (bool_decide (is_Some (audio f))) = false).
    { destruct Hsome as [->|[Hi|[Hi|Hi]]]; [done|..];
        rewrite (bool_decide_eq_true_2 _ Hi); simpl;
        by rewrite ?andb_false_r. }
    rewrite Hpass.
    destruct (insert_post_appends content (Some "public") (Some f) now s d)
      as (d' & p & Hins & Hrows & Huser & Hcontent & Hprivacy).
    by exists d', p.
  - destruct (insert_post_appends content privacy fs now s d)
      as (d' & p & Hins & Hrows & Huser & Hcontent & _).
    by exists d', p.
Qed.

(** An empty multipart request is refused; one with content and no privacy
    field is stored as public. *)
Lemma create_post_validation_witness :
  Latest.create_post browser None None (Some no_files) "2024-01-06 10:00:00"
    amina_session small_db =
    (send 400 "Fadlan geli content ama dooro file", small_db, amina_session) ∧
  ∃ d' p,
    Latest.create_post browser (Some "Salaan") None (Some no_files)
      "2024-01-06 10:00:00" amina_session small_db =
      (redirect "/", d', amina_session) ∧
    rows (posts d') = rows (posts small_db) ++ [p] ∧
    Posts.privacy p = Some "public".
Proof.
  destruct (create_post_validation browser amina_session small_db None None
              no_files None "2024-01-06 10:00:00" eq_refl) as (H400 & _ & _).
  destruct (create_post_validation browser amina_session small_db
              (Some "Salaan") None no_files None "2024-01-06 10:00:00" eq_refl)
    as (_ & Hpublic & _).
  split.
  - apply H400; reflexivity.
  - destruct Hpublic as (d' & p & Hpost & Hrows & _ & _ & Hprivacy);
      [by left|].
    by exists d', p.
Defined.

(** C7, as stated, fails on the full revision: a logged-in request with
    neither content nor a file is not refused but stored, and the stored
    post's privacy is NULL, not 'public'. *)
Lemma create_post_unvalidated :
  requireLogin browser amina_session = None ∧
  Server.create_post browser None None (Some no_files) "2024-01-06 10:00:00"
    amina_session small_db =
    (redirect "/",
     with_posts
       (λ _, Table [private_post; public_post 2;
                    Posts.mk 3 (int 2) None None None None None
                      "2024-01-06 10:00:00"] 3) small_db,
     amina_session).
Proof. split; reflexivity. Qed.

(** Bashir likes, unlikes and likes post 2. *)
Lemma like_toggles_witness :
  ∃ d1 d2 d3,
    post_like browser (Int 2) "2024-01-07 10:00:00" bashir_session small_db =
      (json_liked true, d1, bashir_session) ∧
    post_like browser (Int 2) "2024-01-07 10:00:01" bashir_session d1 =
      (json_liked false, d2, bashir_session) ∧
    post_like browser (Int 2) "2024-01-07 10:00:02" bashir_session d2 =
      (json_liked true, d3, bashir_session) ∧
    rows (likes d2) = rows (likes small_db).
Proof.
  destruct (like_toggles browser (Int 2) "2024-01-07 10:00:00"
              "2024-01-07 10:00:01" "2024-01-07 10:00:02"
              "2024-01-07 10:00:03" bashir_session small_db)
    as (d1 & d2 & d3 & d4 & H1 & H2 & H3 & _ & Hrows & _).
  - reflexivity.
  - reflexivity.
  - by exists d1, d2, d3.
Defined.


(** ** The schema's guarantees are kept by every route *)

Lemma max_rowid_ge `{Row R} (l : list R) r : r ∈ l → rowid r ≤ max_rowid l.
Proof.
  induction l as [|x l IH]; simpl; [by intros ?%elem_of_nil|].
  intros [->|Hr]%elem_of_cons; [lia|]. specialize (IH Hr). lia.
Qed.

Lemma unique_ids_insert_row `{Row R} (mk : Z → R) (t : table R) :
  (∀ i, rowid (mk i) = i) → unique_ids t → unique_ids (insert_row mk t).
Proof.
  intros Hmk Hnd. unfold unique_ids, insert_row. simpl.
  rewrite fmap_app. simpl. rewrite Hmk. apply NoDup_app.
  split; [done|]. split; [|apply NoDup_singleton].
  intros i Hi ->%list_elem_of_singleton.
  apply list_elem_of_fmap in Hi as (r & Hr & Hin).
  apply max_rowid_ge in Hin. unfold next_rowid in Hr. lia.
Qed.

Lemma NoDup_fmap_filter {A B} (f : A → B) (P : A → Prop)
    `{∀ x, Decision (P x)} (l : list A) :
  NoDup (f <$> l) → NoDup (f <$> filter P l).
Proof.
  intros Hnd. eapply sublist_NoDup; [exact Hnd|].
  apply fmap_sublist, sublist_filter.
Qed.

Lemma NoDup_fmap_update {A B} (f : A → B) (g : A → A) (P : A → Prop)
    `{∀ x, Decision (P x)} (l : list A) :
  (∀ x, f (g x) = f x) →
  NoDup (f <$> l) → NoDup (f <$> ((λ r, if decide (P r) then g r else r) <$> l)).
Proof.
  intros Hg Hnd. rewrite <- list_fmap_compose.
  erewrite list_fmap_ext; [exact Hnd|].
  intros i x _. simpl. by case_decide.
Qed.

Lemma register_insert_schema_ok `{JsString} u hashed name file now s d :
  schema_ok d → schema_ok (register_insert u hashed name file now s d).1.2.
Proof.
  intros (Hnames & Hu & Hrest).
  destruct (register_insert_cases u hashed name file now s d)
    as (r & d1 & Heq & _ & Hnames1).
  unfold register_insert, insert_user in *. simpl in *.
  destruct (decide (toLowerCase u ∈ Users.username <$> rows (users d)));
    simplify_eq; simpl; [done|].
  split; [by apply Hnames1|]. split; [|done].
  by apply (unique_ids_insert_row (R:=Users.t)).
Qed.

Lemma login_lookup_db `{Bcrypt} `{JsString} u password s d :
  (login_lookup u password s d).1.2 = d.
Proof.
  unfold login_lookup. destruct (db_get _); [|done].
  destruct password; [|done]. by destruct (bcrypt_compare _ _).
Qed.

Lemma insert_post_schema_ok content privacy fs now s d :
  schema_ok d → schema_ok (insert_post content privacy fs now s d).1.2.
Proof.
  intros (? & ? & Hp & ?). unfold insert_post. simpl.
  split; [done|]. split; [done|]. split; [|done].
  by apply (unique_ids_insert_row (R:=Posts.t)).
Qed.

(** No modelled route leads out of the databases the schema allows. *)
Lemma routes_keep_schema k s d :
  route k → schema_ok d → schema_ok (k s d).1.2.
Proof.
  intros Hk Hok. pose proof Hok as (Hnames & Hu & Hp & Hl & Hc & Hm).
  destruct Hk.
  - unfold post_like. destruct (requireLogin h s); [done|].
    destruct (db_get _); simpl.
    + repeat split; try done. by apply NoDup_fmap_filter.
    + repeat split; try done. by apply (unique_ids_insert_row (R:=Likes.t)).
  - unfold Server.register. destruct p, u; try done.
    by apply register_insert_schema_ok.
  - unfold Server.login. destruct u; [|done]. by rewrite login_lookup_db.
  - unfold Server.get_posts. by destruct (requireLogin h s).
  - unfold Server.create_post. destruct (requireLogin h s); [done|].
    by apply insert_post_schema_ok.
  - unfold Server.send_message. destruct (requireLogin h s); [done|].
    destruct (db_get _); [|done]. simpl. repeat split; try done.
    by apply (unique_ids_insert_row (R:=Messages.t)).
  - unfold Server.get_profile. destruct (requireLogin h s); [done|].
    by destruct (db_get _).
  - unfold Server.admin_users. by destruct (requireAdmin s).
  - unfold Server.block_user. destruct (requireAdmin s); [done|]. simpl.
    repeat split; try done; by apply NoDup_fmap_update.
  - unfold Server.delete_user. destruct (requireAdmin s); [done|]. simpl.
    repeat split; try done; by apply NoDup_fmap_filter.
  - done.
  - unfold Server.reset_password. destruct p; [|done]. simpl.
    repeat split; try done; by apply NoDup_fmap_update.
  - unfold Latest.register. destruct (_ || _); [done|].
    destruct p, u; try done. by apply register_insert_schema_ok.
  - unfold Latest.login. destruct (_ || _); [done|].
    destruct u; [|done]. by rewrite login_lookup_db.
  - unfold Latest.get_posts. by destruct (requireLogin h s).
  - unfold Latest.create_post. destruct (requireLogin h s); [done|].
    destruct fs; [|done]. destruct (_ && _); [done|].
    by apply insert_post_schema_ok.
Qed.

Lemma small_db_schema_ok : schema_ok small_db.
Proof. repeat split; apply (bool_decide_unpack _); vm_compute; exact I. Qed.

(** ** Sessions over time *)

(** A request under one cookie leaves the sessions under the others alone,
    whatever the handler. *)
Lemma serve_other_session sid sid' (k : handler) σ :
  sid ≠ sid' → session_of (serve sid k σ).2 sid' = session_of σ sid'.
Proof.
  intros Hne. unfold serve, session_of.
  destruct (k _ _) as [[r d] s]. simpl. by rewrite lookup_insert_ne.
Qed.

(** The only route that writes the session is a login that found a row
    which is not blocked. *)
Lemma routes_keep_session k s d :
  route k →
  (k s d).2 = s ∨
  ∃ u, u ∈ rows (users d) ∧ Users.is_blocked u = 0 ∧
       (k s d).2 = Session (Some (Users.id u)) (Some (Users.username u))
                     (Some (bool_decide (Users.is_admin u = 1))).
Proof.
  assert (Hlookup : ∀ (B : Bcrypt) (J : JsString) name password,
    (login_lookup name password s d).2 = s ∨
    ∃ u, u ∈ rows (users d) ∧ Users.is_blocked u = 0 ∧
         (login_lookup name password s d).2 =
           Session (Some (Users.id u)) (Some (Users.username u))
             (Some (bool_decide (Users.is_admin u = 1)))).
  { intros B J name password. unfold login_lookup.
    destruct (db_get _) as [user|] eqn:Hget; [|by left].
    destruct password as [pw|]; [|by left].
    destruct (bcrypt_compare pw _); [|by left]. right. exists user.
    apply head_Some_elem_of, list_elem_of_filter in Hget as [[_ Hb] Hin].
    done. }
  intros Hk. destruct Hk.
  - left. unfold post_like. destruct (requireLogin h s); [done|].
    by destruct (db_get _).
  - left. unfold Server.register, register_insert.
    destruct p, u; try done. by destruct (insert_user _ _).
  - unfold Server.login. destruct u; [apply Hlookup|by left].
  - left. unfold Server.get_posts. by destruct (requireLogin h s).
  - left. unfold Server.create_post. by destruct (requireLogin h s).
  - left. unfold Server.send_message. destruct (requireLogin h s); [done|].
    by destruct (db_get _).
  - left. unfold Server.get_profile. destruct (requireLogin h s); [done|].
    by destruct (db_get _).
  - left. unfold Server.admin_users. by destruct (requireAdmin s).
  - left. unfold Server.block_user. by destruct (requireAdmin s).
  - left. unfold Server.delete_user. by destruct (requireAdmin s).
  - by left.
  - left. unfold Server.reset_password. by destruct p.
  - left. unfold Latest.register, register_insert. destruct (_ || _); [done|].
    destruct p, u; try done. by destruct (insert_user _ _).
  - unfold Latest.login. destruct (_ || _); [by left|].
    destruct u; [apply Hlookup|by left].
  - left. unfold Latest.get_posts. by destruct (requireLogin h s).
  - left. unfold Latest.create_post. destruct (requireLogin h s); [done|].
    destruct fs; [|done]. by destruct (_ && _).
Qed.

(** * Further properties of the routes *)

(** ** Register, then log in *)

Lemma substring_all (p : string) : String.substring 0 (String.length p) p = p.
Proof. induction p as [|c p IH]; simpl; [done|]. by rewrite IH. Qed.

Lemma substring_skip (a p : string) :
  String.substring (String.length a) (String.length p) (a +:+ p) = p.
Proof. induction a as [|c a IH]; simpl; [apply substring_all|done]. Qed.

Lemma length_append (a p : string) :
  String.length (a +:+ p) = (String.length a + String.length p)%nat.
Proof. induction a as [|c a IH]; simpl; [done|]. by rewrite IH. Qed.

Lemma suffix_compare (a p : string) :
  String.eqb
    (String.substring (String.length (a +:+ p) - String.length p)
       (String.length p) (a +:+ p)) p = true.
Proof.
  rewrite length_append, Nat.add_sub, substring_skip. apply String.eqb_refl.
Qed.

Lemma sample_bcrypt_sound : bcrypt_sound sample_bcrypt.
Proof. intros p salt. exact (suffix_compare ("$2a$10$" +:+ salt) p). Qed.

Lemma login_lookup_found `{B : Bcrypt} `{JsString} name pw s d user :
  filter (login_row (toLowerCase name)) (rows (users d)) = [user] →
  bcrypt_compare pw (Users.password user) = true →
  login_lookup name (Some pw) s d =
    (redirect "/", d,
     Session (Some (Users.id user)) (Some (Users.username user))
             (Some (bool_decide (Users.is_admin user = 1)))).
Proof. intros Hf Hc. unfold login_lookup. rewrite Hf. simpl. by rewrite Hc. Qed.

(** X1. A registration with non-empty fields under a name whose
    lower-cased form no users row carries is answered with the redirect to
    the login page, and a login with the same name and password then
    succeeds: the session names the new row, carries the lower-cased
    username and is not an administrator's.  Both revisions. *)
Theorem register_then_login `{B : Bcrypt} `{JsString}
    u p n file salt now s s' d :
  bcrypt_sound B →
  u ≠ EmptyString → p ≠ EmptyString → n ≠ EmptyString →
  toLowerCase u ∉ Users.username <$> rows (users d) →
  ∃ d1,
    Server.register (Some u) (Some p) (Some n) file salt now s d =
      (redirect "/login.html", d1, s) ∧
    Latest.register (Some u) (Some p) (Some n) file salt now s d =
      (redirect "/login.html", d1, s) ∧
    Server.login (Some u) (Some p) s' d1 =
      (redirect "/", d1,
       Session (Some (next_rowid (users d))) (Some (toLowerCase u))
               (Some false)) ∧
    Latest.login (Some u) (Some p) s' d1 =
      (redirect "/", d1,
       Session (Some (next_rowid (users d))) (Some (toLowerCase u))
               (Some false)).
Proof.
  intros Hsound Hu Hp Hn Hfree.
  rewrite Latest_register_valid by done.
  unfold Server.register, register_insert, insert_user. simpl.
  rewrite decide_False by done. eexists. split; [done|]. split; [done|].
  assert (Hlogin : ∀ d1,
    rows (users d1) =
      rows (users d) ++
      [Users.mk (next_rowid (users d)) (toLowerCase u) (bcrypt_hash p salt)
         (Some n) (profile_image_of file) None 0 0 now] →
    login_lookup u (Some p) s' d1 =
      (redirect "/", d1,
       Session (Some (next_rowid (users d))) (Some (toLowerCase u))
               (Some false))).
  { intros d1 Hrows.
    rewrite (login_lookup_found u p s' d1
               (Users.mk (next_rowid (users d)) (toLowerCase u)
                  (bcrypt_hash p salt) (Some n) (profile_image_of file)
                  None 0 0 now)); [done| |apply Hsound].
    rewrite Hrows, filter_app, filter_cons, decide_True by done.
    rewrite (proj2 (filter_none_iff _ _)); [done|].
    intros x Hx [Hname _]. apply Hfree. rewrite <- Hname.
    by apply list_elem_of_fmap_2. }
  unfold Server.login, Latest.login.
  apply truthy_str_Some in Hu, Hp. rewrite Hu, Hp. simpl.
  split; by apply Hlogin.
Qed.

(** Émile registers on the small database and logs in. *)
Lemma register_then_login_witness :
  ∃ d1,
    @Latest.register sample_bcrypt sample_strings (Some "Émile")
      (Some "pass1234") (Some "Émile E") None "salt" "2024-01-04 10:00:00"
      empty_session small_db = (redirect "/login.html", d1, empty_session) ∧
    @Latest.login sample_bcrypt sample_strings (Some "Émile")
      (Some "pass1234") empty_session d1 =
      (redirect "/", d1, Session (Some 4) (Some "émile") (Some false)).
Proof.
  destruct (@register_then_login sample_bcrypt sample_strings "Émile"
              "pass1234" "Émile E" None "salt" "2024-01-04 10:00:00"
              empty_session empty_session small_db)
    as (d1 & _ & HR & _ & HL); try discriminate.
  - apply sample_bcrypt_sound.
  - apply (bool_decide_unpack _). vm_compute. exact I.
  - exists d1. split; [exact HR|exact HL].
Defined.

(** ** Routing *)

Lemma first_match_Some table m path r ps :
  first_match table m path = Some (r, ps) →
  ∃ pat, (m, pat, r) ∈ table ∧ match_path pat path = Some ps.
Proof.
  induction table as [|[[m' pat] r'] table IH]; simpl; [done|].
  destruct (decide (m' = m)) as [->|Hne].
  - destruct (match_path pat path) as [ps'|] eqn:Hm.
    + intros [= -> ->]. exists pat. split; [by left|done].
    + intros (pat' & Hin & Hp)%IH. exists pat'. split; [by right|done].
  - intros (pat' & Hin & Hp)%IH. exists pat'. split; [by right|done].
Qed.

Lemma match_path_literal l path ps :
  match_path [lit l] path = Some ps →
  ∃ x, path = [x] ∧ fold_ascii l = fold_ascii x.
Proof.
  destruct path as [|x [|y path]]; simpl; [done| |].
  - destruct (String.eqb_spec (fold_ascii l) (fold_ascii x)); [|done].
    intros _. by exists x.
  - by destruct (String.eqb _ _).
Qed.

(** A GET for a single non-empty segment is taken by [/:page], the second
    route of both tables. *)
Lemma first_match_page a x :
  first_match server_table GET [String a x] =
    Some (r_page, [("page", String a x)]) ∧
  first_match latest_table GET [String a x] =
    Some (r_page, [("page", String a x)]).
Proof. split; reflexivity. Qed.

Lemma shadowed_entry table l r m path ps :
  (table = server_table ∨ table = latest_table) →
  (∀ m' pat, (m', pat, r) ∈ table → m' = GET ∧ pat = [lit l]) →
  fold_ascii l ≠ EmptyString →
  r ≠ r_page →
  first_match table m path ≠ Some (r, ps).
Proof.
  intros Htable Hentry Hl Hr Hfm.
  destruct (first_match_Some _ _ _ _ _ Hfm) as (pat & Hin & Hmatch).
  destruct (Hentry _ _ Hin) as [-> ->].
  apply match_path_literal in Hmatch as (x & -> & Hx).
  destruct x as [|a x]; [by rewrite Hx in Hl|].
  destruct (first_match_page a x) as [HS HL].
  destruct Htable as [->| ->]; congruence.
Qed.

Ltac table_entries H :=
  repeat (apply elem_of_cons in H as [H|H]; [by simplify_eq|]);
  by apply elem_of_nil in H.

(** X2. In both revisions [GET /:page] is registered before [GET /logout]
    and [GET /health] and answers every single-segment GET itself, so no
    request is ever routed to the logout or the health handler.  A GET for
    /logout (in any letter case) that is not a static file goes to the page
    route, which answers 404 and leaves the database and the session as
    they were: the user stays logged in. *)
Theorem logout_and_health_shadowed table public m path ps x s d :
  table = server_table ∨ table = latest_table →
  dispatch table public m path ≠ routed r_logout ps ∧
  dispatch table public m path ≠ routed r_health ps ∧
  (fold_ascii x = "logout" → public [x] = false →
   dispatch table public GET [x] = routed r_page [("page", x)] ∧
   Server.page x s d = (plain (send 404 "Page not found"), d, s) ∧
   Latest.page x s d = (plain (send 404 "Page not found"), d, s)).
Proof.
  intros Htable.
  assert (Hno : ∀ r l,
    (∀ m' pat, (m', pat, r) ∈ table → m' = GET ∧ pat = [lit l]) →
    fold_ascii l ≠ EmptyString → r ≠ r_page →
    dispatch table public m path ≠ routed r ps).
  { intros r l Hentry Hl Hr. unfold dispatch.
    destruct (bool_decide (m = GET) && public path); [done|].
    destruct (first_match table m path) as [[r' ps']|] eqn:Hfm; [|done].
    intros [= -> ->]. by eapply shadowed_entry. }
  split; [|split].
  - apply (Hno r_logout "logout"); [|done..].
    intros m' pat Hin. destruct Htable as [->| ->]; table_entries Hin.
  - apply (Hno r_health "health"); [|done..].
    intros m' pat Hin. destruct Htable as [->| ->]; table_entries Hin.
  - intros Hx Hpublic. split.
    + unfold dispatch. rewrite Hpublic, andb_false_r.
      destruct x as [|a x]; [done|].
      destruct (first_match_page a x) as [HS HL].
      destruct Htable as [->| ->]; by rewrite ?HS, ?HL.
    + assert (Hpage : bool_decide (x ∈ Server.allowedPages) = false).
      { apply bool_decide_eq_false_2. intros Hin.
        unfold Server.allowedPages in Hin.
        repeat (apply elem_of_cons in Hin as [->|Hin]; [done|]).
        by apply elem_of_nil in Hin. }
      unfold Latest.page, Server.page. by rewrite Hpage.
Qed.

(** A logged-in user asks for /logout. *)
Lemma logout_and_health_shadowed_witness :
  dispatch server_table (λ _, false) GET ["logout"] =
    routed r_page [("page", "logout")] ∧
  Server.page "logout" amina_session small_db =
    (plain (send 404 "Page not found"), small_db, amina_session).
Proof.
  destruct (logout_and_health_shadowed server_table (λ _, false) GET
              ["logout"] [] "logout" amina_session small_db)
    as (_ & _ & Hpage); [by left|].
  destruct Hpage as (Hd & HS & _); [reflexivity..|]. by split.
Defined.

(** ** Every route keeps the schema's guarantees *)

Lemma not_rename_conflict (target : Users.t → Prop)
    `{∀ u, Decision (target u)} name t :
  ¬ Server.rename_conflict target name t ↔
  ∀ r, r ∈ rows t → target r →
       ∀ r', r' ∈ rows t → Users.id r' ≠ Users.id r → Users.username r' ≠ name.
Proof.
  unfold Server.rename_conflict. rewrite Exists_exists. split.
  - intros Hno r Hr Ht r' Hr' Hid Hname. apply Hno. exists r.
    split; [done|]. split; [done|]. apply Exists_exists. by exists r'.
  - intros Hall (r & Hr & Ht & (r' & Hr' & Hid & Hname)%Exists_exists).
    by apply (Hall r Hr Ht r' Hr' Hid).
Qed.

(** Renaming the rows that satisfy [P] keeps a key [f] free of duplicates
    when [P] singles out one primary key and no row of another primary key
    carries the new name. *)
Lemma NoDup_fmap_rename {A B K} (key : A → K) (f : A → B) (g : A → A)
    (P : A → Prop) `{∀ x, Decision (P x)} (l : list A) :
  NoDup (key <$> l) →
  NoDup (f <$> l) →
  (∀ x y, x ∈ l → y ∈ l → P x → P y → key x = key y) →
  (∀ x y, x ∈ l → y ∈ l → P x → key y ≠ key x → f y ≠ f (g x)) →
  NoDup (f <$> ((λ r, if decide (P r) then g r else r) <$> l)).
Proof.
  induction l as [|x l IH]; simpl; [constructor|].
  rewrite !NoDup_cons. intros [Hkx Hk] [Hfx Hf] Hsame Hfree.
  assert (Hkey : ∀ y, y ∈ l → key y ≠ key x).
  { intros y Hy Heq. apply Hkx. rewrite <- Heq. by apply list_elem_of_fmap_2. }
  split.
  - rewrite <- list_fmap_compose. intros Hin.
    apply list_elem_of_fmap in Hin as (y & Heq & Hy). simpl in Heq.
    destruct (decide (P x)) as [HPx|HPx]; destruct (decide (P y)) as [HPy|HPy].
    + apply (Hkey y Hy). symmetry. apply Hsame; [by left|by right|done..].
    + symmetry in Heq. revert Heq.
      apply Hfree; [by left|by right|done|by apply Hkey].
    + revert Heq. apply Hfree; [by right|by left|done|].
      intros Heq. by apply (Hkey y Hy).
    + apply Hfx. rewrite Heq. by apply list_elem_of_fmap_2.
  - apply IH; [done..| |].
    + intros y z Hy Hz. apply Hsame; by right.
    + intros y z Hy Hz. apply Hfree; by right.
Qed.

Lemma own_row_id s u : own_row s u ↔ bound_userId s = int (Users.id u).
Proof.
  unfold own_row, holds. rewrite sql_eq_Some_true. unfold int. split.
  - intros (x & [= <-] & ->). done.
  - intros ->. eauto.
Qed.

Lemma update_profile_unique_usernames s name n b img d :
  unique_ids (users d) → unique_usernames d →
  ¬ Server.rename_conflict (own_row s) name (users d) →
  unique_usernames
    (with_users (update_where (own_row s) (set_profile name n b img)) d).
Proof.
  intros Hids Hnames Hfree.
  pose proof (proj1 (not_rename_conflict _ _ _) Hfree) as Hfree'.
  clear Hfree. rename Hfree' into Hfree. unfold unique_usernames.
  simpl. apply (NoDup_fmap_rename Users.id); [done..| |].
  - intros x y _ _ Hx%own_row_id Hy%own_row_id. unfold int in *. congruence.
  - intros x y Hx Hy HPx Hne. simpl. by apply (Hfree x Hx HPx y Hy).
Qed.

Lemma schema_ok_with_comments f d :
  schema_ok (with_comments f d) ↔ schema_ok d.
Proof. done. Qed.

Lemma routes_keep_comments k s d :
  route k → comments (k s d).1.2 = comments d.
Proof.
  intros Hk. destruct Hk;
    cbv beta zeta delta [post_like Server.register Server.login login_lookup
      Server.get_posts Server.create_post Server.send_message
      Server.get_profile Server.admin_users Server.block_user
      Server.delete_user Server.forget_password Server.reset_password
      Latest.register Latest.login Latest.get_posts Latest.create_post
      register_insert insert_post];
    repeat case_match; done.
Qed.

(** X3. No route of either revision leads out of the databases the schema
    allows: primary keys stay unique in every table and usernames stay
    unique, also through a profile update that renames a user. *)
Theorem served_keep_schema k s d :
  served k → schema_ok_all d → schema_ok_all (k s d).1.2.
Proof.
  intros Hk [Hok Hcomments].
  pose proof Hok as (Hnames & Hu & Hp & Hl & Hc & Hm).
  destruct Hk as [k Hk| | | | | | | | | | | | | | | ]; try done.
  - unfold lift. pose proof (routes_keep_schema k s d Hk Hok) as Hok'.
    pose proof (routes_keep_comments k s d Hk) as Hcomments'.
    destruct (k s d) as [[r d'] s']. simpl in *. split; [done|].
    by rewrite Hcomments'.
  - unfold Server.home. by case_match.
  - unfold Server.page. by case_match.
  - unfold Server.user_info. by repeat case_match.
  - unfold Server.update_profile. repeat case_match; try done. simpl.
    split; [|done]. split; [by apply update_profile_unique_usernames|].
    split; [|done]. by apply NoDup_fmap_update.
  - unfold Server.update_password. repeat case_match; try done. simpl.
    split; [|done]. split; [by apply NoDup_fmap_update|].
    split; [|done]. by apply NoDup_fmap_update.
  - unfold Server.profile_posts. by case_match.
  - unfold Server.add_comment. case_match; [done|]. simpl. split; [done|].
    by apply (unique_ids_insert_row (R:=Comments.t)).
  - unfold Server.get_comments. by case_match.
  - unfold Server.list_users. by case_match.
  - unfold Server.search_users. by case_match.
  - unfold Server.get_chats. by case_match.
  - unfold Server.get_messages. by repeat case_match.
  - unfold Server.create_chat. repeat case_match; try done. simpl.
    split; [|done]. repeat split; try done.
    by apply (unique_ids_insert_row (R:=Chats.t)).
Qed.

Lemma served_keep_schema_witness :
  schema_ok_all
    (@Server.update_profile sample_strings browser (Some "Aamina") (Some "Amina A") None None
       amina_session small_db).1.2.
Proof.
  apply served_keep_schema; [constructor|].
  split; [apply small_db_schema_ok|].
  apply (bool_decide_unpack _). vm_compute. exact I.
Defined.

(** ** Who can change what *)

Lemma requireLogin_anonymous h s :
  truthy_num (userId s) = false → requireLogin h s ≠ None.
Proof. intros Hs Hg%requireLogin_pass. congruence. Qed.

Lemma requireAdmin_anonymous s :
  truthy_num (userId s) = false → requireAdmin s ≠ None.
Proof. intros Hs [Hg _]%requireAdmin_pass. congruence. Qed.

Ltac unfold_routes :=
  cbv beta zeta delta
    [lift post_like Server.register Server.login Server.get_posts
     Server.create_post Server.send_message Server.get_profile
     Server.admin_users Server.block_user Server.delete_user
     Server.forget_password Server.reset_password Latest.register
     Latest.login Latest.get_posts Latest.create_post Server.home
     Server.page Server.user_info Server.logout Server.update_profile
     Server.update_password Server.profile_posts Server.add_comment
     Server.get_comments Server.list_users Server.search_users
     Server.get_chats
     Server.get_messages Server.create_chat Server.health].

(** X4. A request whose session has no user changes the database through
    no route but registration and password reset. *)
Theorem anonymous_writes k s d :
  served k →
  truthy_num (userId s) = false →
  (k s d).1.2 = d ∨
  (∃ B J u p n f salt now,
     k = lift (@Server.register B J u p n f salt now)) ∨
  (∃ B J u p n f salt now,
     k = lift (@Latest.register B J u p n f salt now)) ∨
  (∃ B u p salt, k = lift (@Server.reset_password B u p salt)).
Proof.
  intros Hk Hs.
  assert (Hl : ∀ h, requireLogin h s ≠ None)
    by (intros h; by apply requireLogin_anonymous).
  assert (Ha : requireAdmin s ≠ None) by by apply requireAdmin_anonymous.
  destruct Hk as [k Hk| | | | | | | | | | | | | | | ]; [destruct Hk|..];
    first
      [ solve [right; left; do 8 eexists; reflexivity]
      | solve [right; right; left; do 8 eexists; reflexivity]
      | solve [do 3 right; do 4 eexists; reflexivity]
      | left ].
  all: unfold_routes.
  all: repeat case_match; simplify_eq; simpl; try done.
  all: try (by exfalso; eapply Hl).
  all: match goal with
       | H : login_lookup ?u ?p ?s ?d = _ |- _ =>
           pose proof (login_lookup_db u p s d) as Hdb;
           by rewrite H in Hdb
       end.
Qed.

(** An anonymous visitor asks for the feed and for a page. *)
Lemma anonymous_writes_witness :
  (lift (Server.get_posts browser) empty_session small_db).1.2 = small_db ∧
  (Server.create_chat browser (int 2) "2024-01-08 10:00:00" empty_session
     small_db).1.2 = small_db.
Proof.
  split.
  - destruct (anonymous_writes (lift (Server.get_posts browser)) empty_session
                small_db) as [Hd|[H|[H|H]]]; [do 2 constructor|reflexivity|..].
    + exact Hd.
    + reflexivity.
    + reflexivity.
    + reflexivity.
  - destruct (anonymous_writes
                (Server.create_chat browser (int 2) "2024-01-08 10:00:00")
                empty_session small_db) as [Hd|[H|[H|H]]];
      [constructor|reflexivity|..].
    + exact Hd.
    + reflexivity.
    + reflexivity.
    + reflexivity.
Defined.

Lemma elem_of_update_where_other {R} (P : R → Prop) `{∀ r, Decision (P r)}
    (f : R → R) (t : table R) (u : R) :
  u ∈ rows t → ¬ P u → u ∈ rows (update_where P f t).
Proof.
  intros Hu HP. simpl. apply list_elem_of_fmap. exists u.
  by rewrite decide_False.
Qed.

(** X5. A session that is not an administrator's cannot alter or remove the
    users row of anybody else through any route but password reset: the
    profile and password routes touch the session's own row only. *)
Theorem others_rows_kept k s d u :
  served k →
  requireAdmin s ≠ None →
  u ∈ rows (users d) →
  ¬ own_row s u →
  u ∈ rows (users (k s d).1.2) ∨
  (∃ B name p salt, k = lift (@Server.reset_password B name p salt)).
Proof.
  intros Hk Ha Hu Hown.
  destruct Hk as [k Hk| | | | | | | | | | | | | | | ]; [destruct Hk|..];
    first [ solve [right; do 4 eexists; reflexivity] | left ].
  all: unfold_routes; unfold register_insert, insert_user, insert_post.
  all: repeat case_match; simplify_eq; simpl; try done.
  all: try (by apply elem_of_app; left).
  all: try (by apply (elem_of_update_where_other (own_row s))).
  all: match goal with
       | H : login_lookup ?u ?p ?s ?d = _ |- _ =>
           pose proof (login_lookup_db u p s d) as Hdb;
           rewrite H in Hdb; simpl in Hdb; by subst
       end.
Qed.

(** Bashir cannot touch amina's row by renaming himself or by changing his
    password. *)
Lemma others_rows_kept_witness :
  amina ∈ rows (users
    (@Server.update_profile sample_strings browser (Some "Bashir2") None None None
       bashir_session small_db).1.2).
Proof.
  destruct (others_rows_kept
              (@Server.update_profile sample_strings browser (Some "Bashir2") None None None)
              bashir_session small_db amina) as [Hin|(B & n & p & salt & Heq)].
  - constructor.
  - discriminate.
  - by right; left.
  - unfold own_row, holds. discriminate.
  - exact Hin.
  - exfalso.
    assert (Hc : @Server.update_profile sample_strings browser (Some "Bashir2") None None None
                   empty_session small_db =
                 lift (@Server.reset_password B n p salt) empty_session
                   small_db) by by rewrite Heq.
    unfold Server.reset_password, lift in Hc. destruct p; discriminate Hc.
Defined.

(** ** One like per post and user *)

Lemma like_of_values postId userId l :
  like_of postId userId l →
  Likes.post_id l = postId ∧ Likes.user_id l = userId.
Proof.
  unfold like_of, holds.
  destruct (Likes.post_id l) as [a|], postId as [b|],
    (Likes.user_id l) as [c|], userId as [e|]; simpl;
    repeat case_bool_decide; simplify_eq; done.
Qed.

Lemma length_filter_filter {A} (P Q : A → Prop) `{∀ x, Decision (P x)}
    `{∀ x, Decision (Q x)} (l : list A) :
  (length (filter P (filter Q l)) ≤ length (filter P l))%nat.
Proof.
  induction l as [|x l IH]; [done|]. rewrite !filter_cons.
  destruct (decide (Q x)), (decide (P x)); rewrite ?filter_cons;
    repeat case_decide; simpl; try done; lia.
Qed.

Lemma post_like_keeps_unique h id now s d :
  likes_unique d → likes_unique (post_like h id now s d).1.2.
Proof.
  intros Huniq. unfold post_like. destruct (requireLogin h s); [done|].
  destruct (db_get _) as [l|] eqn:Hget; simpl; intros postId userId; simpl.
  - etrans; [apply length_filter_filter|apply (Huniq postId userId)].
  - apply head_None in Hget. rewrite filter_app, length_app.
    rewrite filter_cons, filter_nil.
    destruct (decide (like_of postId userId _)) as [Hnew|Hnew]; simpl.
    + apply like_of_values in Hnew as [<- <-]. simpl.
      rewrite Hget. simpl. lia.
    + specialize (Huniq postId userId). lia.
Qed.

(** X6. Requests served one after the other keep at most one like row for
    each post and user, whatever the route; a like request that finds
    several rows for its pair removes them all. *)
Theorem served_keep_likes_unique k s d :
  served k →
  (likes_unique d → likes_unique (k s d).1.2) ∧
  (∀ h id now, k = lift (post_like h id now) →
     requireLogin h s = None →
     filter (like_of (Some id) (bound_userId s)) (rows (likes d)) ≠ [] →
     filter (like_of (Some id) (bound_userId s)) (rows (likes (k s d).1.2))
       = []).
Proof.
  intros Hk. split.
  - intros Huniq.
    destruct Hk as [k Hk| | | | | | | | | | | | | | | ]; [destruct Hk|..].
    1: { pose proof (post_like_keeps_unique h id now s d Huniq) as Hpl.
         unfold lift. by destruct (post_like h id now s d) as [[? ?] ?]. }
    all: unfold_routes; unfold register_insert, insert_user, insert_post.
    all: repeat case_match; simplify_eq; simpl; try done.
    all: match goal with
         | H : login_lookup ?u ?p ?s ?d = _ |- _ =>
             pose proof (login_lookup_db u p s d) as Hdb;
             rewrite H in Hdb; simpl in Hdb; by subst
         end.
  - intros h id now -> Hg Hsome. unfold lift.
    rewrite post_like_liked by done. simpl.
    apply filter_none_iff. intros l [Hnot _]%list_elem_of_filter. done.
Qed.

(** Bashir likes post 2 on the small database, where nobody has liked
    anything; on a database with two like rows of his, one request removes
    both. *)
Lemma served_keep_likes_unique_witness :
  likes_unique
    (lift (post_like browser (Int 2) "2024-01-07 10:00:00") bashir_session
       small_db).1.2 ∧
  rows (likes
    (lift (post_like browser (Int 2) "2024-01-08 10:00:00") bashir_session
       double_liked_db).1.2) = [].
Proof.
  split.
  - apply served_keep_likes_unique; [do 2 constructor|].
    intros postId userId. simpl. lia.
  - destruct (served_keep_likes_unique
                (lift (post_like browser (Int 2) "2024-01-08 10:00:00"))
                bashir_session double_liked_db) as [_ Hclean];
      [do 2 constructor|].
    specialize (Hclean browser (Int 2) "2024-01-08 10:00:00" eq_refl eq_refl).
    reflexivity.
Defined.

(** ** Liking and the feed *)

Lemma count_snoc {A} (P : A → Prop) `{∀ x, Decision (P x)} (l : list A) x :
  count P (l ++ [x]) = count P l + (if decide (P x) then 1 else 0).
Proof.
  unfold count. rewrite filter_app, length_app, filter_cons, filter_nil.
  case_decide; simpl; lia.
Qed.

Lemma feed_row_liked d userId i now pu :
  is_Some userId →
  ¬ Exists (like_of (int i) userId) (rows (likes d)) →
  feed_row
    (with_likes (insert_row (λ j, Likes.mk j (int i) userId now)) d)
    userId pu =
  (λ r, if decide (Posts.id (PostRow.post r) = i) then liked_once r else r)
    (feed_row d userId pu).
Proof.
  intros [x ->] Hnone. unfold feed_row. simpl.
  destruct (decide (Posts.id pu.1 = i)) as [->|Hne].
  - unfold liked_once. simpl. f_equal.
    + rewrite count_snoc. simpl. by rewrite decide_True by apply sql_eq_refl.
    + rewrite decide_True; [done|]. apply Exists_app. right. left.
      by apply like_of_own.
  - f_equal.
    + rewrite count_snoc. simpl. rewrite decide_False; [lia|].
      unfold holds, int. simpl. rewrite bool_decide_eq_false_2; [done|].
      congruence.
    + assert (Hiff : Exists (like_of (int (Posts.id pu.1)) (Some x))
                (rows (likes d) ++
                 [Likes.mk (next_rowid (likes d)) (int i) (Some x) now]) ↔
              Exists (like_of (int (Posts.id pu.1)) (Some x)) (rows (likes d))).
      { rewrite Exists_app, Exists_cons, Exists_nil. split; [|tauto].
        intros [?|[Hnew|[]]]; [done|].
        apply like_of_values in Hnew as [[= ?] _]. done. }
      by repeat case_decide; try tauto.
Qed.

(** X7. When a logged-in user who has not liked post [i] likes it, the feed
    served to that user afterwards is the feed from before with the like
    count of post [i] raised by one and its [user_liked] set; every other
    row is as it was.  Both revisions. *)
Theorem like_then_feed h h' now s d i :
  requireLogin h s = None →
  requireLogin h' s = None →
  filter (like_of (int i) (bound_userId s)) (rows (likes d)) = [] →
  ∃ d1 rs,
    post_like h (Int i) now s d = (json_liked true, d1, s) ∧
    Server.get_posts h' s d = (json_posts rs, d, s) ∧
    Server.get_posts h' s d1 =
      (json_posts
         ((λ r, if decide (Posts.id (PostRow.post r) = i)
                then liked_once r else r) <$> rs), d1, s) ∧
    Latest.get_posts h' s d1 =
      (json_posts
         ((λ r, if decide (Posts.id (PostRow.post r) = i)
                then liked_once r else r) <$> take 50 rs), d1, s).
Proof.
  intros Hg Hg' Hnone.
  rewrite (post_like_unliked h (Int i) now s d Hg Hnone).
  destruct (get_posts_logged_in h' s d Hg') as [HS _].
  eexists _, _. split; [done|]. split; [exact HS|].
  destruct (get_posts_logged_in h' s
              (with_likes
                 (insert_row (λ j, Likes.mk j (Some (Int i)) (bound_userId s)
                                     now)) d) Hg') as [HS1 HL1].
  rewrite HS1, HL1.
  assert (Hrows :
    feed_row
      (with_likes
         (insert_row (λ j, Likes.mk j (Some (Int i)) (bound_userId s) now)) d)
      (bound_userId s) <$> feed_sorted d (bound_userId s) =
    (λ r, if decide (Posts.id (PostRow.post r) = i) then liked_once r else r)
      <$> (feed_row d (bound_userId s) <$> feed_sorted d (bound_userId s))).
  { rewrite <- list_fmap_compose. apply list_fmap_ext. intros j pu _.
    apply feed_row_liked.
    - destruct (logged_in_userId h s Hg) as (z & Hz & _).
      unfold bound_userId. rewrite Hz. by eexists.
    - rewrite Exists_exists. intros (l & Hl & Hlike).
      by eapply filter_nil_not_elem_of. }
  change (feed_sorted (with_likes _ d) (bound_userId s))
    with (feed_sorted d (bound_userId s)).
  rewrite Hrows. split; [done|]. by rewrite fmap_take.
Qed.

(** Amina likes her own public post and sees the count rise. *)
Lemma like_then_feed_witness :
  ∃ d1,
    post_like browser (Int 2) "2024-01-07 10:00:00" amina_session small_db =
      (json_liked true, d1, amina_session) ∧
    Server.get_posts browser amina_session d1 =
      (json_posts [PostRow.mk (public_post 2) "amina"
                     "images/default-profile.png" 1 0 1], d1, amina_session).
Proof.
  destruct (like_then_feed browser browser "2024-01-07 10:00:00" amina_session
              small_db 2) as (d1 & rs & Hlike & Hfeed & Hfeed1 & _);
    [reflexivity..|].
  exists d1. split; [exact Hlike|].
  rewrite Hfeed1. vm_compute in Hfeed. injection Hfeed as <-. reflexivity.
Defined.

(** ** Comments *)

Lemma filter_unique_elem {A B} `{EqDecision B} (f : A → B) (l : list A) x :
  NoDup (f <$> l) → x ∈ l → filter (λ y, f y = f x) l = [x].
Proof.
  induction l as [|z l IH]; simpl; [by intros _ ?%elem_of_nil|].
  rewrite NoDup_cons. intros [Hz Hnd] Hx. rewrite filter_cons.
  apply elem_of_cons in Hx as [->|Hx].
  - rewrite decide_True by done. f_equal. apply filter_none_iff.
    intros y Hy Heq. apply Hz. rewrite <- Heq. by apply list_elem_of_fmap_2.
  - rewrite decide_False; [by apply IH|].
    intros Heq. apply Hz. rewrite Heq. by apply list_elem_of_fmap_2.
Qed.

(** The [JOIN users ... ON x = u.id] of a value that names an existing row
    yields that row and no other. *)
Lemma join_user_found d (v : value) u :
  unique_ids (users d) → u ∈ rows (users d) → v = int (Users.id u) →
  filter (λ u', holds (sql_eq v (int (Users.id u')))) (rows (users d)) = [u].
Proof.
  intros Hids Hu ->.
  rewrite <- (filter_unique_elem Users.id (rows (users d)) u) by done.
  apply list_filter_iff. intros u'. unfold holds, int. simpl.
  case_bool_decide; split; try done; try congruence.
Qed.

(** X8. A comment posted by a logged-in user whose users row exists is
    answered with its new id and is then part of the comment list of that
    post for every logged-in reader, with the author's username and image;
    the comments that were listed before are all still listed.  Whether the
    post exists is not checked. *)
Theorem comment_then_list h h' id content now s s' d u :
  requireLogin h s = None →
  requireLogin h' s' = None →
  unique_ids (users d) →
  u ∈ rows (users d) →
  own_row s u →
  ∃ d1 rs rs1,
    Server.add_comment h id content now s d =
      (json_comment (next_rowid (comments d)), d1, s) ∧
    Server.get_comments h' id s' d = (json_comments rs, d, s') ∧
    Server.get_comments h' id s' d1 = (json_comments rs1, d1, s') ∧
    rs1 ≡ₚ
      CommentRow.mk
        (Comments.mk (next_rowid (comments d)) (Some id) (bound_userId s)
           content now)
        (Users.username u) (Users.profile_image u) :: rs.
Proof.
  intros Hg Hg' Hids Hu Hown%own_row_id.
  unfold Server.add_comment, Server.get_comments. rewrite Hg, Hg'.
  eexists _, _, _. split; [done|]. split; [done|]. split; [done|].
  unfold sort_oldest_first. rewrite !merge_sort_Permutation.
  unfold Server.comments_of. simpl. rewrite bind_app, filter_app, fmap_app.
  simpl. rewrite (join_user_found d _ u) by done. simpl.
  rewrite filter_cons, decide_True by apply sql_eq_refl.
  rewrite filter_nil. simpl. by rewrite <- Permutation_cons_append.
Qed.

(** Amina comments on her post; bashir reads the comments. *)
Lemma comment_then_list_witness :
  ∃ d1,
    Server.add_comment browser (Int 2) (Some "Waad mahadsan tahay")
      "2024-01-08 10:00:00" amina_session small_db =
      (json_comment 1, d1, amina_session) ∧
    Server.get_comments browser (Int 2) bashir_session d1 =
      (json_comments
         [CommentRow.mk
            (Comments.mk 1 (int 2) (int 2) (Some "Waad mahadsan tahay")
               "2024-01-08 10:00:00")
            "amina" "images/default-profile.png"], d1, bashir_session).
Proof.
  destruct (comment_then_list browser browser (Int 2)
              (Some "Waad mahadsan tahay") "2024-01-08 10:00:00"
              amina_session bashir_session small_db amina)
    as (d1 & rs & rs1 & Hadd & Hget & Hget1 & Hperm).
  - reflexivity.
  - reflexivity.
  - apply (bool_decide_unpack _). vm_compute. exact I.
  - by right; left.
  - reflexivity.
  - exists d1. split; [exact Hadd|].
    vm_compute in Hadd. injection Hadd as <-. reflexivity.
Defined.

(** ** A new post heads the feed *)

Lemma string_ltb_not_leb (a b : string) :
  String.ltb a b = true → String.leb b a = true → False.
Proof.
  unfold String.ltb, String.leb. rewrite (String.compare_antisym a b).
  by destruct (String.compare b a).
Qed.

Lemma posts_join_users_insert d mk u :
  unique_ids (users d) → u ∈ rows (users d) →
  Posts.user_id (mk (next_rowid (posts d))) = int (Users.id u) →
  posts_join_users (with_posts (insert_row mk) d) =
    posts_join_users d ++ [(mk (next_rowid (posts d)), u)].
Proof.
  intros Hids Hu Hid. unfold posts_join_users. simpl.
  rewrite bind_app. f_equal. simpl.
  rewrite (join_user_found d _ u) by done. done.
Qed.

(** In a list sorted newest first, a member strictly newer than every other
    member is the head. *)
Lemma newest_is_head {A} (f : A → string) (l l0 : list A) x :
  StronglySorted (newest_first f) l →
  l ≡ₚ l0 ++ [x] →
  (∀ y, y ∈ l0 → String.ltb (f y) (f x) = true) →
  ∃ tl, l = x :: tl.
Proof.
  intros Hsorted Hperm Hnewer.
  destruct l as [|hd tl].
  { apply Permutation_nil_l in Hperm. by destruct l0. }
  assert (Hhd : hd ∈ l0 ++ [x]) by (rewrite <- Hperm; by left).
  assert (Hx : x ∈ hd :: tl)
    by (rewrite Hperm; apply elem_of_app; right; by left).
  apply elem_of_app in Hhd as [Hhd|Hhd%list_elem_of_singleton];
    [|subst; by exists tl].
  apply elem_of_cons in Hx as [->|Hx]; [by exists tl|].
  exfalso. apply StronglySorted_inv in Hsorted as [_ Hall].
  rewrite Forall_forall in Hall.
  eapply string_ltb_not_leb; [by apply Hnewer|]. by apply Hall.
Qed.

Lemma insert_post_heads_feed h' content fs now s s' d u :
  requireLogin h' s' = None →
  unique_ids (users d) →
  u ∈ rows (users d) →
  own_row s u →
  (∀ q, q ∈ rows (posts d) → String.ltb (Posts.created_at q) now = true) →
  ∃ d1 row rest,
    insert_post content (Some "public") fs now s d = (redirect "/", d1, s) ∧
    Server.get_posts h' s' d1 = (json_posts (row :: rest), d1, s') ∧
    Latest.get_posts h' s' d1 = (json_posts (row :: take 49 rest), d1, s') ∧
    Posts.content (PostRow.post row) = content ∧
    Posts.created_at (PostRow.post row) = now ∧
    Posts.id (PostRow.post row) = next_rowid (posts d) ∧
    PostRow.username row = Users.username u ∧
    rows (posts d1) = rows (posts d) ++ [PostRow.post row] ∧
    Posts.user_id (PostRow.post row) = bound_userId s ∧
    Posts.image (PostRow.post row) = stored_path (fs ≫= image).
Proof.
  intros Hg' Hids Hu Hown%own_row_id Hnewer. unfold insert_post.
  set (mk := λ i, Posts.mk i (bound_userId s) content
                    (stored_path (fs ≫= image)) (stored_path (fs ≫= video))
                    (stored_path (fs ≫= audio)) (Some "public") now).
  set (d1 := with_posts (insert_row mk) d).
  destruct (get_posts_logged_in h' s' d1 Hg') as [HS HL].
  assert (Hhead : ∃ tl, feed_sorted d1 (bound_userId s') =
                        (mk (next_rowid (posts d)), u) :: tl).
  { apply (newest_is_head (λ pu : Posts.t * Users.t, Posts.created_at pu.1) _
             (filter (λ pu, visible_to (bound_userId s') pu.1)
                (posts_join_users d))).
    - apply feed_sorted_sorted.
    - rewrite feed_sorted_perm. unfold d1.
      rewrite (posts_join_users_insert d mk u) by done.
      rewrite filter_app, filter_cons, decide_True, filter_nil; [done|].
      apply visible_to_iff. by left.
    - intros [q v] [_ Hq%elem_of_posts_join_users]%list_elem_of_filter.
      simpl. apply Hnewer. by destruct Hq. }
  destruct Hhead as [tl Htl]. rewrite Htl in HS, HL. simpl in HS, HL.
  eexists d1, _, _. split; [done|]. split; [exact HS|]. split; [exact HL|].
  done.
Qed.

(** X9. A public post created by a logged-in user whose users row exists,
    at a time later than every stored post, is the first row of the next
    feed of every logged-in user, with its author's username.  In the latest
    revision the request has to pass the content-or-file check; the privacy
    field may then be absent. *)
Theorem new_post_heads_feed h h' content f fs now s s' d u :
  requireLogin h s = None →
  requireLogin h' s' = None →
  unique_ids (users d) →
  u ∈ rows (users d) →
  own_row s u →
  (∀ q, q ∈ rows (posts d) → String.ltb (Posts.created_at q) now = true) →
  (∃ d1 row rest,
     Server.create_post h content (Some "public") fs now s d =
       (redirect "/", d1, s) ∧
     Server.get_posts h' s' d1 = (json_posts (row :: rest), d1, s') ∧
     Posts.content (PostRow.post row) = content ∧
     Posts.created_at (PostRow.post row) = now ∧
     PostRow.username row = Users.username u) ∧
  (truthy_str content = true →
   ∃ d1 row rest,
     Latest.create_post h content None (Some f) now s d =
       (redirect "/", d1, s) ∧
     Latest.get_posts h' s' d1 = (json_posts (row :: rest), d1, s') ∧
     Posts.content (PostRow.post row) = content ∧
     Posts.created_at (PostRow.post row) = now ∧
     PostRow.username row = Users.username u).
Proof.
  intros Hg Hg' Hids Hu Hown Hnewer. split.
  - destruct (insert_post_heads_feed h' content fs now s s' d u)
      as (d1 & row & rest & Hins & HS & _ & Hc & Ht & _ & Hn & _); [done..|].
    exists d1, row, rest. unfold Server.create_post. by rewrite Hg.
  - intros Hcontent.
    destruct (insert_post_heads_feed h' content (Some f) now s s' d u)
      as (d1 & row & rest & Hins & _ & HL & Hc & Ht & _ & Hn & _); [done..|].
    exists d1, row, (take 49 rest). unfold Latest.create_post.
    rewrite Hg, Hcontent. simpl. done.
Qed.

(** Amina posts "Salaan"; bashir's next feed starts with it. *)
Lemma new_post_heads_feed_witness :
  ∃ d1 rest,
    Latest.create_post browser (Some "Salaan") None (Some no_files)
      "2024-01-09 10:00:00" amina_session small_db =
      (redirect "/", d1, amina_session) ∧
    Latest.get_posts browser bashir_session d1 =
      (json_posts
         (PostRow.mk
            (Posts.mk 3 (int 2) (Some "Salaan") None None None (Some "public")
               "2024-01-09 10:00:00")
            "amina" "images/default-profile.png" 0 0 0 :: rest),
       d1, bashir_session).
Proof.
  destruct (new_post_heads_feed browser browser (Some "Salaan") no_files None
              "2024-01-09 10:00:00" amina_session bashir_session small_db
              amina) as [_ Hlatest].
  - reflexivity.
  - reflexivity.
  - apply (bool_decide_unpack _). vm_compute. exact I.
  - by right; left.
  - reflexivity.
  - intros q Hq. simpl in Hq.
    repeat (apply elem_of_cons in Hq as [->|Hq]; [reflexivity|]).
    by apply elem_of_nil in Hq.
  - destruct (Hlatest eq_refl) as (d1 & row & rest & Hpost & Hfeed & _).
    exists d1, rest. split; [exact Hpost|].
    rewrite Hfeed. vm_compute in Hpost. injection Hpost as <-.
    vm_compute in Hfeed. injection Hfeed as <- <-. reflexivity.
Defined.

(** ** Chats *)

Lemma chat_between_sym a b c :
  Server.chat_between a b c ↔ Server.chat_between b a c.
Proof.
  unfold Server.chat_between, holds.
  destruct (sql_eq (Chats.user1_id c) a) as [[]|],
    (sql_eq (Chats.user2_id c) b) as [[]|],
    (sql_eq (Chats.user1_id c) b) as [[]|],
    (sql_eq (Chats.user2_id c) a) as [[]|]; simpl; done.
Qed.

Lemma db_get_filter_Some {R} (P : R → Prop) `{∀ r, Decision (P r)}
    (l : list R) x :
  db_get (filter P l) = Some x → P x ∧ x ∈ l.
Proof.
  intros Hget%head_Some_elem_of. by apply list_elem_of_filter in Hget.
Qed.

(** X10. Once a logged-in user has asked for the chat with another user,
    later requests for that chat by either of the two, served one after the
    other, are answered with one and the same existing row and add none:
    the first request adds at most one. *)
Theorem create_chat_once h h' now now' now'' sA sB d a b :
  requireLogin h sA = None →
  requireLogin h' sB = None →
  bound_userId sA = int a →
  bound_userId sB = int b →
  ∃ r d1 c,
    Server.create_chat h (int b) now sA d = (r, d1, sA) ∧
    Server.create_chat h' (int a) now' sB d1 = (json_chat c, d1, sB) ∧
    Server.create_chat h (int b) now'' sA d1 = (json_chat c, d1, sA) ∧
    c ∈ rows (chats d1) ∧
    Server.chat_between (int a) (int b) c ∧
    (length (rows (chats d1)) ≤ length (rows (chats d)) + 1)%nat.
Proof.
  intros HgA HgB HA HB.
  assert (Hfound : ∃ r d1 c,
    Server.create_chat h (int b) now sA d = (r, d1, sA) ∧
    db_get (filter (Server.chat_between (int a) (int b)) (rows (chats d1)))
      = Some c ∧
    (length (rows (chats d1)) ≤ length (rows (chats d)) + 1)%nat).
  { unfold Server.create_chat. rewrite HgA, HA.
    destruct (db_get (filter (Server.chat_between (int a) (int b))
                        (rows (chats d)))) as [c|] eqn:Hget.
    - exists (json_chat c), d, c. split; [done|]. split; [done|]. lia.
    - apply head_None in Hget. eexists _, _, _. split; [done|]. simpl.
      rewrite filter_app, Hget, length_app. simpl.
      rewrite filter_cons, decide_True; [split; [done|lia]|].
      unfold Server.chat_between, holds, int. simpl.
      rewrite !(bool_decide_eq_true_2 (Int a = Int a)) by done.
      rewrite !(bool_decide_eq_true_2 (Int b = Int b)) by done.
      by repeat case_bool_decide. }
  destruct Hfound as (r & d1 & c & Hfirst & Hget & Hlen).
  exists r, d1, c. split; [done|].
  destruct (db_get_filter_Some _ _ _ Hget) as [Hbetween Hin].
  assert (Hget' : db_get (filter (Server.chat_between (int b) (int a))
                            (rows (chats d1))) = Some c).
  { rewrite <- Hget. f_equal. apply list_filter_iff. intros x.
    apply chat_between_sym. }
  unfold Server.create_chat. rewrite HgA, HgB, HA, HB, Hget, Hget'.
  done.
Qed.

(** Bashir opens the chat with amina; amina asking for the chat with bashir
    gets the same row. *)
Lemma create_chat_once_witness :
  ∃ d1,
    Server.create_chat browser (int 2) "2024-01-08 10:00:00" bashir_session
      small_db = (json_new_chat 2 (int 3) (int 2), d1, bashir_session) ∧
    Server.create_chat browser (int 3) "2024-01-08 11:00:00" amina_session d1
      = (json_chat (Chats.mk 2 (int 3) (int 2) "2024-01-08 10:00:00"), d1,
         amina_session).
Proof.
  destruct (create_chat_once browser browser "2024-01-08 10:00:00"
              "2024-01-08 11:00:00" "2024-01-08 12:00:00" bashir_session
              amina_session small_db 3 2)
    as (r & d1 & c & Hfirst & Hsecond & _); [reflexivity..|].
  exists d1. vm_compute in Hfirst. injection Hfirst as <- <-.
  split; [reflexivity|]. rewrite Hsecond. vm_compute in Hsecond.
  injection Hsecond as <-. reflexivity.
Defined.

Lemma bind_nil_ext {A B} (l : list A) (g : A → list B) :
  (∀ x, g x = []) → l ≫= g = [].
Proof.
  intros Hg. induction l as [|x l IH]; [done|]. by rewrite bind_cons, Hg, IH.
Qed.

(** X11. A chat request without [otherUserId] never finds an existing chat:
    every such request inserts a new row whose [user2_id] is NULL, and that
    row shows up in nobody's chat list. *)
Theorem create_chat_without_partner h h' now s s' d :
  requireLogin h s = None →
  ∃ d1,
    Server.create_chat h None now s d =
      (json_new_chat (next_rowid (chats d)) (bound_userId s) None, d1, s) ∧
    rows (chats d1) =
      rows (chats d) ++
      [Chats.mk (next_rowid (chats d)) (bound_userId s) None now] ∧
    (Server.get_chats h' s' d1).1.1 = (Server.get_chats h' s' d).1.1.
Proof.
  intros Hg. unfold Server.create_chat. rewrite Hg.
  assert (Hnone : filter (Server.chat_between (bound_userId s) None)
                    (rows (chats d)) = []).
  { apply filter_none_iff. intros c _. unfold Server.chat_between, holds.
    destruct (Chats.user1_id c), (Chats.user2_id c), (bound_userId s);
      simpl; repeat case_bool_decide; done. }
  rewrite Hnone. simpl. eexists. split; [done|]. split; [done|].
  unfold Server.get_chats. destruct (requireLogin h' s'); [done|]. simpl.
  do 3 f_equal. unfold Server.chats_join_users. simpl.
  rewrite bind_app. f_equal. simpl.
  rewrite app_nil_r.
  match goal with |- ?L ++ ?M = _ => assert (HM : M = []) end.
  { apply bind_nil_ext. intros u1.
    by rewrite (proj2 (filter_none_iff _ _)). }
  by rewrite HM, app_nil_r.
Qed.

(** Bashir asks twice for a chat without naming a partner. *)
Lemma create_chat_without_partner_witness :
  ∃ d1 d2,
    Server.create_chat browser None "2024-01-08 10:00:00" bashir_session
      small_db = (json_new_chat 2 (int 3) None, d1, bashir_session) ∧
    Server.create_chat browser None "2024-01-08 10:00:01" bashir_session d1
      = (json_new_chat 3 (int 3) None, d2, bashir_session) ∧
    Server.get_chats browser bashir_session d2 =
      (json_chats [], d2, bashir_session).
Proof.
  destruct (create_chat_without_partner browser browser "2024-01-08 10:00:00"
              bashir_session bashir_session small_db eq_refl)
    as (d1 & H1 & _ & _).
  destruct (create_chat_without_partner browser browser "2024-01-08 10:00:01"
              bashir_session bashir_session d1 eq_refl)
    as (d2 & H2 & _ & _).
  exists d1, d2. vm_compute in H1. injection H1 as <-.
  vm_compute in H2. injection H2 as <-. by vm_compute.
Defined.

(** ** Messages *)

(** X12. A message sent to a chat by one of its two users whose users row
    exists is answered with its new id and is then part of what the
    messages route returns for that chat to either of the two, with the
    sender's username and image, next to everything returned before. *)
Theorem send_then_read h h' c content file now s s' d u :
  requireLogin h s = None →
  requireLogin h' s' = None →
  unique_ids (users d) →
  u ∈ rows (users d) →
  own_row s u →
  c ∈ rows (chats d) →
  Server.chat_access (int (Chats.id c)) (bound_userId s) c →
  Server.chat_access (int (Chats.id c)) (bound_userId s') c →
  ∃ d1 rs rs1,
    Server.send_message h (Int (Chats.id c)) content file now s d =
      (json_message (next_rowid (messages d)), d1, s) ∧
    Server.get_messages h' (Int (Chats.id c)) s' d = (json_messages rs, d, s') ∧
    Server.get_messages h' (Int (Chats.id c)) s' d1 =
      (json_messages rs1, d1, s') ∧
    rs1 ≡ₚ
      MessageRow.mk
        (Messages.mk (next_rowid (messages d)) (int (Chats.id c))
           (bound_userId s) content
           (match file with Some _ => "file" | None => "text" end)
           (stored_path file) now)
        (Users.username u) (Users.profile_image u) :: rs.
Proof.
  intros Hg Hg' Hids Hu Hown%own_row_id Hc Hs Hs'.
  assert (Hopen : ∀ uid, Server.chat_access (int (Chats.id c)) uid c →
            ∃ c', db_get (filter (Server.chat_access (Some (Int (Chats.id c)))
                                    uid) (rows (chats d))) = Some c').
  { intros uid Hacc.
    destruct (filter (Server.chat_access (Some (Int (Chats.id c))) uid)
                (rows (chats d))) as [|c' l] eqn:Hf; [|by exists c'].
    exfalso. by eapply (filter_nil_not_elem_of _ _ c Hf). }
  destruct (Hopen _ Hs) as [c1 Hc1]. destruct (Hopen _ Hs') as [c2 Hc2].
  unfold Server.send_message, Server.get_messages.
  rewrite Hg, Hg', Hc1, Hc2. simpl.
  eexists _, _, _. split; [reflexivity|]. split; [reflexivity|].
  simpl. rewrite Hc2. split; [reflexivity|].
  unfold sort_oldest_first. rewrite !merge_sort_Permutation.
  rewrite bind_app, filter_app, fmap_app. simpl.
  rewrite (join_user_found d _ u) by done. simpl.
  rewrite filter_cons, decide_True by apply sql_eq_refl.
  rewrite filter_nil. simpl. by rewrite <- Permutation_cons_append.
Qed.

(** Amina writes to her chat with the administrator, who reads it. *)
Lemma send_then_read_witness :
  ∃ d1,
    Server.send_message browser (Int 1) (Some "Salaan") None
      "2024-01-08 10:00:00" amina_session small_db =
      (json_message 1, d1, amina_session) ∧
    Server.get_messages browser (Int 1) admin_session d1 =
      (json_messages
         [MessageRow.mk
            (Messages.mk 1 (int 1) (int 2) (Some "Salaan") "text" None
               "2024-01-08 10:00:00")
            "amina" "images/default-profile.png"], d1, admin_session).
Proof.
  destruct (send_then_read browser browser
              (Chats.mk 1 (int 1) (int 2) "2024-01-02 12:00:00")
              (Some "Salaan") None "2024-01-08 10:00:00" amina_session
              admin_session small_db amina)
    as (d1 & rs & rs1 & Hsend & _ & Hread & _).
  - reflexivity.
  - reflexivity.
  - apply (bool_decide_unpack _). vm_compute. exact I.
  - by right; left.
  - reflexivity.
  - by left.
  - reflexivity.
  - reflexivity.
  - exists d1. split; [exact Hsend|].
    vm_compute in Hsend. injection Hsend as <-. reflexivity.
Defined.

(** ** Changing the password *)

Lemma own_row_found s d u :
  unique_ids (users d) → u ∈ rows (users d) → own_row s u →
  filter (own_row s) (rows (users d)) = [u].
Proof.
  intros Hids Hu Hown%own_row_id.
  rewrite <- (filter_unique_elem Users.id (rows (users d)) u) by done.
  apply list_filter_iff. intros r. rewrite own_row_id, Hown. unfold int.
  split; congruence.
Qed.

Lemma filter_unique_elem_and {A B} `{EqDecision B} (f : A → B)
    (Q : A → Prop) `{∀ x, Decision (Q x)} (l : list A) x :
  NoDup (f <$> l) → x ∈ l → Q x → filter (λ y, f y = f x ∧ Q y) l = [x].
Proof.
  intros Hnd Hx HQ.
  rewrite <- (list_filter_filter_l (λ y, f y = f x ∧ Q y) (λ y, f y = f x))
    by tauto.
  rewrite (filter_unique_elem f l x Hnd Hx).
  by rewrite filter_cons, decide_True, filter_nil.
Qed.

(** X13. The update-password route replaces the hash of the session's own
    row, and of no other row, only when the current password supplied
    matches the stored hash; otherwise it answers with the wrong-password
    message and leaves the database as it was.  After a change the new
    password logs in (the user not being blocked). *)
Theorem update_password_checks `{B : Bcrypt} `{JsString} h cur new salt name s s' d u :
  requireLogin h s = None →
  unique_ids (users d) →
  unique_usernames d →
  u ∈ rows (users d) →
  own_row s u →
  toLowerCase name = Users.username u →
  (bcrypt_compare cur (Users.password u) = false →
   Server.update_password h (Some cur) (Some new) salt s d =
     (plain (send 200 "Password-ka hadda waa khalad"), d, s)) ∧
  (bcrypt_compare cur (Users.password u) = true →
   ∃ d1,
     Server.update_password h (Some cur) (Some new) salt s d =
       (plain (redirect "/settings.html?message=password_updated"), d1, s) ∧
     rows (users d1) =
       (λ r, if decide (Users.id r = Users.id u)
             then Users.set_password (bcrypt_hash new salt) r else r)
         <$> rows (users d) ∧
     (bcrypt_sound B → Users.is_blocked u = 0 →
      Server.login (Some name) (Some new) s' d1 =
        (redirect "/", d1,
         Session (Some (Users.id u)) (Some (Users.username u))
                 (Some (bool_decide (Users.is_admin u = 1)))))).
Proof.
  intros Hg Hids Hnames Hu Hown Hname.
  pose proof (own_row_found s d u Hids Hu Hown) as Hrow.
  unfold Server.update_password. rewrite Hg, Hrow. simpl. split.
  - by intros ->.
  - intros ->. eexists. split; [done|]. simpl.
    assert (Hrows :
      (λ r, if decide (own_row s r)
            then Users.set_password (bcrypt_hash new salt) r else r)
        <$> rows (users d) =
      (λ r, if decide (Users.id r = Users.id u)
            then Users.set_password (bcrypt_hash new salt) r else r)
        <$> rows (users d)).
    { apply list_fmap_ext. intros i r _. apply own_row_id in Hown.
      destruct (decide (Users.id r = Users.id u)) as [Heq|Hne].
      - rewrite decide_True; [done|]. apply own_row_id. by rewrite Heq.
      - rewrite decide_False; [done|]. rewrite own_row_id, Hown.
        unfold int. congruence. }
    rewrite Hrows. split; [done|]. intros Hsound Hblocked.
    unfold Server.login.
    rewrite (login_lookup_found name new s' _
               (Users.set_password (bcrypt_hash new salt) u));
      [done| |apply Hsound].
    simpl. rewrite Hrows, Hname.
    apply (filter_unique_elem_and Users.username
             (λ r, Users.is_blocked r = 0) _
             (Users.set_password (bcrypt_hash new salt) u)); [|  |done].
    + rewrite <- list_fmap_compose. erewrite list_fmap_ext; [exact Hnames|].
      intros i r _. simpl. by case_decide.
    + apply list_elem_of_fmap. exists u. by rewrite decide_True.
Qed.

(** Amina changes her password after giving the current one; a wrong
    current password is refused. *)
Lemma update_password_checks_witness :
  @Server.update_password sample_bcrypt browser (Some "wrong") (Some "new1")
    "salt" amina_session small_db =
    (plain (send 200 "Password-ka hadda waa khalad"), small_db, amina_session)
  ∧
  ∃ d1,
    @Server.update_password sample_bcrypt browser (Some "pass1234")
      (Some "new1") "salt" amina_session small_db =
      (plain (redirect "/settings.html?message=password_updated"), d1,
       amina_session) ∧
    @Server.login sample_bcrypt sample_strings (Some "Amina") (Some "new1") empty_session d1
      = (redirect "/", d1, amina_session).
Proof.
  assert (Hids : unique_ids (users small_db))
    by (apply (bool_decide_unpack _); vm_compute; exact I).
  assert (Hnames : unique_usernames small_db)
    by (apply (bool_decide_unpack _); vm_compute; exact I).
  assert (Hin : amina ∈ rows (users small_db)) by by right; left.
  split.
  - destruct (@update_password_checks sample_bcrypt sample_strings browser "wrong" "new1"
                "salt" "Amina" amina_session empty_session small_db amina
                eq_refl Hids Hnames Hin eq_refl eq_refl) as [Hwrong _].
    by apply Hwrong.
  - destruct (@update_password_checks sample_bcrypt sample_strings browser "pass1234" "new1"
                "salt" "Amina" amina_session empty_session small_db amina
                eq_refl Hids Hnames Hin eq_refl eq_refl) as [_ Hright].
    destruct (Hright eq_refl) as (d1 & Hupd & _ & Hlogin).
    exists d1. split; [exact Hupd|].
    apply Hlogin; [apply sample_bcrypt_sound|reflexivity].
Defined.

(** ** Deleting, blocking and unblocking users *)

Lemma get_posts_rows h s d rs :
  Server.get_posts h s d = (json_posts rs, d, s) →
  rs = feed_row d (bound_userId s) <$> feed_sorted d (bound_userId s).
Proof.
  unfold Server.get_posts, requireLogin, server_error.
  repeat case_match; intros ?; by simplify_eq.
Qed.

(** X14. Deleting a user removes the users rows with that id and nothing
    else: posts, comments, likes, chats and messages stay as they are.  The
    posts of the deleted user are in no feed any more, and a session of the
    deleted user still passes the login guard but gets 404 from the
    user-info route. *)
Theorem delete_user_orphans i a d :
  requireAdmin a = None →
  ∃ d1,
    Server.delete_user (Int i) a d = (json_success, d1, a) ∧
    posts d1 = posts d ∧ comments d1 = comments d ∧ likes d1 = likes d ∧
    chats d1 = chats d ∧ messages d1 = messages d ∧
    (∀ u, u ∈ rows (users d1) ↔ u ∈ rows (users d) ∧ Users.id u ≠ i) ∧
    (∀ h s rs r,
       Server.get_posts h s d1 = (json_posts rs, d1, s) → r ∈ rs →
       Posts.user_id (PostRow.post r) ≠ int i) ∧
    (∀ h s,
       requireLogin h s = None → bound_userId s = int i →
       Server.user_info h s d1 =
         (plain (json_error 404 "User not found"), d1, s)).
Proof.
  intros Ha. unfold Server.delete_user. rewrite Ha. eexists.
  split; [done|]. simpl. do 5 (split; [done|]).
  assert (Hrows : ∀ u,
    u ∈ filter (λ r, ¬ Server.user_with_id (Int i) r) (rows (users d)) ↔
    u ∈ rows (users d) ∧ Users.id u ≠ i).
  { intros u. rewrite list_elem_of_filter, user_with_id_iff.
    split; intros [? ?]; split; try done; congruence. }
  split; [exact Hrows|]. split.
  - intros h s rs r Hget Hr. apply get_posts_rows in Hget. subst rs.
    apply list_elem_of_fmap in Hr as ([p u] & -> & [_ Hpu]%elem_of_feed_sorted).
    apply elem_of_posts_join_users in Hpu as (_ & Hu & Hid). simpl in *.
    apply Hrows in Hu as [_ Hne]. rewrite Hid. unfold int. congruence.
  - intros h s Hg Hs. unfold Server.user_info. rewrite Hg. simpl.
    rewrite (proj2 (filter_none_iff _ _)); [done|].
    intros u [_ Hne]%Hrows Hown%own_row_id. rewrite Hs in Hown.
    unfold int in Hown. congruence.
Qed.

(** The administrator deletes bashir, whose session lives on. *)
Lemma delete_user_orphans_witness :
  private_post ∈ rows (posts orphaned_db) ∧
  Server.user_info browser bashir_session orphaned_db =
    (plain (json_error 404 "User not found"), orphaned_db, bashir_session).
Proof.
  destruct (delete_user_orphans 3 admin_session small_db eq_refl)
    as (d1 & Hdel & Hposts & _ & _ & _ & _ & _ & _ & Hinfo).
  injection Hdel as <-. split.
  - change (posts orphaned_db) with (posts small_db). by left.
  - by apply (Hinfo browser bashir_session).
Defined.

Lemma update_where_same {R} (P : R → Prop) `{∀ r, Decision (P r)}
    (f : R → R) (t : table R) :
  (∀ r, r ∈ rows t → P r → f r = r) → update_where P f t = t.
Proof.
  intros Hf. destruct t as [l n]. unfold update_where. simpl in *. f_equal.
  rewrite <- (list_fmap_id l) at 2.
  apply list_fmap_ext. intros i r Hr%list_elem_of_lookup_2. simpl.
  case_decide; [by apply Hf|done].
Qed.

Lemma update_where_twice {R} (P : R → Prop) `{∀ r, Decision (P r)}
    (f g : R → R) (t : table R) :
  (∀ r, P r → P (f r)) →
  update_where P g (update_where P f t) = update_where P (g ∘ f) t.
Proof.
  intros HP. unfold update_where. simpl. f_equal.
  rewrite <- list_fmap_compose. apply list_fmap_ext. intros i r _. simpl.
  destruct (decide (P r)) as [Hr|Hr].
  - by rewrite decide_True by by apply HP.
  - by rewrite decide_False.
Qed.

Lemma with_users_twice f g d :
  with_users g (with_users f d) = with_users (λ t, g (f t)) d.
Proof. done. Qed.

Lemma with_users_same f d : f (users d) = users d → with_users f d = d.
Proof. intros Hf. destruct d. unfold with_users. simpl in *. by rewrite Hf. Qed.

(** X15. Blocking and then unblocking the same id gives back the database
    exactly as it was, provided the rows with that id were not blocked
    before. *)
Theorem block_then_unblock id a d :
  requireAdmin a = None →
  (∀ u, u ∈ rows (users d) → Int (Users.id u) = id → Users.is_blocked u = 0) →
  ∃ d1,
    Server.block_user id true a d = (json_success, d1, a) ∧
    Server.block_user id false a d1 = (json_success, d, a).
Proof.
  intros Ha Hfree. unfold Server.block_user. rewrite Ha. eexists.
  split; [done|]. do 2 f_equal. rewrite with_users_twice.
  apply with_users_same. rewrite update_where_twice by done.
  apply update_where_same. intros u Hu Hid%user_with_id_iff.
  specialize (Hfree u Hu Hid). destruct u. simpl in *. by subst.
Qed.

(** The administrator blocks amina and unblocks her again. *)
Lemma block_then_unblock_witness :
  ∃ d1,
    Server.block_user (Int 2) true admin_session small_db =
      (json_success, d1, admin_session) ∧
    Server.block_user (Int 2) false admin_session d1 =
      (json_success, small_db, admin_session).
Proof.
  apply (block_then_unblock (Int 2) admin_session small_db eq_refl).
  intros u Hu. simpl in Hu.
  repeat (apply elem_of_cons in Hu as [->|Hu]; [done|]).
  by apply elem_of_nil in Hu.
Defined.

(** ** Password reset for a name nobody has *)

(** X16. A reset-password request for a username that no row carries (or
    without a username) is answered with the same success script as a
    successful one and leaves the database exactly as it was. *)
Theorem reset_password_unknown `{B : Bcrypt} name new salt s d :
  (∀ u, u ∈ rows (users d) → Some (Users.username u) ≠ name) →
  Server.reset_password name (Some new) salt s d =
    (send 200 Server.reset_script, d, s).
Proof.
  intros Hunknown. unfold Server.reset_password. do 2 f_equal.
  apply (with_users_same
           (update_where (Server.named name)
              (Users.set_password (bcrypt_hash new salt)))).
  apply update_where_same. intros u Hu Hnamed. exfalso.
  apply (Hunknown u Hu). unfold Server.named, holds, text in Hnamed.
  destruct name as [n|]; simpl in Hnamed; [|done].
  case_bool_decide; by simplify_eq.
Qed.

(** Nobody is called "zahra". *)
Lemma reset_password_unknown_witness :
  @Server.reset_password sample_bcrypt (Some "zahra") (Some "x") "salt"
    empty_session small_db =
  (send 200 Server.reset_script, small_db, empty_session).
Proof.
  apply (@reset_password_unknown sample_bcrypt).
  intros u Hu. simpl in Hu.
  repeat (apply elem_of_cons in Hu as [->|Hu]; [done|]).
  by apply elem_of_nil in Hu.
Defined.

(** ** The default administrator *)

(** X17. Start-up leaves a users table that has rows alone; on an empty
    users table (a fresh file, or one whose users were all deleted) it
    inserts the administrator, after which "admin" with the password
    "admin123" logs in as an administrator. *)
Theorem default_admin `{B : Bcrypt} `{JsString} salt now name s d :
  (rows (users d) ≠ [] → Server.create_default_admin salt now d = d) ∧
  (rows (users d) = [] →
   bcrypt_sound B →
   toLowerCase name = "admin" →
   Server.login (Some name) (Some "admin123") s
     (Server.create_default_admin salt now d) =
     (redirect "/", Server.create_default_admin salt now d,
      Session (Some (next_rowid (users d))) (Some "admin") (Some true))).
Proof.
  unfold Server.create_default_admin. split.
  - intros Hrows. rewrite bool_decide_eq_false_2; [done|].
    by destruct (rows (users d)).
  - intros Hrows Hsound Hname. rewrite Hrows. simpl.
    unfold Server.login.
    rewrite (login_lookup_found name "admin123" s _
               (Users.mk (next_rowid (users d)) "admin"
                  (bcrypt_hash "admin123" salt) (Some "Admin User")
                  "images/default-profile.png" None 1 0 now));
      [done| |apply Hsound].
    simpl. rewrite Hrows, Hname. simpl. by rewrite filter_cons, decide_True.
Qed.

(** After every user has been deleted, a restart brings the default
    credentials back. *)
Lemma default_admin_witness :
  @Server.create_default_admin sample_bcrypt "salt" "2024-02-01 00:00:00"
    small_db = small_db ∧
  ∃ d1,
    d1 = @Server.create_default_admin sample_bcrypt "salt"
           "2024-02-01 00:00:00"
           (with_users (λ _, Table [] 3) small_db) ∧
    @Server.login sample_bcrypt sample_strings (Some "admin") (Some "admin123") empty_session
      d1 = (redirect "/", d1, Session (Some 4) (Some "admin") (Some true)).
Proof.
  split.
  - by apply (@default_admin sample_bcrypt sample_strings "salt" "2024-02-01 00:00:00"
                "admin" empty_session small_db).
  - eexists. split; [reflexivity|].
    apply (@default_admin sample_bcrypt sample_strings "salt" "2024-02-01 00:00:00" "admin"
             empty_session (with_users (λ _, Table [] 3) small_db));
      [reflexivity|apply sample_bcrypt_sound|reflexivity].
Defined.

(** ** What no route does *)

Ltac login_db :=
  match goal with
  | H : login_lookup ?u ?p ?s ?d = _ |- _ =>
      pose proof (login_lookup_db u p s d) as Hdb;
      rewrite H in Hdb; simpl in Hdb; subst
  end.

(** X18. Posts, comments, chats and messages are append-only: whatever the
    route, session and parameters, the rows a table held before are a
    prefix of the rows it holds after.  No route edits or deletes one. *)
Theorem served_append_only k s d :
  served k →
  rows (posts d) `prefix_of` rows (posts (k s d).1.2) ∧
  rows (comments d) `prefix_of` rows (comments (k s d).1.2) ∧
  rows (chats d) `prefix_of` rows (chats (k s d).1.2) ∧
  rows (messages d) `prefix_of` rows (messages (k s d).1.2).
Proof.
  intros Hk.
  destruct Hk as [k Hk| | | | | | | | | | | | | | | ]; [destruct Hk|..].
  all: unfold_routes; unfold register_insert, insert_user, insert_post.
  all: repeat case_match; simplify_eq; simpl; try login_db.
  all: repeat split; try done; by apply prefix_app_r.
Qed.

(** X19. No route grants administrator rights: a users row with
    [is_admin = 1] after a request has the id of a row that had
    [is_admin = 1] before it. *)
Theorem served_grant_no_admin k s d u' :
  served k →
  u' ∈ rows (users (k s d).1.2) →
  Users.is_admin u' = 1 →
  ∃ u, u ∈ rows (users d) ∧ Users.id u = Users.id u' ∧ Users.is_admin u = 1.
Proof.
  intros Hk.
  assert (Hupd : ∀ (P : Users.t → Prop) (dec : ∀ r, Decision (P r)) g,
    (∀ r, Users.id (g r) = Users.id r ∧ Users.is_admin (g r) = Users.is_admin r) →
    u' ∈ rows (update_where P g (users d)) → Users.is_admin u' = 1 →
    ∃ u, u ∈ rows (users d) ∧ Users.id u = Users.id u' ∧ Users.is_admin u = 1).
  { intros P dec g Hg Hin Hadm. simpl in Hin.
    apply list_elem_of_fmap in Hin as (u & -> & Hu). exists u.
    split; [done|]. destruct (decide (P u)); [|done].
    destruct (Hg u) as [-> Hsame]. by rewrite <- Hsame. }
  destruct Hk as [k Hk| | | | | | | | | | | | | | | ]; [destruct Hk|..].
  all: unfold_routes; unfold register_insert, insert_user, insert_post.
  all: repeat case_match; simplify_eq; simpl; try login_db.
  all: try (intros Hin Hadm; by exists u').
  all: try (by apply Hupd).
  all: try (intros [Hin|Hin%list_elem_of_singleton]%elem_of_app Hadm;
            [by exists u'|by subst]).
  intros [_ Hin]%list_elem_of_filter Hadm. by exists u'.
Qed.

(** Registering does not make caasha an administrator. *)
Lemma served_grant_no_admin_witness :
  ∃ u, u ∈ rows (users small_db) ∧ Users.id u = 1 ∧ Users.is_admin u = 1.
Proof.
  apply (served_grant_no_admin
           (lift (@Server.register sample_bcrypt sample_strings (Some "Caasha")
                    (Some "pass1234") (Some "Caasha C") None "salt"
                    "2024-01-04 10:00:00"))
           empty_session small_db admin).
  - do 2 constructor.
  - vm_compute. by left.
  - reflexivity.
Defined.

(** X20. A session's [userId] and [isAdmin] change only by a login, which
    takes them from a users row that is not blocked (so [isAdmin] is true
    only for a row with [is_admin = 1]), or by the logout handler, which
    clears them.  Every other route returns them as they were. *)
Theorem served_session_fields k s d :
  served k →
  (userId (k s d).2 = userId s ∧ isAdmin (k s d).2 = isAdmin s) ∨
  (k s d).2 = empty_session ∨
  ∃ u, u ∈ rows (users d) ∧ Users.is_blocked u = 0 ∧
       userId (k s d).2 = Some (Users.id u) ∧
       isAdmin (k s d).2 = Some (bool_decide (Users.is_admin u = 1)).
Proof.
  intros Hk.
  destruct Hk as [k Hk| | | | | | | | | | | | | | | ].
  - destruct (routes_keep_session k s d Hk) as [Hs|(u & Hu & Hb & Hs)];
      unfold lift; destruct (k s d) as [[r d'] s1]; simpl in *; subst.
    + by left.
    + right. right. by exists u.
  - left. unfold Server.home. by case_match.
  - left. unfold Server.page. by case_match.
  - left. unfold Server.user_info. by repeat case_match.
  - right. by left.
  - left. unfold Server.update_profile. by repeat case_match.
  - left. unfold Server.update_password. by repeat case_match.
  - left. unfold Server.profile_posts. by case_match.
  - left. unfold Server.add_comment. by case_match.
  - left. unfold Server.get_comments. by case_match.
  - left. unfold Server.list_users. by case_match.
  - left. unfold Server.search_users. by case_match.
  - left. unfold Server.get_chats. by case_match.
  - left. unfold Server.get_messages. by repeat case_match.
  - left. unfold Server.create_chat. by repeat case_match.
  - by left.
Qed.

(** The feed changes no table, a failed login no session. *)
Lemma served_append_only_witness :
  rows (posts small_db) `prefix_of`
    rows (posts (lift (Server.create_post browser (Some "Salaan") None None
                         "2024-01-09 10:00:00") amina_session small_db).1.2).
Proof.
  by destruct (served_append_only
                 (lift (Server.create_post browser (Some "Salaan") None None
                          "2024-01-09 10:00:00")) amina_session small_db)
    as [Hposts _]; [do 2 constructor|].
Defined.

Lemma served_session_fields_witness :
  userId (@Server.update_profile sample_strings browser (Some "Aamina") None None None
            amina_session small_db).2 = Some 2 ∧
  (Server.logout amina_session small_db).2 = empty_session.
Proof.
  split.
  - destruct (served_session_fields
                (@Server.update_profile sample_strings browser (Some "Aamina") None None None)
                amina_session small_db) as [[Hid _]|[He|(u & _ & _ & Hid & _)]];
      [constructor|..]; reflexivity.
  - destruct (served_session_fields Server.logout amina_session small_db)
      as [[Hid _]|[He|(u & _ & _ & Hid & _)]]; [constructor|..]; reflexivity.
Defined.

(** ** Renaming oneself *)

(** X21. A profile update by a logged-in user whose users row exists,
    user ids being unique, is refused with the duplicate-username message,
    the database unchanged, when another row already has the lower-cased
    new name.  Otherwise it is stored: the user-info route then reports the lower-cased name, the new
    name and image fields and the old id and [is_admin], while the session
    keeps the name as it was typed. *)
Theorem update_profile_renames `{JsString} h name n b file s d u :
  requireLogin h s = None →
  unique_ids (users d) →
  u ∈ rows (users d) →
  own_row s u →
  ((∃ r, r ∈ rows (users d) ∧ Users.id r ≠ Users.id u ∧
         Users.username r = toLowerCase name) →
   Server.update_profile h (Some name) n b file s d =
     (plain duplicate_username, d, s)) ∧
  ((∀ r, r ∈ rows (users d) → Users.id r ≠ Users.id u →
         Users.username r ≠ toLowerCase name) →
   ∃ d1,
     Server.update_profile h (Some name) n b file s d =
       (plain (redirect "/settings.html"), d1,
        Session (userId s) (Some name) (isAdmin s)) ∧
     Server.user_info h (Session (userId s) (Some name) (isAdmin s)) d1 =
       (json_user_info
          (UserInfoRow.mk (Users.id u) (toLowerCase name) n
             (default (Users.profile_image u) (stored_path file))
             (Users.is_admin u)),
        d1, Session (userId s) (Some name) (isAdmin s))).
Proof.
  intros Hg Hids Hu Hown. unfold Server.update_profile. rewrite Hg. split.
  - intros (r & Hr & Hid & Hname). rewrite decide_True; [done|].
    unfold Server.rename_conflict. apply Exists_exists. exists u.
    split; [done|]. split; [done|]. apply Exists_exists. by exists r.
  - intros Hfree. rewrite decide_False.
    2:{ apply not_rename_conflict. intros r Hr Hr' r' Hr'' Hid.
        apply own_row_id in Hr'. apply own_row_id in Hown.
        assert (Users.id r = Users.id u)
          by (rewrite Hown in Hr'; unfold int in Hr'; congruence).
        apply Hfree; [done|congruence]. }
    eexists. split; [done|].
    unfold Server.user_info.
    assert (Hg' : requireLogin h (Session (userId s) (Some name) (isAdmin s))
                  = None).
    { apply requireLogin_pass. simpl. by apply (requireLogin_pass h). }
    rewrite Hg'. simpl.
    assert (Hrow : filter (own_row (Session (userId s) (Some name) (isAdmin s)))
                     ((λ r, if decide (own_row s r)
                            then set_profile (toLowerCase name) n b
                                   (stored_path file) r
                            else r) <$> rows (users d)) =
                   [set_profile (toLowerCase name) n b (stored_path file) u]).
    { apply (own_row_found (Session (userId s) (Some name) (isAdmin s))
               (with_users
                  (update_where (own_row s)
                     (set_profile (toLowerCase name) n b (stored_path file)))
                  d)).
      - by apply NoDup_fmap_update.
      - simpl. apply list_elem_of_fmap. exists u. by rewrite decide_True.
      - exact Hown. }
    rewrite Hrow. done.
Qed.

(** Amina renames herself "Aamina"; "Bashir" is taken. *)
Lemma update_profile_renames_witness :
  @Server.update_profile sample_strings browser (Some "Bashir") None None None amina_session
    small_db = (plain duplicate_username, small_db, amina_session) ∧
  ∃ d1,
    @Server.update_profile sample_strings browser (Some "Aamina") (Some "Amina A") None None
      amina_session small_db =
      (plain (redirect "/settings.html"), d1,
       Session (Some 2) (Some "Aamina") (Some false)) ∧
    Server.user_info browser (Session (Some 2) (Some "Aamina") (Some false)) d1
      = (json_user_info
           (UserInfoRow.mk 2 "aamina" (Some "Amina A")
              "images/default-profile.png" 0),
         d1, Session (Some 2) (Some "Aamina") (Some false)).
Proof.
  assert (Hids : unique_ids (users small_db))
    by (apply (bool_decide_unpack _); vm_compute; exact I).
  assert (Hin : amina ∈ rows (users small_db)) by by right; left.
  split.
  - destruct (@update_profile_renames sample_strings browser "Bashir" None None None
                amina_session small_db amina eq_refl Hids Hin eq_refl)
      as [Htaken _].
    apply Htaken. exists bashir. split; [by do 2 right; left|done].
  - destruct (@update_profile_renames sample_strings browser "Aamina" (Some "Amina A") None
                None amina_session small_db amina eq_refl Hids Hin eq_refl)
      as [_ Hfree].
    apply Hfree. intros r Hr. simpl in Hr.
    repeat (apply elem_of_cons in Hr as [->|Hr]; [done|]).
    by apply elem_of_nil in Hr.
Defined.

(** ** Profile pages *)

(** X22. The posts route of a profile returns only posts whose author row
    carries the requested username, and never a post that is not public to
    a requester other than its owner; the owner finds it there when asking
    for the own username. *)
Theorem profile_posts_privacy h name s d p :
  requireLogin h s = None →
  p ∈ rows (posts d) →
  Posts.privacy p ≠ Some "public" →
  ∃ rs,
    Server.profile_posts h name s d = (json_profile_posts rs, d, s) ∧
    (∀ r, r ∈ rs →
       ∃ u, u ∈ rows (users d) ∧ Users.username u = name ∧
            Posts.user_id (ProfilePostRow.post r) = int (Users.id u)) ∧
    (Posts.user_id p ≠ bound_userId s → p ∉ ProfilePostRow.post <$> rs) ∧
    (Posts.user_id p = bound_userId s →
     (∃ u, u ∈ rows (users d) ∧ int (Users.id u) = bound_userId s ∧
           Users.username u = name) →
     p ∈ ProfilePostRow.post <$> rs).
Proof.
  intros Hg Hp Hprivate. unfold Server.profile_posts. rewrite Hg.
  eexists. split; [done|].
  assert (Hin : ∀ q,
    q ∈ ProfilePostRow.post <$>
          ((λ pu : Posts.t * Users.t,
              ProfilePostRow.mk pu.1 (Server.like_count_of d pu.1)
                (Server.comment_count_of d pu.1)) <$>
           merge_sort (newest_first (λ pu, Posts.created_at pu.1))
             (filter (λ pu, Users.username pu.2 = name ∧
                            visible_to (bound_userId s) pu.1)
                (posts_join_users d))) ↔
    ∃ u, (q, u) ∈ posts_join_users d ∧ Users.username u = name ∧
         visible_to (bound_userId s) q).
  { intros q. rewrite <- list_fmap_compose, list_elem_of_fmap. split.
    - intros ([q' u] & -> & Hqu). rewrite merge_sort_Permutation in Hqu.
      apply list_elem_of_filter in Hqu as [[? ?] ?]. by exists u.
    - intros (u & Hqu & Hname & Hvis). exists (q, u). split; [done|].
      rewrite merge_sort_Permutation. by apply list_elem_of_filter. }
  split; [|split].
  - intros r Hr.
    assert (Hr' : ProfilePostRow.post r ∈ ProfilePostRow.post <$>
              ((λ pu : Posts.t * Users.t,
                  ProfilePostRow.mk pu.1 (Server.like_count_of d pu.1)
                    (Server.comment_count_of d pu.1)) <$>
               merge_sort (newest_first (λ pu, Posts.created_at pu.1))
                 (filter (λ pu, Users.username pu.2 = name ∧
                                visible_to (bound_userId s) pu.1)
                    (posts_join_users d)))) by by apply list_elem_of_fmap_2.
    apply Hin in Hr' as (u & Hqu & Hname & _).
    apply elem_of_posts_join_users in Hqu as (_ & Hu & Hid). by exists u.
  - intros Hother (u & _ & _ & Hvis)%Hin.
    apply visible_to_iff in Hvis as [?|(x & Hx & Hs)]; [done|].
    apply Hother. by rewrite Hx, Hs.
  - intros Hown (u & Hu & Hid & Hname). apply Hin. exists u.
    split; [|split; [done|]].
    + apply elem_of_posts_join_users. by rewrite Hown, Hid.
    + apply visible_to_iff. right. rewrite Hown, <- Hid. by eexists.
Qed.

(** Amina does not find bashir's private post on his profile; he does. *)
Lemma profile_posts_privacy_witness :
  Server.profile_posts browser "bashir" amina_session small_db =
    (json_profile_posts [], small_db, amina_session) ∧
  Server.profile_posts browser "bashir" bashir_session small_db =
    (json_profile_posts [ProfilePostRow.mk private_post 0 0], small_db,
     bashir_session).
Proof.
  destruct (profile_posts_privacy browser "bashir" amina_session small_db
              private_post) as (rs & Hget & _ & Hother & _);
    [reflexivity|by left|discriminate|].
  destruct (profile_posts_privacy browser "bashir" bashir_session small_db
              private_post) as (rs' & Hget' & _ & _ & Hown);
    [reflexivity|by left|discriminate|].
  split.
  - rewrite Hget. vm_compute in Hget. injection Hget as <-. reflexivity.
  - rewrite Hget'. vm_compute in Hget'. injection Hget' as <-. reflexivity.
Defined.

(** ** Blocking and the lists *)

Lemma join_filter_update (P : Users.t → Prop) `{∀ r, Decision (P r)}
    (g : Users.t → Users.t) (v : value) (l : list Users.t) :
  (∀ u, Users.id (g u) = Users.id u) →
  filter (λ u, holds (sql_eq v (int (Users.id u))))
    ((λ r, if decide (P r) then g r else r) <$> l) =
  (λ r, if decide (P r) then g r else r) <$>
    filter (λ u, holds (sql_eq v (int (Users.id u)))) l.
Proof.
  intros Hg. induction l as [|u l IH]; [done|].
  rewrite fmap_cons, !filter_cons, IH.
  assert (Hid : Users.id (if decide (P u) then g u else u) = Users.id u)
    by by case_decide.
  rewrite Hid.
  by destruct (decide (holds (sql_eq v (int (Users.id u))))).
Qed.

Lemma posts_join_users_update (P : Users.t → Prop) `{∀ r, Decision (P r)}
    (g : Users.t → Users.t) d :
  (∀ u, Users.id (g u) = Users.id u) →
  posts_join_users (with_users (update_where P g) d) =
  (λ pu, (pu.1, if decide (P pu.2) then g pu.2 else pu.2)) <$>
    posts_join_users d.
Proof.
  intros Hg. unfold posts_join_users. simpl.
  induction (rows (posts d)) as [|p l IH]; [done|].
  rewrite !bind_cons, fmap_app, IH. f_equal.
  rewrite (join_filter_update P g) by done.
  induction (filter _ (rows (users d))) as [|u us IHu]; [done|].
  rewrite fmap_cons, !bind_cons, fmap_app, IHu. done.
Qed.

Lemma filter_fmap {A B} (f : A → B) (P : B → Prop) `{∀ x, Decision (P x)}
    (l : list A) :
  filter P (f <$> l) = f <$> filter (λ x, P (f x)) l.
Proof.
  induction l as [|x l IH]; [done|].
  rewrite fmap_cons, !filter_cons, IH. by case_decide.
Qed.

Section merge_sort_fmap.
Context {A B} (f : A → B) (R : relation B) (R' : relation A).
Context `{∀ x y, Decision (R x y)} `{∀ x y, Decision (R' x y)}.
Hypothesis R_f : ∀ x y, R (f x) (f y) ↔ R' x y.

Local Abbreviation stack_fmap :=
  (fmap (M:=list) (fmap (M:=option) (fmap (M:=list) f))).

Lemma list_merge_fmap (l1 l2 : list A) :
  list_merge R (f <$> l1) (f <$> l2) = f <$> list_merge R' l1 l2.
Proof.
  revert l2. induction l1 as [|x1 l1 IH1]; intros l2; [by destruct l2|].
  induction l2 as [|x2 l2 IH2]; [done|].
  rewrite !fmap_cons. simpl.
  destruct (decide (R (f x1) (f x2))) as [HR|HR],
    (decide (R' x1 x2)) as [HR'|HR']; try (by apply R_f in HR);
    try (by apply R_f in HR').
  - rewrite fmap_cons. f_equal. apply (IH1 (x2 :: l2)).
  - rewrite fmap_cons. f_equal. apply IH2.
Qed.

Lemma merge_list_to_stack_fmap (st : list (option (list A))) (l : list A) :
  merge_list_to_stack R (stack_fmap st) (f <$> l) =
  stack_fmap (merge_list_to_stack R' st l).
Proof.
  revert l. induction st as [|[l'|] st IH]; intros l; [done| |done].
  rewrite fmap_cons. simpl. rewrite list_merge_fmap, IH. done.
Qed.

Lemma merge_stack_fmap (st : list (option (list A))) :
  merge_stack R (stack_fmap st) = f <$> merge_stack R' st.
Proof.
  induction st as [|[l'|] st IH]; [done| |done].
  rewrite fmap_cons. simpl. rewrite IH. apply list_merge_fmap.
Qed.

Lemma merge_sort_aux_fmap (st : list (option (list A))) (l : list A) :
  merge_sort_aux R (stack_fmap st) (f <$> l) =
  f <$> merge_sort_aux R' st l.
Proof.
  revert st. induction l as [|x l IH]; intros st; [apply merge_stack_fmap|].
  simpl. rewrite <- IH. f_equal. apply (merge_list_to_stack_fmap st [x]).
Qed.

Lemma merge_sort_fmap (l : list A) :
  merge_sort R (f <$> l) = f <$> merge_sort R' l.
Proof. apply (merge_sort_aux_fmap []). Qed.
End merge_sort_fmap.

Lemma feed_sorted_update (P : Users.t → Prop) `{∀ r, Decision (P r)}
    (g : Users.t → Users.t) d userId :
  (∀ u, Users.id (g u) = Users.id u) →
  feed_sorted (with_users (update_where P g) d) userId =
  (λ pu, (pu.1, if decide (P pu.2) then g pu.2 else pu.2)) <$>
    feed_sorted d userId.
Proof.
  intros Hg. unfold feed_sorted.
  rewrite (posts_join_users_update P g) by done.
  rewrite filter_fmap.
  by apply (merge_sort_fmap
              (λ pu : Posts.t * Users.t,
                 (pu.1, if decide (P pu.2) then g pu.2 else pu.2))
              (newest_first (λ pu : Posts.t * Users.t, Posts.created_at pu.1))
              (newest_first (λ pu : Posts.t * Users.t, Posts.created_at pu.1))).
Qed.

(** X23. Blocking or unblocking a user changes nobody's feed: the feed
    query does not read [is_blocked], so the posts of a blocked user are
    served as before, in both revisions of the feed. *)
Theorem block_keeps_feed id blocked a h s d :
  requireAdmin a = None →
  ∃ d1,
    Server.block_user id blocked a d = (json_success, d1, a) ∧
    (Server.get_posts h s d1).1.1 = (Server.get_posts h s d).1.1 ∧
    (Latest.get_posts h s d1).1.1 = (Latest.get_posts h s d).1.1.
Proof.
  intros Ha. unfold Server.block_user. rewrite Ha.
  eexists. split; [done|].
  unfold Server.get_posts, Latest.get_posts.
  destruct (requireLogin h s); [done|]. simpl.
  rewrite (feed_sorted_update (Server.user_with_id id)) by done.
  assert (Hrows :
    feed_row
      (with_users
         (update_where (Server.user_with_id id)
            (Users.set_is_blocked (if blocked then 1 else 0))) d)
      (bound_userId s) <$>
      ((λ pu : Posts.t * Users.t,
          (pu.1,
           if decide (Server.user_with_id id pu.2)
           then Users.set_is_blocked (if blocked then 1 else 0) pu.2
           else pu.2)) <$> feed_sorted d (bound_userId s)) =
    feed_row d (bound_userId s) <$> feed_sorted d (bound_userId s)).
  { rewrite <- list_fmap_compose. apply list_fmap_ext.
    intros i [p u] _. unfold feed_row. simpl. by case_decide. }
  split; [by rewrite Hrows|].
  by rewrite !fmap_take, Hrows.
Qed.

(** Bashir is blocked; his posts are served to him as before. *)
Lemma block_keeps_feed_witness :
  ∃ d1,
    Server.block_user (Int 3) true admin_session small_db =
      (json_success, d1, admin_session) ∧
    (Server.get_posts browser bashir_session d1).1.1 =
      (Server.get_posts browser bashir_session small_db).1.1 ∧
    (Latest.get_posts browser bashir_session d1).1.1 =
      (Latest.get_posts browser bashir_session small_db).1.1.
Proof.
  exact (block_keeps_feed (Int 3) true admin_session browser bashir_session
           small_db eq_refl).
Defined.

(** X24. After an administrator has blocked a user id, the user list
    served to any logged-in user contains no row with that id; nor does it
    ever contain the requester's own row. *)
Theorem block_then_list i a h s d :
  requireAdmin a = None →
  requireLogin h s = None →
  ∃ d1 rs,
    Server.block_user (Int i) true a d = (json_success, d1, a) ∧
    Server.list_users h s d1 = (json_users rs, d1, s) ∧
    ∀ r, r ∈ rs →
      UserListRow.id r ≠ i ∧ Some (UserListRow.id r) ≠ userId s.
Proof.
  intros Ha Hg. unfold Server.block_user, Server.list_users. rewrite Ha, Hg.
  eexists _, _. split; [done|]. split; [done|].
  intros r (u & -> & Hu)%list_elem_of_fmap. simpl.
  rewrite merge_sort_Permutation in Hu.
  apply list_elem_of_filter in Hu as [[Hblocked Hself] Hu].
  simpl in Hu. apply list_elem_of_fmap in Hu as (u0 & -> & Hu0). split.
  - intros Hid. destruct (decide (Server.user_with_id (Int i) u0)) as [|Hn].
    + done.
    + apply Hn, user_with_id_iff. by rewrite <- Hid.
  - intros Hown. unfold holds, sql_neq, bound_userId in Hself.
    rewrite <- Hown in Hself. simpl in Hself.
    by rewrite bool_decide_eq_true_2 in Hself.
Qed.

(** Once amina is blocked, bashir's user list has the administrator only. *)
Lemma block_then_list_witness :
  ∃ d1,
    Server.block_user (Int 2) true admin_session small_db =
      (json_success, d1, admin_session) ∧
    Server.list_users browser bashir_session d1 =
      (json_users
         [UserListRow.mk 1 "admin" (Some "Admin User")
            "images/default-profile.png" "2024-01-01 08:00:00" 0],
       d1, bashir_session).
Proof.
  destruct (block_then_list 2 admin_session browser bashir_session small_db
              eq_refl eq_refl) as (d1 & rs & Hblock & Hlist & _).
  exists d1. split; [exact Hblock|].
  vm_compute in Hblock. injection Hblock as <-. reflexivity.
Defined.

(** ** Chats with a deleted user *)

(** X25. The chat list of a logged-in user holds only chats the user is a
    party to and whose two users both still have a users row: once a user
    has been deleted, the chats with that user are in nobody's list, though
    the chats table and the messages are as before. *)
Theorem delete_then_chats i a h s d :
  requireAdmin a = None →
  requireLogin h s = None →
  ∃ d1 rs,
    Server.delete_user (Int i) a d = (json_success, d1, a) ∧
    chats d1 = chats d ∧ messages d1 = messages d ∧
    Server.get_chats h s d1 = (json_chats rs, d1, s) ∧
    ∀ r, r ∈ rs →
      Server.party_to (bound_userId s) (ChatRow.chat r) ∧
      Chats.user1_id (ChatRow.chat r) ≠ int i ∧
      Chats.user2_id (ChatRow.chat r) ≠ int i.
Proof.
  intros Ha Hg. unfold Server.delete_user, Server.get_chats. rewrite Ha, Hg.
  eexists _, _. split; [done|]. split; [done|]. split; [done|].
  split; [done|].
  intros r Hr. rewrite merge_sort_Permutation in Hr.
  apply list_elem_of_fmap in Hr as ([[c u1] u2] & -> & Hx).
  apply list_elem_of_filter in Hx as [Hparty Hx]. simpl in *.
  split; [done|].
  unfold Server.chats_join_users in Hx.
  apply list_elem_of_bind in Hx as (c' & Hx & _).
  apply list_elem_of_bind in Hx as (u1' & Hx & Hu1).
  apply list_elem_of_bind in Hx as (u2' & Hx & Hu2).
  apply list_elem_of_singleton in Hx as [= -> -> ->].
  apply list_elem_of_filter in Hu1 as [H1%sql_eq_Some_true Hu1].
  apply list_elem_of_filter in Hu2 as [H2%sql_eq_Some_true Hu2].
  simpl in Hu1, Hu2.
  apply list_elem_of_filter in Hu1 as [Hn1 _].
  apply list_elem_of_filter in Hu2 as [Hn2 _].
  rewrite user_with_id_iff in Hn1, Hn2.
  destruct H1 as (x1 & -> & [= <-]), H2 as (x2 & -> & [= <-]).
  unfold int. split; congruence.
Qed.

(** With amina deleted, the administrator's chat with her is not listed. *)
Lemma delete_then_chats_witness :
  ∃ d1,
    Server.delete_user (Int 2) admin_session small_db =
      (json_success, d1, admin_session) ∧
    rows (chats d1) = [Chats.mk 1 (int 1) (int 2) "2024-01-02 12:00:00"] ∧
    Server.get_chats browser admin_session d1 =
      (json_chats [], d1, admin_session).
Proof.
  destruct (delete_then_chats 2 admin_session browser admin_session small_db
              eq_refl eq_refl) as (d1 & rs & Hdel & _ & _ & Hchats & _).
  exists d1. split; [exact Hdel|].
  vm_compute in Hdel. injection Hdel as <-. split; reflexivity.
Defined.

(** ** Searching users *)



Lemma like_match_percent_unfold p s :
  like_match (String "%" p) s =
  like_match p s ||
  match s with
  | EmptyString => false
  | String _ s' => like_match (String "%" p) s'
  end.
Proof. by destruct s. Qed.

Lemma like_match_skip p s :
  like_match p s = true → like_match (String "%" p) s = true.
Proof. intros Hp. by rewrite like_match_percent_unfold, Hp. Qed.

Lemma like_match_percent s : like_match "%" s = true.
Proof.
  induction s as [|c s IH]; [done|].
  rewrite like_match_percent_unfold, IH. apply orb_true_r.
Qed.






Lemma holds_sql_or a b : holds (sql_or a b) ↔ a = Some true ∨ b = Some true.
Proof.
  unfold holds. destruct a as [[]|], b as [[]|]; simpl; split;
    try done; try (by left); try (by right); by intros [|].
Qed.





Lemma found_by_listed pattern userId u :
  Server.found_by pattern userId u → Server.listed_for userId u.
Proof. by intros (_ & ? & ?). Qed.

Lemma found_by_everything pattern userId u :
  (∀ x, like_match pattern x = true) →
  Server.found_by pattern userId u ↔ Server.listed_for userId u.
Proof.
  intros Hall. split; [apply found_by_listed|]. intros [? ?].
  split; [|done]. apply holds_sql_or. left. simpl. by rewrite Hall.
Qed.

(** X27. Whatever the term, a search answers only with users the user list
    of the same session has too; for the empty term and for [%] it answers
    with the first ten, in id order, of all users that list has. *)
Theorem search_within_user_list h q s d :
  requireLogin h s = None →
  ∃ rs us,
    Server.search_users h q s d = (json_found_users rs, d, s) ∧
    Server.list_users h s d = (json_users us, d, s) ∧
    (∀ r, r ∈ rs →
       ∃ l, l ∈ us ∧ UserListRow.id l = UserSearchRow.id r ∧
            UserListRow.username l = UserSearchRow.username r) ∧
    (q = Some EmptyString ∨ q = Some "%" →
     rs = take 10
            ((λ u, UserSearchRow.mk (Users.id u) (Users.username u)
                     (Users.name u) (Users.profile_image u)) <$>
             filter (Server.listed_for (bound_userId s)) (rows (users d)))).
Proof.
  intros Hg. unfold Server.search_users, Server.list_users. rewrite Hg.
  eexists _, _. split; [done|]. split; [done|]. split.
  - intros r Hr%elem_of_take_elem_of.
    apply list_elem_of_fmap in Hr as (u & -> & Hu).
    apply list_elem_of_filter in Hu as [Hf%found_by_listed Hu].
    exists (UserListRow.mk (Users.id u) (Users.username u) (Users.name u)
              (Users.profile_image u) (Users.created_at u)
              (post_count_of d u)).
    split; [|done].
    apply list_elem_of_fmap. exists u. split; [done|].
    rewrite merge_sort_Permutation. by apply list_elem_of_filter.
  - intros Hq. f_equal. f_equal. apply list_filter_iff. intros u.
    apply found_by_everything. intros x.
    destruct Hq as [->| ->].
    + exact (like_match_skip "%" x (like_match_percent x)).
    + exact (like_match_skip "%%" x
               (like_match_skip "%" x (like_match_percent x))).
Qed.

(** Bashir's search for the empty term gives the administrator and amina. *)
Lemma search_within_user_list_witness :
  Server.search_users browser (Some EmptyString) bashir_session small_db =
    (json_found_users
       [UserSearchRow.mk 1 "admin" (Some "Admin User")
          "images/default-profile.png";
        UserSearchRow.mk 2 "amina" (Users.name amina)
          "images/default-profile.png"],
     small_db, bashir_session).
Proof.
  destruct (search_within_user_list browser (Some EmptyString) bashir_session
              small_db eq_refl) as (rs & us & Hs & _ & _ & Hall).
  rewrite Hs, (Hall (or_introl eq_refl)). reflexivity.
Defined.

(** ** The search box and a post without content *)




(** ** Accounts and requests without administrator rights *)

(** X29. A request whose session is not an administrator's deletes no
    account and changes no account's [is_blocked] or [is_admin], whatever
    the route: every users row is still there afterwards, with the same id
    and the same two flags. *)
Theorem non_admin_keeps_accounts k s d u :
  served k →
  requireAdmin s ≠ None →
  u ∈ rows (users d) →
  ∃ u', u' ∈ rows (users (k s d).1.2) ∧
        Users.id u' = Users.id u ∧
        Users.is_blocked u' = Users.is_blocked u ∧
        Users.is_admin u' = Users.is_admin u.
Proof.
  intros Hk Hs Hu.
  assert (Hupd : ∀ (P : Users.t → Prop) (dec : ∀ r, Decision (P r)) g,
    (∀ r, Users.id (g r) = Users.id r ∧
          Users.is_blocked (g r) = Users.is_blocked r ∧
          Users.is_admin (g r) = Users.is_admin r) →
    ∃ u', u' ∈ rows (update_where P g (users d)) ∧
          Users.id u' = Users.id u ∧
          Users.is_blocked u' = Users.is_blocked u ∧
          Users.is_admin u' = Users.is_admin u).
  { intros P dec g Hg. exists (if decide (P u) then g u else u). split.
    - simpl. apply list_elem_of_fmap. by exists u.
    - case_decide; [apply Hg|done]. }
  destruct Hk as [k Hk| | | | | | | | | | | | | | | ]; [destruct Hk|..].
  all: unfold_routes; unfold register_insert, insert_user, insert_post.
  all: repeat case_match; simplify_eq; simpl; try login_db.
  all: try (by exists u).
  all: try (by apply Hupd).
  all: try (exists u; split; [apply elem_of_app; by left|done]).
Qed.

(** Amina is no administrator: her block request leaves bashir as he was. *)
Lemma non_admin_keeps_accounts_witness :
  ∃ u',
    u' ∈ rows (users (lift (Server.block_user (Int 3) true) amina_session
                        small_db).1.2) ∧
    Users.id u' = 3 ∧ Users.is_blocked u' = 0 ∧ Users.is_admin u' = 0.
Proof.
  apply (non_admin_keeps_accounts (lift (Server.block_user (Int 3) true))
           amina_session small_db bashir).
  - do 2 constructor.
  - discriminate.
  - by right; right; left.
Defined.
